(** * aiodav: a shallow embedding of the WebDAV client core

    The development follows the layout of the package.  Definitions:
    - [PyStr]  : the pieces of Python's [str], [re] and [urllib.parse]
                 that the package relies on;
    - [Urn]    : [aiodav/urn.py], the path model;
    - [Xml]    : the element trees handled by [aiodav/utils.py];
    - [Py]     : exceptions, results and the few Python values needed;
    - [WebDavXmlUtils] : [aiodav/utils.py], the XML wire codec;
    - [Http], [Os], [IO] : the HTTP session, the local file system, and
                 the world an operation runs in, with its monad;
    - [Client] : [aiodav/client.py], the operation orchestrator and the
                 transfer engine;
    - [Scenario] : small servers and worlds to run the operations on.
    Properties follow, in the same order.

    A Python [str] is represented by the sequence of its UTF-8 bytes
    (Rocq's [string]); percent-decoding is byte-wise, which is what
    [urllib.parse.unquote] computes whenever the decoded bytes are
    well-formed UTF-8. *)

From stdpp Require Import base strings list gmap.
From Stdlib Require Import ZArith NArith Ascii String Lia.

Open Scope string_scope.
Open Scope Z_scope.

Abbreviation byte := Byte.byte.

(* ===================================================================== *)
(** ** Python strings, [re.sub] and [urllib.parse]                        *)
(* ===================================================================== *)

Module PyStr.

Definition slash : ascii := "/"%char.
Definition dot : ascii := "."%char.

Definition is_slash (c : ascii) : bool := Ascii.eqb c slash.
Definition is_dot (c : ascii) : bool := Ascii.eqb c dot.

(** [s.startswith("/")] *)
Definition startswith_sep (s : string) : bool :=
  match s with
  | String c _ => is_slash c
  | EmptyString => false
  end.

(** [s.endswith("/")] *)
Fixpoint endswith_sep (s : string) : bool :=
  match s with
  | EmptyString => false
  | String c EmptyString => is_slash c
  | String _ t => endswith_sep t
  end.

(** [s[-1]]: the last character, [None] standing for [IndexError]. *)
Fixpoint last_char (s : string) : option ascii :=
  match s with
  | EmptyString => None
  | String c EmptyString => Some c
  | String _ t => last_char t
  end.

(** [s[:-1]] *)
Fixpoint drop_last (s : string) : string :=
  match s with
  | EmptyString => EmptyString
  | String _ EmptyString => EmptyString
  | String c t => String c (drop_last t)
  end.

(** [s[n:]] *)
Fixpoint drop (n : nat) (s : string) : string :=
  match n, s with
  | O, _ => s
  | S _, EmptyString => EmptyString
  | S k, String _ t => drop k t
  end.

(** [s.count("/")] *)
Fixpoint count_sep (s : string) : nat :=
  match s with
  | EmptyString => O
  | String c t => ((if is_slash c then 1 else 0) + count_sep t)%nat
  end.

(** [s.split("/")]: never empty, one more piece than separators. *)
Fixpoint split_sep (s : string) : list string :=
  match s with
  | EmptyString => [EmptyString]
  | String c t =>
      if is_slash c then EmptyString :: split_sep t
      else match split_sep t with
           | w :: ws => String c w :: ws
           | [] => [String c EmptyString]
           end
  end.

(** ["/".join(l)] *)
Fixpoint join_sep (l : list string) : string :=
  match l with
  | [] => EmptyString
  | [w] => w
  | w :: ws => w +:+ String slash (join_sep ws)
  end.

(** [s.rstrip("/")] *)
Fixpoint rstrip_sep (s : string) : string :=
  match s with
  | EmptyString => EmptyString
  | String c t =>
      match rstrip_sep t with
      | EmptyString => if is_slash c then EmptyString else String c EmptyString
      | t' => String c t'
      end
  end.

(** The characters [str.strip] and [int] take for white space. *)
Definition is_space (c : ascii) : bool :=
  let n := N_of_ascii c in
  ((9 <=? n)%N && (n <=? 13)%N) || ((28 <=? n)%N && (n <=? 32)%N).

(** [s.lstrip()] *)
Fixpoint lstrip (s : string) : string :=
  match s with
  | String c t => if is_space c then lstrip t else s
  | EmptyString => EmptyString
  end.

(** [s.rstrip()] *)
Fixpoint rstrip (s : string) : string :=
  match s with
  | EmptyString => EmptyString
  | String c t =>
      match rstrip t with
      | EmptyString => if is_space c then EmptyString else String c EmptyString
      | t' => String c t'
      end
  end.

(** [s.strip()] *)
Definition strip (s : string) : string := rstrip (lstrip s).

(** *** The three regular expressions of [urn.py]

    [re.sub] replaces the leftmost non-overlapping matches, scanning
    from left to right and resuming after the text of each match. *)

(** Number of leading ["."] characters of [s]. *)
Fixpoint leading_dots (s : string) : nat :=
  match s with
  | String c t => if is_dot c then S (leading_dots t) else O
  | EmptyString => O
  end.

(** Does [\.+/] match at the head of [s]?  The match is then the
    leading dots and the separator after them. *)
Definition dots_then_sep (s : string) : bool :=
  (0 <? leading_dots s)%nat && startswith_sep (drop (leading_dots s) s).

(** [re.sub("/\.+/", "/", s)].  [skip] counts the characters of the
    current match that are still to be consumed. *)
Fixpoint sub_dots_from (skip : nat) (s : string) : string :=
  match s with
  | EmptyString => EmptyString
  | String c t =>
      match skip with
      | S k => sub_dots_from k t
      | O =>
          if is_slash c && dots_then_sep t
          then String slash (sub_dots_from (S (leading_dots t)) t)
          else String c (sub_dots_from O t)
      end
  end.

Definition sub_dots (s : string) : string := sub_dots_from O s.

(** Does ["/\.+/"] match somewhere in [s]? *)
Fixpoint search_dots (s : string) : bool :=
  match s with
  | EmptyString => false
  | String c t => (is_slash c && dots_then_sep t) || search_dots t
  end.

(** A maximal run of separators becomes one separator.  With the
    replacement ["/"] the patterns ["/+"] (in [Urn.__init__]) and
    ["/{2,}"] (in [Urn.normalize_path]) denote this same function: a
    run of length one is replaced by itself. *)
Fixpoint squeeze (s : string) : string :=
  match s with
  | EmptyString => EmptyString
  | String c t =>
      if is_slash c && startswith_sep t then squeeze t
      else String c (squeeze t)
  end.

(** [re.sub("/+", "/", s)] *)
Definition sub_sep_plus (s : string) : string := squeeze s.
(** [re.sub("/{2,}", "/", s)] *)
Definition sub_sep_twice (s : string) : string := squeeze s.

(** *** [urllib.parse.quote] with its default [safe="/"] *)

Definition in_range (lo hi : N) (c : ascii) : bool :=
  let n := N_of_ascii c in (lo <=? n)%N && (n <=? hi)%N.

Definition is_digit (c : ascii) : bool := in_range 48 57 c.
Definition is_upper (c : ascii) : bool := in_range 65 90 c.
Definition is_lower (c : ascii) : bool := in_range 97 122 c.
Definition is_alpha (c : ascii) : bool := is_upper c || is_lower c.

(** The characters [quote] never escapes: letters, digits, [_.-~],
    and the separator, which is the default [safe]. *)
Definition is_unreserved (c : ascii) : bool :=
  is_alpha c || is_digit c
  || Ascii.eqb c "_" || Ascii.eqb c "." || Ascii.eqb c "-" || Ascii.eqb c "~".

Definition is_safe (c : ascii) : bool := is_unreserved c || is_slash c.

Definition hex_digit (n : N) : ascii :=
  if (n <? 10)%N then ascii_of_N (48 + n) else ascii_of_N (55 + n).

(** ["%{:02X}".format(byte)] *)
Definition escape (c : ascii) : string :=
  let n := N_of_ascii c in
  String "%" (String (hex_digit (n / 16)) (String (hex_digit (n mod 16)) EmptyString)).

Definition quote_char (c : ascii) : string :=
  if is_safe c then String c EmptyString else escape c.

Fixpoint quote (s : string) : string :=
  match s with
  | EmptyString => EmptyString
  | String c t => quote_char c +:+ quote t
  end.

(** *** [urllib.parse.unquote] *)

Definition hex_value (c : ascii) : option N :=
  let n := N_of_ascii c in
  if is_digit c then Some (n - 48)%N
  else if in_range 65 70 c then Some (n - 55)%N
  else if in_range 97 102 c then Some (n - 87)%N
  else None.

(** A ["%"] followed by two hexadecimal digits (either case) is the
    byte they denote; any other ["%"] stays. *)
Fixpoint unquote (s : string) : string :=
  match s with
  | EmptyString => EmptyString
  | String c t =>
      if Ascii.eqb c "%" then
        match t with
        | String h (String l r) =>
            match hex_value h, hex_value l with
            | Some a, Some b => String (ascii_of_N (16 * a + b)) (unquote r)
            | _, _ => String c (unquote t)
            end
        | _ => String c (unquote t)
        end
      else String c (unquote t)
  end.

(** *** [urllib.parse.urlsplit(url).path]

    The path component as CPython computes it: leading C0 controls and
    spaces are stripped, tabs and line breaks removed, a scheme and a
    ["//netloc"] are split off, then the fragment and the query.  The
    checks that make [urlsplit] raise [ValueError] on a malformed
    bracketed host are not part of the model. *)

Definition is_c0_or_space (c : ascii) : bool := (N_of_ascii c <=? 32)%N.

Fixpoint lstrip_c0 (s : string) : string :=
  match s with
  | String c t => if is_c0_or_space c then lstrip_c0 t else s
  | EmptyString => EmptyString
  end.

Definition is_tab_or_newline (c : ascii) : bool :=
  let n := N_of_ascii c in (n =? 9)%N || (n =? 10)%N || (n =? 13)%N.

Fixpoint remove_unsafe (s : string) : string :=
  match s with
  | EmptyString => EmptyString
  | String c t =>
      if is_tab_or_newline c then remove_unsafe t else String c (remove_unsafe t)
  end.

(** [before c s], [after c s]: the two sides of the first [c] in [s];
    [after] is [None] when [c] does not occur. *)
Fixpoint before (c : ascii) (s : string) : string :=
  match s with
  | EmptyString => EmptyString
  | String d t => if Ascii.eqb d c then EmptyString else String d (before c t)
  end.

Fixpoint after (c : ascii) (s : string) : option string :=
  match s with
  | EmptyString => None
  | String d t => if Ascii.eqb d c then Some t else after c t
  end.

Definition is_scheme_char (c : ascii) : bool :=
  is_alpha c || is_digit c || Ascii.eqb c "+" || Ascii.eqb c "-" || Ascii.eqb c ".".

Fixpoint all_chars (p : ascii -> bool) (s : string) : bool :=
  match s with
  | EmptyString => true
  | String c t => p c && all_chars p t
  end.

Definition strip_scheme (url : string) : string :=
  match after ":" url with
  | Some rest =>
      let sch := before ":" url in
      match sch with
      | String c _ =>
          if is_alpha c && all_chars is_scheme_char sch then rest else url
      | EmptyString => url
      end
  | None => url
  end.

(** The netloc ends at the first of [/], [?], [#]. *)
Fixpoint skip_netloc (s : string) : string :=
  match s with
  | EmptyString => EmptyString
  | String c t =>
      if is_slash c || Ascii.eqb c "?" || Ascii.eqb c "#" then s
      else skip_netloc t
  end.

Definition strip_netloc (url : string) : string :=
  match url with
  | String a (String b t) =>
      if is_slash a && is_slash b then skip_netloc t else url
  | _ => url
  end.

Definition urlsplit_path (url : string) : string :=
  let url := remove_unsafe (lstrip_c0 url) in
  let url := strip_netloc (strip_scheme url) in
  before "?" (before "#" url).

End PyStr.

(* ===================================================================== *)
(** ** [aiodav/urn.py]                                                    *)
(* ===================================================================== *)

Module Urn.
Import PyStr.

(** [Urn.separate] *)
Definition separate : string := String slash EmptyString.

(** An [Urn] object: its only attribute is [_path]. *)
Record t : Type := Mk { _path : string }.

(** [Urn.__init__(path, directory)] *)
Definition init (path : string) (directory : bool) : t :=
  let p := quote path in
  (* for expression in ("/\.+/", "/+"): sub(expression, "/", _path) *)
  let p := sub_dots p in
  let p := sub_sep_plus p in
  let p := if negb (startswith_sep p) then separate +:+ p else p in
  let p := if directory && negb (endswith_sep p) then p +:+ separate else p in
  Mk p.

(** The value [__init__] gives [_path] before it looks at [directory]. *)
Definition rooted (p : string) : string :=
  let q := sub_sep_plus (sub_dots (quote p)) in
  if negb (startswith_sep q) then separate +:+ q else q.

(** [Urn.path()] *)
Definition path (u : t) : string := unquote (_path u).

(** [Urn.quote()] *)
Definition quoted (u : t) : string := _path u.

(** [Urn.nesting_level()]: [_path.count("/", 0, -1)] *)
Definition nesting_level (u : t) : nat := count_sep (drop_last (_path u)).

(** [Urn.filename()].  [path_split[-1]] and [path_split[-2]] exist:
    [_path] starts with the separator, so it splits in two pieces at
    least. *)
Definition filename (u : t) : string :=
  let path_split := split_sep (_path u) in
  let n := List.length path_split in
  let last1 := default EmptyString (path_split !! (n - 1)%nat) in
  let last2 := default EmptyString (path_split !! (n - 2)%nat) in
  let name := if String.eqb last1 EmptyString then last2 +:+ separate else last1 in
  unquote name.

(** [Urn.parent()] *)
Definition parent (u : t) : string :=
  let path_split := split_sep (_path u) in
  let nesting_level := nesting_level u in
  let parent_path_split := take nesting_level path_split in
  let parent :=
    if negb (Nat.eqb nesting_level 1) then join_sep parent_path_split else separate in
  if negb (endswith_sep parent) then unquote (parent +:+ separate)
  else unquote parent.

(** [Urn.is_dir()]: [_path[-1] == "/"]; [None] stands for the
    [IndexError] of an empty [_path]. *)
Definition is_dir (u : t) : option bool :=
  match last_char (_path u) with
  | Some c => Some (is_slash c)
  | None => None
  end.

(** [Urn.normalize_path(path)] *)
Definition normalize_path (path : string) : string :=
  let result := sub_sep_twice path in
  if (String.length result <? 1)%nat || negb (endswith_sep result) then result
  else drop_last result.

(** [Urn.compare_path(path_a, href)] *)
Definition compare_path (path_a href : string) : bool :=
  let unqouted_path := separate +:+ unquote (urlsplit_path href) in
  String.eqb (normalize_path path_a) (normalize_path unqouted_path).

End Urn.


(* ===================================================================== *)
(** ** Element trees                                                      *)
(* ===================================================================== *)

Module Xml.

(** An [lxml] element: tag (in Clark notation for parsed documents),
    attributes, text and children. *)
#[warnings="-register-all"] Inductive element : Type :=
  Element (tag : string) (attrib : list (string * string))
          (text : option string) (children : list element).

Definition tag (e : element) : string := let (t, _, _, _) := e in t.
Definition attrib (e : element) : list (string * string) := let (_, a, _, _) := e in a.
Definition text (e : element) : option string := let (_, _, x, _) := e in x.
Definition children (e : element) : list element := let (_, _, _, c) := e in c.

(** What [etree.fromstring] makes of a body: a tree, or [XMLSyntaxError]. *)
Inductive document : Type :=
| WellFormed (root : element)
| XMLSyntaxError.

(** The proper descendants of an element, in document order. *)
Fixpoint descendants (e : element) : list element :=
  match e with
  | Element _ _ _ cs => flat_map (fun c => c :: descendants c) cs
  end.

Definition has_tag (name : string) (e : element) : bool := String.eqb (tag e) name.

(** [e.findall(".//" + name)] *)
Definition findall_deep (name : string) (e : element) : list element :=
  List.filter (has_tag name) (descendants e).

(** [e.find(".//" + name)] *)
Definition find_deep (name : string) (e : element) : option element :=
  head (findall_deep name e).

(** [e.findall(name)] *)
Definition findall_child (name : string) (e : element) : list element :=
  List.filter (has_tag name) (children e).

(** [e.find(name)] *)
Definition find_child (name : string) (e : element) : option element :=
  head (findall_child name e).

(** [findtext]: [None] when nothing matches, the empty string when the
    element found has no text. *)
Definition text_or_empty (e : element) : string := default EmptyString (text e).

Definition findtext_deep (name : string) (e : element) : option string :=
  text_or_empty <$> find_deep name e.

Definition findtext_child (name : string) (e : element) : option string :=
  text_or_empty <$> find_child name e.

(** [etree.SubElement(parent, ...)]: the new element is appended to the
    children of [parent]. *)
Definition append_child (parent child : element) : element :=
  match parent with
  | Element t a x cs => Element t a x (cs ++ [child])
  end.

End Xml.

(* ===================================================================== *)
(** ** Exceptions and Python values                                       *)
(* ===================================================================== *)

Module Py.

(** Modelled from the spec: [aiodav/exceptions.py] is not among the
    sources; the first nine kinds are the taxonomy of section 7, with the
    arguments the callers pass.  The others are built-in exceptions of
    Python that the modelled code can raise, the syntax error of the XML
    parser, and the two exceptions of the HTTP library that
    [_execute_request] handles. *)
Inductive exn : Type :=
| NotEnoughSpace
| RemoteResourceNotFound (path : string)
| RemoteParentNotFound (path : string)
| MethodNotSupported (name server : string)
| ResponseErrorCode (url : string) (code : Z)
| OptionNotValid (name value : string)
| LocalResourceNotFound (path : string)
| NoConnection (hostname : string)
| ConnectionException
| AttributeError (obj name : string)
| TypeError (what : string)
| KeyError (key : string)
| ValueError (what : string)
| FileNotFoundError (path : string)
| IsADirectoryError (path : string)
| IndexError
| RecursionError
| LxmlSyntaxError
| ClientConnectionError
| ClientResponseError.

(** The exceptions that are not [LocalResourceNotFound]. *)
Definition not_local (e : exn) : Prop := forall p, e <> LocalResourceNotFound p.

(** Outcome of a call: the value returned or the exception raised. *)
Inductive result (A : Type) : Type :=
| Ok (a : A)
| Raise (e : exn).
Arguments Ok {A} a.
Arguments Raise {A} e.

(** A [dict] with string keys and values, in insertion order. *)
Definition dict : Type := list (string * string).

Fixpoint dict_get (k : string) (d : dict) : option string :=
  match d with
  | [] => None
  | (k', v) :: d' => if String.eqb k' k then Some v else dict_get k d'
  end.

(** [d[k] = v] *)
Fixpoint dict_set (k v : string) (d : dict) : dict :=
  match d with
  | [] => [(k, v)]
  | (k', v') :: d' =>
      if String.eqb k' k then (k, v) :: d' else (k', v') :: dict_set k v d'
  end.

(** The values an argument documented as a property description can
    hold at run time. *)
#[warnings="-register-all"] Inductive value : Type :=
| Str (s : string)
| Dict (d : dict)
| List (l : list value).

Definition one_char (c : ascii) : value := Str (String c EmptyString).

(** [for x in v]: a [dict] yields its keys, a [str] its characters. *)
Definition iterate (v : value) : list value :=
  match v with
  | Str s => one_char <$> list_ascii_of_string s
  | Dict d => (fun kv => Str (fst kv)) <$> d
  | List l => l
  end.

(** [v[key]] for a string key. *)
Definition getitem (v : value) (key : string) : result string :=
  match v with
  | Dict d =>
      match dict_get key d with
      | Some x => Ok x
      | None => Raise (KeyError key)
      end
  | Str _ => Raise (TypeError "string indices must be integers")
  | List _ => Raise (TypeError "list indices must be integers or slices")
  end.

(** [v.get(key, default)] *)
Definition get_default (v : value) (key dflt : string) : result string :=
  match v with
  | Dict d => Ok (default dflt (dict_get key d))
  | Str _ => Raise (AttributeError "str" "get")
  | List _ => Raise (AttributeError "list" "get")
  end.

(** [int(s)] for a decimal literal with an optional sign, surrounded by
    optional white space; [None] stands for [ValueError].  Digit
    grouping with underscores and non-ASCII digits are not modelled. *)
Fixpoint digits (acc : Z) (s : string) : option Z :=
  match s with
  | EmptyString => Some acc
  | String c t =>
      if PyStr.is_digit c
      then digits (10 * acc + Z.of_N (N_of_ascii c - 48)) t
      else if PyStr.all_chars PyStr.is_space s then Some acc
      else None
  end.

Definition unsigned_int (s : string) : option Z :=
  match s with
  | String c _ => if PyStr.is_digit c then digits 0 s else None
  | EmptyString => None
  end.

Definition int (s : string) : option Z :=
  match PyStr.lstrip s with
  | String "-" t => Z.opp <$> unsigned_int t
  | String "+" t => unsigned_int t
  | t => unsigned_int t
  end.

End Py.

(* ===================================================================== *)
(** ** [aiodav/utils.py]                                                  *)
(* ===================================================================== *)

Module WebDavXmlUtils.
Import Xml Py.

Definition dav (name : string) : string := "{DAV:}" +:+ name.

(** The text of an [href] element as [urlsplit] and [unquote] take it:
    they read a missing text as the empty string. *)
Definition href_text (e : element) : string := default EmptyString (text e).

(** The entries [get_info_from_response] collects. *)
Record info : Type := Info {
  created : option string;
  name : option string;
  size : option string;
  modified : option string;
  etag : option string
}.

(** An entry of [parse_get_list_info_response]: the same with [isdir]
    and [path]. *)
Record list_info : Type := ListInfo {
  attributes : info;
  isdir : bool;
  path : string
}.

(** [WebDavXmlUtils.get_info_from_response(response)] *)
Definition get_info_from_response (response : element) : info :=
  {| created := findtext_deep (dav "creationdate") response;
     name := findtext_deep (dav "displayname") response;
     size := findtext_deep (dav "getcontentlength") response;
     modified := findtext_deep (dav "getlastmodified") response;
     etag := findtext_deep (dav "getetag") response |}.

(** [WebDavXmlUtils.parse_get_list_info_response(content)] *)
Definition parse_get_list_info_response (content : document) : list list_info :=
  match content with
  | XMLSyntaxError => []
  | WellFormed tree =>
      omap (fun response =>
              match head (findall_deep (dav "href") response) with
              | None => None
              | Some href_el =>
                  let path := PyStr.unquote (PyStr.urlsplit_path (href_text href_el)) in
                  let is_dir :=
                    (0 <? List.length (findall_deep (dav "collection") response))%nat in
                  Some {| attributes := get_info_from_response response;
                          isdir := is_dir; path := path |}
              end)
           (findall_deep (dav "response") tree)
  end.

(** [WebDavXmlUtils.parse_get_list_response(content)] *)
Definition parse_get_list_response (content : document) : list Urn.t :=
  match content with
  | XMLSyntaxError => []
  | WellFormed tree =>
      omap (fun response =>
              match head (findall_deep (dav "href") response) with
              | None => None
              | Some href_el =>
                  let href :=
                    Urn.separate +:+ PyStr.unquote (PyStr.urlsplit_path (href_text href_el)) in
                  let is_dir :=
                    (0 <? List.length (findall_deep (dav "collection") response))%nat in
                  Some (Urn.init href is_dir)
              end)
           (findall_deep (dav "response") tree)
  end.

(** [WebDavXmlUtils.create_free_space_request_content()]; the request
    body is represented by the tree that is serialised. *)
Definition create_free_space_request_content : element :=
  Element "propfind" [("xmlns", "DAV:")] None
    [Element "prop" [] None
       [Element "quota-available-bytes" [] None [];
        Element "quota-used-bytes" [] None []]].

(** [WebDavXmlUtils.parse_free_space_response(content, hostname)] *)
Definition parse_free_space_response (content : document) (hostname : string)
  : result Z :=
  match content with
  | XMLSyntaxError => Ok (-1)                 (* return -1  # TODO: replace *)
  | WellFormed tree =>
      match find_deep (dav "quota-available-bytes") tree with
      | Some node =>
          match text node with
          | None =>                            (* int(None): TypeError, caught *)
              Raise (MethodNotSupported "free" hostname)
          | Some s =>
              match int s with
              | Some n => Ok n
              | None => Raise (ValueError s)
              end
          end
      | None => Raise (MethodNotSupported "free" hostname)
      end
  end.

(** [urlparse(hostname).path], for the schemes a host name has: the
    path of [urlsplit] without the parameters of its last segment. *)
Definition last_segment_start (s : string) : nat :=
  let pieces := PyStr.split_sep s in
  (String.length s - String.length (default EmptyString (last pieces)))%nat.

Definition urlparse_path (url : string) : string :=
  let p := PyStr.urlsplit_path url in
  let k := last_segment_start p in
  substring 0 k p +:+ PyStr.before ";" (PyStr.drop k p).

(** [href.startswith(prefix)] *)
Definition startswith (prefix s : string) : bool := String.prefix prefix s.

(** The loop of [extract_response_for_path] over the [response]
    children. *)
Fixpoint first_response_for
    (n_path prefix path : string) (responses : list element) : result element :=
  match responses with
  | [] => Raise (RemoteResourceNotFound path)
  | resp :: rest =>
      match findtext_child (dav "href") resp with
      | None =>
          (* urlsplit(None).path is empty; None.startswith raises *)
          if Urn.compare_path n_path EmptyString then Ok resp
          else Raise (AttributeError "NoneType" "startswith")
      | Some href =>
          if Urn.compare_path n_path href then Ok resp
          else
            let href_without_prefix :=
              if startswith prefix href then PyStr.drop (String.length prefix) href
              else href in
            if Urn.compare_path n_path href_without_prefix then Ok resp
            else first_response_for n_path prefix path rest
      end
  end.

(** [WebDavXmlUtils.extract_response_for_path(content, path, hostname)] *)
Definition extract_response_for_path
    (content : document) (path hostname : string) : result element :=
  let prefix := urlparse_path hostname in
  match content with
  | XMLSyntaxError => Raise (MethodNotSupported "is_dir" hostname)
  | WellFormed tree =>
      let responses := findall_child (dav "response") tree in
      let n_path := Urn.normalize_path path in
      first_response_for n_path prefix path responses
  end.

(** [WebDavXmlUtils.parse_info_response(content, path, hostname)] *)
Definition parse_info_response
    (content : document) (path hostname : string) : result info :=
  match extract_response_for_path content path hostname with
  | Ok response => Ok (get_info_from_response response)
  | Raise e => Raise e
  end.

(** [WebDavXmlUtils.parse_is_dir_response(content, path, hostname)] *)
Definition parse_is_dir_response
    (content : document) (path hostname : string) : result bool :=
  match extract_response_for_path content path hostname with
  | Raise e => Raise e
  | Ok response =>
      match find_deep (dav "resourcetype") response with
      | None => Raise (MethodNotSupported "is_dir" hostname)
      | Some resource_type =>
          match find_child (dav "collection") resource_type with
          | Some _ => Ok true
          | None => Ok false
          end
      end
  end.

(** [WebDavXmlUtils.create_get_property_request_content(option)] *)
Definition create_get_property_request_content (option : value) : result element :=
  match get_default option "name" EmptyString with
  | Raise e => Raise e
  | Ok name =>
      match get_default option "namespace" EmptyString with
      | Raise e => Raise e
      | Ok ns =>
          Ok (Element "propfind" [("xmlns", "DAV:")] None
                [Element "prop" [] None [Element name [("xmlns", ns)] None []]])
      end
  end.

(** [local-name()] of a tag in Clark notation. *)
Definition local_name (tag : string) : string :=
  match tag with
  | String "{" rest => default tag (PyStr.after "}" rest)
  | _ => tag
  end.

(** [WebDavXmlUtils.parse_get_property_response(content, name)]: the
    text of the first element of the document, the root included, with
    that local name. *)
Definition parse_get_property_response (content : document) (name : string)
  : result (option string) :=
  match content with
  | XMLSyntaxError => Raise LxmlSyntaxError
  | WellFormed tree =>
      match List.filter (fun e => String.eqb (local_name (tag e)) name)
                        (tree :: descendants tree) with
      | e :: _ => Ok (text e)
      | [] => Raise IndexError
      end
  end.

(** The loop of [create_set_property_batch_request_content]. *)
Fixpoint add_properties (prop_node : element) (options : list value) : result element :=
  match options with
  | [] => Ok prop_node
  | option :: rest =>
      match getitem option "name" with
      | Raise e => Raise e
      | Ok name =>
          match get_default option "namespace" EmptyString with
          | Raise e => Raise e
          | Ok ns =>
              match get_default option "value" EmptyString with
              | Raise e => Raise e
              | Ok v =>
                  add_properties
                    (append_child prop_node (Element name [("xmlns", ns)] (Some v) []))
                    rest
              end
          end
      end
  end.

(** [WebDavXmlUtils.create_set_property_batch_request_content(options)] *)
Definition create_set_property_batch_request_content (options : value)
  : result element :=
  match add_properties (Element "prop" [] None []) (iterate options) with
  | Raise e => Raise e
  | Ok prop_node =>
      Ok (Element "propertyupdate" [("xmlns", "DAV:")] None
            [Element "set" [] None [prop_node]])
  end.

End WebDavXmlUtils.

(* ===================================================================== *)
(** ** The collaborators: HTTP session and local file system              *)
(* ===================================================================== *)

Module Http.
Import Py.

(** What is sent as the body of a request. *)
Inductive body : Type :=
| NoBody
| XmlBody (tree : Xml.element)          (* a serialised tree *)
| BufferBody (unread : list byte)       (* a file object handed over as it is *)
| ChunkedBody (chunks : list (list byte)). (* what a generator yielded *)

Record request : Type := Request {
  method : string;
  url : string;
  headers : dict;
  data : body
}.

(** A response: [content] holds the segments in which the payload
    arrives, [text] what the XML parser makes of the payload. *)
Record response : Type := Response {
  status : Z;
  resp_headers : dict;
  content : list (list byte);
  text : Xml.document
}.

(** What [session.request] does: it answers, or raises one of the two
    exceptions of the library. *)
Inductive outcome : Type :=
| Answer (r : response)
| ConnectionError
| ResponseError.

(** A server: its answer to a request may depend on every request it
    has received before. *)
Definition server : Type := list request -> request -> outcome.

Fixpoint lower (s : string) : string :=
  match s with
  | EmptyString => EmptyString
  | String c t =>
      String (if PyStr.is_upper c then ascii_of_N (N_of_ascii c + 32) else c) (lower t)
  end.

(** [response.headers[key]]: the keys compare without case. *)
Fixpoint header_get (key : string) (h : dict) : option string :=
  match h with
  | [] => None
  | (k, v) :: h' => if String.eqb (lower k) (lower key) then Some v else header_get key h'
  end.

(** Size-[n] slices of a segment; the segment has [length seg] bytes,
    so as many steps always suffice. *)
Fixpoint slices_upto (steps n : nat) (seg : list byte) : list (list byte) :=
  match steps, seg with
  | S k, _ :: _ => take n seg :: slices_upto k n (drop n seg)
  | _, _ => []
  end.

Definition slices (n : nat) (seg : list byte) : list (list byte) :=
  slices_upto (List.length seg) n seg.

(** The successive non-empty results of [read(n)] on a stream holding
    [segs]: at most [n] bytes of what has arrived; everything up to
    the end for a negative [n]; nothing for [n = 0]. *)
Definition reads (n : Z) (segs : list (list byte)) : list (list byte) :=
  if n <? 0 then
    match List.concat segs with [] => [] | all => [all] end
  else if n =? 0 then []
  else flat_map (slices (Z.to_nat n)) segs.

(** [response.content.iter_chunked(n)] *)
Definition iter_chunked (n : Z) (r : response) : list (list byte) :=
  reads n (content r).

End Http.

Module Os.

(** A node of the local file system. *)
Inductive node : Type :=
| File (content : list byte)
| Directory (entries : list string).

(** [os.path.isdir(path)] *)
Definition isdir (fs : gmap string node) (path : string) : bool :=
  match fs !! path with
  | Some (Directory _) => true
  | _ => false
  end.

(** [os.path.exists(path)] *)
Definition exists_ (fs : gmap string node) (path : string) : bool :=
  match fs !! path with
  | Some _ => true
  | None => false
  end.

(** [os.path.join(a, b)] *)
Definition join (a b : string) : string :=
  if PyStr.startswith_sep b then b
  else if String.eqb a EmptyString || PyStr.endswith_sep a then a +:+ b
  else a +:+ String PyStr.slash b.

End Os.

(* ===================================================================== *)
(** ** The world and its monad                                            *)
(* ===================================================================== *)

Module IO.
Import Py.

(** Everything an operation can touch: the server behind the session,
    the requests put on the wire so far (they are the history the server
    answers from), the calls received by the progress callback, the
    bytes written to the download buffer, and the local file system. *)
Record world : Type := World {
  remote : Http.server;
  wire : list Http.request;
  progress_calls : list (Z * option Z);
  sink : list byte;
  local : gmap string Os.node
}.

(** A coroutine, once awaited: it runs in a world, returns or raises,
    and leaves a world. *)
Definition M (A : Type) : Type := world -> result A * world.

Definition ret {A} (a : A) : M A := fun w => (Ok a, w).

Definition raise {A} (e : exn) : M A := fun w => (Raise e, w).

Definition bind {A B} (m : M A) (k : A -> M B) : M B :=
  fun w =>
    match m w with
    | (Ok a, w') => k a w'
    | (Raise e, w') => (Raise e, w')
    end.

(** [try: m except ...: handler] *)
Definition try_except {A} (m : M A) (handler : exn -> M A) : M A :=
  fun w =>
    match m w with
    | (Ok a, w') => (Ok a, w')
    | (Raise e, w') => handler e w'
    end.

Definition lift {A} (r : result A) : M A :=
  match r with
  | Ok a => ret a
  | Raise e => raise e
  end.

(** [for x in l: body(x)] *)
Fixpoint for_each {A} (l : list A) (body : A -> M unit) : M unit :=
  match l with
  | [] => ret tt
  | x :: rest => bind (body x) (fun _ => for_each rest body)
  end.

(** The object a call to an [async def] returns. *)
Definition coroutine (A : Type) : Type := M A.

(** [await c] runs the coroutine. *)
Definition await {A} (c : coroutine A) : M A := c.

(** A call whose coroutine object is dropped: nothing of it runs. *)
Definition not_awaited {A} (c : coroutine A) : M unit := ret tt.

(** The world once a request has gone on the wire. *)
Definition sent (r : Http.request) (w : world) : world :=
  {| remote := remote w; wire := wire w ++ [r];
     progress_calls := progress_calls w;
     sink := sink w; local := local w |}.

(** [session.request(...)] and [session.get(...)]: the request goes on
    the wire and the server answers it. *)
Definition session_request (r : Http.request) : M Http.response :=
  fun w =>
    match remote w (wire w) r with
    | Http.Answer resp => (Ok resp, sent r w)
    | Http.ConnectionError => (Raise ClientConnectionError, sent r w)
    | Http.ResponseError => (Raise ClientResponseError, sent r w)
    end.

(** [progress(current, total)] *)
Definition call_progress (current : Z) (total : option Z) : M unit :=
  fun w =>
    (Ok tt, {| remote := remote w; wire := wire w;
               progress_calls := progress_calls w ++ [(current, total)];
               sink := sink w; local := local w |}).

(** [buffer.write(block)] *)
Definition buffer_write (block : list byte) : M unit :=
  fun w =>
    (Ok tt, {| remote := remote w; wire := wire w;
               progress_calls := progress_calls w;
               sink := sink w ++ block; local := local w |}).

(** Reading the local file system. *)
Definition local_fs : M (gmap string Os.node) := fun w => (Ok (local w), w).

(** [quiet Q m]: [m] only adds requests satisfying [Q] to the wire and
    changes nothing else of the world. *)
Definition quiet {A} (Q : Http.request -> bool) (m : M A) : Prop :=
  forall w r w',
    m w = (r, w') ->
    remote w' = remote w /\ local w' = local w /\ sink w' = sink w
    /\ progress_calls w' = progress_calls w
    /\ exists l, (wire w' = wire w ++ l)%list /\ forallb Q l = true.

(** [raises_only P m]: every exception [m] raises satisfies [P]. *)
Definition raises_only {A} (P : exn -> Prop) (m : M A) : Prop :=
  forall w e w', m w = (Raise e, w') -> P e.

End IO.

Declare Scope io_scope.
Delimit Scope io_scope with io.
Notation "'let*' x := m 'in' k" := (IO.bind m (fun x => k))
  (at level 10, x name, m at level 100, k at level 200,
   format "'[v' 'let*'  x  :=  m  'in' '/' k ']'") : io_scope.

(* ===================================================================== *)
(** ** [aiodav/client.py]                                                 *)
(* ===================================================================== *)

Module Client.
Import Py IO.
Local Open Scope io_scope.

(** The attributes of a [Client] that the operations read;
    [session_auth] tells whether [session.auth] is set.  The proxy and
    TLS settings are handed to the session unchanged and are left out. *)
Record t : Type := Make {
  _hostname : string;
  _token : option string;
  _root : string;
  _chunk_size : Z;
  session_auth : bool
}.

(** Truth value of an optional string: [None] and the empty string are
    false. *)
Definition truthy (o : option string) : bool :=
  match o with
  | Some (String _ _) => true
  | _ => false
  end.

(** [Client.__init__] *)
Definition init (hostname : string) (login password token root : option string)
    (chunk_size : option Z) : t :=
  {| _hostname := PyStr.rstrip_sep hostname;
     _token := token;
     _root :=
       PyStr.rstrip_sep
         (match root with
          | Some (String _ _ as r) => Urn.quoted (Urn.init r false)
          | _ => EmptyString
          end);
     _chunk_size :=
       match chunk_size with
       | Some n => if n =? 0 then 65536 else n
       | None => 65536
       end;
     session_auth := truthy login && truthy password |}.

(** The keys of [DEFAULT_REQUESTS] the operations use. *)
Inductive action : Type :=
| list_ | free_ | copy_ | move_ | mkdir_ | clean_ | check_ | info_
| get_property_ | set_property_ | download_ | upload_.

Definition action_name (a : action) : string :=
  match a with
  | list_ => "list" | free_ => "free" | copy_ => "copy" | move_ => "move"
  | mkdir_ => "mkdir" | clean_ => "clean" | check_ => "check" | info_ => "info"
  | get_property_ => "get_property" | set_property_ => "set_property"
  | download_ => "download" | upload_ => "upload"
  end.

(** [Client.DEFAULT_REQUESTS] *)
Definition DEFAULT_REQUESTS (a : action) : string :=
  match a with
  | download_ => "GET"
  | upload_ => "PUT"
  | copy_ => "COPY"
  | move_ => "MOVE"
  | mkdir_ => "MKCOL"
  | clean_ => "DELETE"
  | check_ => "HEAD"
  | list_ | free_ | info_ | get_property_ => "PROPFIND"
  | set_property_ => "PROPPATCH"
  end.

(** [Client.DEFAULT_HTTP_HEADER]; [download] and [upload] have no entry. *)
Definition DEFAULT_HTTP_HEADER (a : action) : option (list string) :=
  match a with
  | list_ => Some ["Accept: */*"; "Depth: 1"]
  | free_ => Some ["Accept: */*"; "Depth: 0"; "Content-Type: text/xml"]
  | copy_ => Some ["Accept: */*"]
  | move_ => Some ["Accept: */*"]
  | mkdir_ => Some ["Accept: */*"; "Connection: Keep-Alive"]
  | clean_ => Some ["Accept: */*"; "Connection: Keep-Alive"]
  | check_ => Some ["Accept: */*"]
  | info_ => Some ["Accept: */*"; "Depth: 1"]
  | get_property_ =>
      Some ["Accept: */*"; "Depth: 1"; "Content-Type: application/x-www-form-urlencoded"]
  | set_property_ =>
      Some ["Accept: */*"; "Depth: 1"; "Content-Type: application/x-www-form-urlencoded"]
  | download_ | upload_ => None
  end.

(** [map(lambda s: s.strip(), x.split(":", 1))] *)
Definition split_header (x : string) : string * string :=
  (PyStr.strip (PyStr.before ":" x),
   PyStr.strip (default EmptyString (PyStr.after ":" x))).

Definition update (d ext : dict) : dict :=
  fold_left (fun h kv => dict_set (fst kv) (snd kv) h) ext d.

(** [Client._get_headers(action, headers_ext)] *)
Definition _get_headers (c : t) (a : action) (headers_ext : dict) : dict :=
  let headers :=
    match DEFAULT_HTTP_HEADER a with
    | Some l => update [] (split_header <$> l)
    | None => []
    end in
  let headers := update headers headers_ext in
  match _token c with
  | Some (String _ _ as token) => dict_set "Authorization" ("Bearer " +:+ token) headers
  | _ => headers
  end.

(** [Client._get_url(path)] *)
Definition _get_url (c : t) (path : string) : string :=
  _hostname c +:+ _root c +:+ path.

(** [Client.get_full_path(urn)] *)
Definition get_full_path (c : t) (urn : Urn.t) : string :=
  _root c +:+ Urn.path urn.

(** The [data] argument of [_execute_request]. *)
Inductive payload : Type :=
| NoData
| XmlData (tree : Xml.element)
| Buffer (unread : list byte)
| Generator (g : M (list (list byte))).

(** The body sent for an argument that is not a generator. *)
Definition body_of (data : payload) : Http.body :=
  match data with
  | XmlData tree => Http.XmlBody tree
  | Buffer unread => Http.BufferBody unread
  | _ => Http.NoBody
  end.

Definition plain_data (data : payload) : bool :=
  match data with
  | Generator _ => false
  | _ => true
  end.

(** The session consumes a generator while it sends the request. *)
Definition send_body (data : payload) : M Http.body :=
  match data with
  | NoData => ret Http.NoBody
  | XmlData tree => ret (Http.XmlBody tree)
  | Buffer unread => ret (Http.BufferBody unread)
  | Generator g => let* chunks := g in ret (Http.ChunkedBody chunks)
  end.

(** The request of [session.get(url=self._hostname)]. *)
Definition auth_request (c : t) : Http.request :=
  {| Http.method := "GET"; Http.url := _hostname c;
     Http.headers := []; Http.data := Http.NoBody |}.

(** [if self.session.auth: await self.session.get(url=self._hostname)] *)
Definition authenticate (c : t) : M unit :=
  if session_auth c
  then let* _ := session_request (auth_request c) in ret tt
  else ret tt.

(** The request [_execute_request] hands to [session.request]. *)
Definition primary_request (c : t) (a : action) (path : string)
    (body : Http.body) (headers_ext : dict) : Http.request :=
  {| Http.method := DEFAULT_REQUESTS a;
     Http.url := _get_url c path;
     Http.headers := _get_headers c a headers_ext;
     Http.data := body |}.

(** The status checks of [_execute_request]. *)
Definition check_status (c : t) (a : action) (path : string)
    (response : Http.response) : result Http.response :=
  if Http.status response =? 507 then Raise NotEnoughSpace
  else if Http.status response =? 404 then Raise (RemoteResourceNotFound path)
  else if Http.status response =? 405
       then Raise (MethodNotSupported (action_name a) (_hostname c))
  else if Http.status response >=? 400
       then Raise (ResponseErrorCode (_get_url c path) (Http.status response))
  else Ok response.

(** [Client._execute_request(action, path, data, headers_ext)] *)
Definition _execute_request (c : t) (a : action) (path : string)
    (data : payload) (headers_ext : dict) : M Http.response :=
  try_except
    (let* _ := authenticate c in
     let* body := send_body data in
     let* response := session_request (primary_request c a path body headers_ext) in
     lift (check_status c a path response))
    (fun e =>
       match e with
       | ClientConnectionError => raise (NoConnection (_hostname c))
       | ClientResponseError => raise ConnectionException
       | _ => raise e
       end).

(** [Client.exists(path)] *)
Definition exists_ (c : t) (path : string) : M bool :=
  let urn := Urn.init path false in
  try_except
    (let* response := _execute_request c check_ (Urn.quoted urn) NoData [] in
     ret (Http.status response =? 200))
    (fun e =>
       match e with
       | RemoteResourceNotFound _ => ret false
       | ResponseErrorCode _ _ => ret false
       | _ => raise e
       end).

(** What [list] returns: names, or entries with their information. *)
Inductive listing : Type :=
| Names (l : list string)
| Infos (l : list WebDavXmlUtils.list_info).

(** [Client.list(path, get_info)] *)
Definition list (c : t) (path : string) (get_info : bool) : M listing :=
  let directory_urn := Urn.init path true in
  let* missing :=
    if negb (String.eqb (Urn.path directory_urn) "/")
    then let* e := exists_ c (Urn.path directory_urn) in ret (negb e)
    else ret false in
  if missing : bool then raise (RemoteResourceNotFound (Urn.path directory_urn))
  else
    let path := Urn.normalize_path (get_full_path c directory_urn) in
    let* response := _execute_request c list_ (Urn.quoted directory_urn) NoData [] in
    let text := Http.text response in
    if get_info then
      let subfiles := WebDavXmlUtils.parse_get_list_info_response text in
      ret (Infos (List.filter
                    (fun subfile =>
                       negb (Urn.compare_path path (WebDavXmlUtils.path subfile)))
                    subfiles))
    else
      let urns := WebDavXmlUtils.parse_get_list_response text in
      ret (Names (Urn.filename <$>
                    List.filter
                      (fun urn => negb (Urn.compare_path path (Urn.path urn)))
                      urns)).

(** [Client.free()] *)
Definition free (c : t) : M Z :=
  let data := WebDavXmlUtils.create_free_space_request_content in
  let* response := _execute_request c free_ EmptyString (XmlData data) [] in
  lift (WebDavXmlUtils.parse_free_space_response (Http.text response) (_hostname c)).

(** [Client.create_directory(path)] *)
Definition create_directory (c : t) (path : string) : M bool :=
  let directory_urn := Urn.init path true in
  let* e := exists_ c (Urn.parent directory_urn) in
  if negb e then raise (RemoteParentNotFound (Urn.path directory_urn))
  else
    try_except
      (let* response := _execute_request c mkdir_ (Urn.quoted directory_urn) NoData [] in
       ret ((Http.status response =? 200) || (Http.status response =? 201)))
      (fun e =>
         match e with
         | MethodNotSupported _ _ => ret true
         | _ => raise e
         end).

(** [Client._check_remote_resource(path, urn)] *)
Definition _check_remote_resource (c : t) (path : string) (urn : Urn.t) : M unit :=
  let* e := exists_ c (Urn.path urn) in
  if e : bool then ret tt
  else
    let* e' := exists_ c (Urn.path (Urn.init path true)) in
    if e' : bool then ret tt else raise (RemoteResourceNotFound path).

(** [Client.is_directory(path)] *)
Definition is_directory (c : t) (path : string) : M bool :=
  let urn := Urn.init path false in
  let parent_urn := Urn.init (Urn.parent urn) false in
  let* _ := _check_remote_resource c path urn in
  let* response := _execute_request c info_ (Urn.quoted parent_urn) NoData [] in
  let text := Http.text response in
  let path := get_full_path c urn in
  lift (WebDavXmlUtils.parse_is_dir_response text path (_hostname c)).

(** [Client.info(path)] *)
Definition info (c : t) (path : string) : M WebDavXmlUtils.info :=
  let urn := Urn.init path false in
  let* _ := _check_remote_resource c path urn in
  let* response := _execute_request c info_ (Urn.quoted urn) NoData [] in
  let text := Http.text response in
  let path := get_full_path c urn in
  lift (WebDavXmlUtils.parse_info_response text path (_hostname c)).

(** [Client.unlink(path)] *)
Definition unlink (c : t) (path : string) : M unit :=
  let urn := Urn.init path false in
  let* _ := _execute_request c clean_ (Urn.quoted urn) NoData [] in
  ret tt.

(** [Client.delete(path)] *)
Definition delete (c : t) (path : string) : M unit := unlink c path.

(** [Client.move(source, destination, overwrite)] *)
Definition move (c : t) (source destination : string) (overwrite : bool) : M unit :=
  let urn_from := Urn.init source false in
  let* e := exists_ c (Urn.path urn_from) in
  if negb e then raise (RemoteResourceNotFound (Urn.path urn_from))
  else
    let urn_to := Urn.init destination false in
    let* e := exists_ c (Urn.parent urn_to) in
    if negb e then raise (RemoteParentNotFound (Urn.path urn_to))
    else
      let headers :=
        [("Destination", _get_url c (Urn.quoted urn_to));
         ("Overwrite", if overwrite then "T" else "F")] in
      let* _ := _execute_request c move_ (Urn.quoted urn_from) NoData headers in
      ret tt.

(** *** The transfer engine *)

(** [callable(progress)] is the only thing the engine asks of its
    [progress] argument before calling it. *)
Definition report (progress : bool) (current : Z) (total : option Z) : M unit :=
  if progress then call_progress current total else ret tt.

Definition len (block : Datatypes.list byte) : Z := Z.of_nat (List.length block).

(** The [async for] loop of [download_to]. *)
Fixpoint download_blocks (progress : bool) (total current : Z)
    (blocks : Datatypes.list (Datatypes.list byte)) : M unit :=
  match blocks with
  | [] => ret tt
  | block :: rest =>
      let* _ := buffer_write block in
      let current := current + len block in
      let* _ := report progress current (Some total) in
      download_blocks progress total current rest
  end.

(** [Client.download_to(path, buffer, progress)] *)
Definition download_to (c : t) (path : string) (progress : bool) : M unit :=
  let urn := Urn.init path false in
  let* d := is_directory c (Urn.path urn) in
  if d : bool then raise (OptionNotValid "path" path)
  else
    let* e := exists_ c (Urn.path urn) in
    if negb e then raise (RemoteResourceNotFound (Urn.path urn))
    else
      let* response := _execute_request c download_ (Urn.quoted urn) NoData [] in
      let* total :=
        match Http.header_get "content-length" (Http.resp_headers response) with
        | None => raise (KeyError "content-length")
        | Some v =>
            match int v with
            | Some n => ret n
            | None => raise (ValueError v)
            end
        end in
      let current := 0 in
      let* _ := report progress current (Some total) in
      download_blocks progress total current
        (Http.iter_chunked (_chunk_size c) response).

(** The [while] loop of [file_sender], over the non-empty results the
    successive [buffer.read(chunk_size)] give: when they run out the
    next read is empty and the loop breaks. *)
Fixpoint file_sender_loop (buffer_size current : Z)
    (reads : Datatypes.list (Datatypes.list byte))
  : M (Datatypes.list (Datatypes.list byte)) :=
  if current <? buffer_size then
    match reads with
    | [] => ret []
    | chunk :: rest =>
        let current := current + len chunk in
        let* _ := call_progress current (Some buffer_size) in
        let* chunks := file_sender_loop buffer_size current rest in
        ret (chunk :: chunks)
    end
  else ret [].

(** The generator [file_sender] of [upload_to], drained. *)
Definition file_sender (c : t) (buffer : Datatypes.list byte)
    (buffer_size : option Z) : M (Datatypes.list (Datatypes.list byte)) :=
  let current := 0 in
  let* _ := call_progress current buffer_size in
  match buffer_size with
  | None => raise (TypeError "'<' not supported between int and NoneType")
  | Some size => file_sender_loop size current (Http.reads (_chunk_size c) [buffer])
  end.

(** [Client.upload_to(path, buffer, buffer_size, progress)] *)
Definition upload_to (c : t) (path : string) (buffer : Datatypes.list byte)
    (buffer_size : option Z) (progress : bool) : M unit :=
  let urn := Urn.init path false in
  let* d := lift (match Urn.is_dir urn with
                  | Some b => Ok b
                  | None => Raise IndexError
                  end) in
  if d : bool then raise (OptionNotValid "path" path)
  else
    let* e := exists_ c (Urn.parent urn) in
    if negb e then raise (RemoteParentNotFound (Urn.path urn))
    else if progress then
      let* _ := _execute_request c upload_ (Urn.quoted urn)
                  (Generator (file_sender c buffer buffer_size)) [] in
      ret tt
    else
      let* _ := _execute_request c upload_ (Urn.quoted urn) (Buffer buffer) [] in
      ret tt.

(** [Client.upload_file(remote_path, local_path, progress)] *)
Definition upload_file (c : t) (remote_path local_path : string) (progress : bool)
  : M unit :=
  let* fs := local_fs in
  match fs !! local_path with
  | None => raise (FileNotFoundError local_path)
  | Some (Os.Directory _) => raise (IsADirectoryError local_path)
  | Some (Os.File content) =>
      let size := len content in
      upload_to c remote_path content (Some size) progress
  end.

(** [Client.upload(remote_path, local_path, progress)], given the
    coroutine function [upload_directory] it refers to.  Neither call is
    awaited. *)
Definition upload_with (upload_directory : string -> string -> coroutine unit)
    (c : t) (remote_path local_path : string) (progress : bool) : M unit :=
  let* fs := local_fs in
  if Os.isdir fs local_path
  then not_awaited (upload_directory remote_path local_path)
  else not_awaited (upload_file c remote_path local_path progress).

(** [s.replace(backslash, empty)] *)
Fixpoint remove_backslashes (s : string) : string :=
  match s with
  | EmptyString => EmptyString
  | String c t =>
      if Ascii.eqb c "\" then remove_backslashes t else String c (remove_backslashes t)
  end.

(** [Client.upload_directory(remote_path, local_path, progress)];
    [depth] bounds the nesting of calls, as the interpreter does. *)
Fixpoint upload_directory (depth : nat) (c : t) (remote_path local_path : string)
    (progress : bool) : M unit :=
  match depth with
  | O => raise RecursionError
  | S depth' =>
      let urn := Urn.init remote_path true in
      let* d := lift (match Urn.is_dir urn with
                      | Some b => Ok b
                      | None => Raise IndexError
                      end) in
      if negb d then raise (OptionNotValid "remote_path" remote_path)
      else
        let* fs := local_fs in
        if negb (Os.isdir fs local_path)
        then raise (OptionNotValid "local_path" local_path)
        else if negb (Os.exists_ fs local_path)
        then raise (LocalResourceNotFound local_path)
        else
          let* e := exists_ c (Urn.path urn) in
          let* _ := if e : bool then unlink c (Urn.path urn) else ret tt in
          let* _ := create_directory c remote_path in
          let entries :=
            match fs !! local_path with
            | Some (Os.Directory entries) => entries
            | _ => []
            end in
          for_each entries
            (fun resource_name =>
               let _remote_path := remove_backslashes (Urn.path urn +:+ resource_name) in
               let _local_path := Os.join local_path resource_name in
               await (upload_with
                        (fun r l => upload_directory depth' c r l progress)
                        c _remote_path _local_path progress))
  end.

(** [Client.upload(remote_path, local_path, progress)] *)
Definition upload (depth : nat) (c : t) (remote_path local_path : string)
    (progress : bool) : M unit :=
  upload_with (fun r l => upload_directory depth c r l progress)
    c remote_path local_path progress.

(** *** Properties of resources *)

(** The coroutine methods of [Client] that take a path and return a
    truth value.  The class defines no [__getattr__], and no other
    attribute of a [Client] is named [check]. *)
Definition path_predicates (c : t) : Datatypes.list (string * (string -> M bool)) :=
  [("exists", exists_ c);
   ("create_directory", create_directory c);
   ("is_directory", is_directory c)].

(** [self.<name>] where a path predicate is called. *)
Definition getattr (c : t) (name : string) : M (string -> M bool) :=
  match List.find (fun kv => String.eqb (fst kv) name) (path_predicates c) with
  | Some kv => ret (snd kv)
  | None => raise (AttributeError "Client" name)
  end.

(** [Client.get_property(path, option)] *)
Definition get_property (c : t) (path : string) (option : value)
  : M (Datatypes.option string) :=
  let urn := Urn.init path false in
  let* e := exists_ c (Urn.path urn) in
  if negb e then raise (RemoteResourceNotFound (Urn.path urn))
  else
    let* data := lift (WebDavXmlUtils.create_get_property_request_content option) in
    let* response :=
      _execute_request c get_property_ (Urn.quoted urn) (XmlData data) [] in
    let text := Http.text response in
    let* name := lift (getitem option "name") in
    lift (WebDavXmlUtils.parse_get_property_response text name).

(** [Client.set_property(path, option)] *)
Definition set_property (c : t) (path : string) (option : value) : M unit :=
  let urn := Urn.init path false in
  let* check := getattr c "check" in
  let* e := check (Urn.path urn) in
  if negb e then raise (RemoteResourceNotFound (Urn.path urn))
  else
    let* data :=
      lift (WebDavXmlUtils.create_set_property_batch_request_content option) in
    let* _ := _execute_request c set_property_ (Urn.quoted urn) (XmlData data) [] in
    ret tt.

(** *** Vocabulary of the statements *)

(** The requests put on the wire between two worlds. *)
Definition issued (w w' : world) : Datatypes.list Http.request :=
  drop (List.length (wire w)) (wire w').

(** How many of the requests use a method. *)
Definition count_method (m : string) (l : Datatypes.list Http.request) : nat :=
  List.length (List.filter (fun r => String.eqb (Http.method r) m) l).

(** The requests of an existence probe: the [HEAD], and the [GET] by
    which a session with credentials authenticates first. *)
Definition is_probe (r : Http.request) : bool :=
  String.eqb (Http.method r) "HEAD" || String.eqb (Http.method r) "GET".

Definition any_request (r : Http.request) : bool := true.

(** The progress calls of a transfer that starts at [current] and moves
    [blocks] one after the other. *)
Fixpoint running (total current : Z) (blocks : Datatypes.list (Datatypes.list byte))
  : Datatypes.list (Z * option Z) :=
  match blocks with
  | [] => []
  | block :: rest =>
      (current + len block, Some total) :: running total (current + len block) rest
  end.

(** Each element is smaller than the next. *)
Fixpoint ascending (l : Datatypes.list Z) : bool :=
  match l with
  | a :: (b :: _) as t => (a <? b) && ascending t
  | _ => true
  end.

(** What is asked of the progress calls of a transfer of [n] bytes: they
    start at [(0, n)], end at [(n, n)], the byte counts increase
    strictly, and every call carries the total [n]. *)
Definition progress_trace (n : Z) (calls : Datatypes.list (Z * option Z)) : Prop :=
  head calls = Some (0, Some n)
  /\ last calls = Some (n, Some n)
  /\ ascending (fst <$> calls) = true
  /\ Forall (fun call => snd call = Some n) calls.

(** The server answers [req] with a payload of [n] bytes and says so in
    [content-length]. *)
Definition serves_size (srv : Http.server) (req : Http.request) (n : Z) : Prop :=
  forall h resp,
    srv h req = Http.Answer resp ->
    (exists v, Http.header_get "content-length" (Http.resp_headers resp) = Some v
               /\ int v = Some n)
    /\ len (List.concat (Http.content resp)) = n.

End Client.

(* ===================================================================== *)
(** ** Scenarios                                                          *)
(* ===================================================================== *)

(** Small servers and worlds on which the operations are run. *)
Module Scenario.
Import Py IO.

Definition answer (st : Z) (h : dict) (segs : list (list byte)) (doc : Xml.document)
  : Http.outcome :=
  Http.Answer {| Http.status := st; Http.resp_headers := h;
                 Http.content := segs; Http.text := doc |}.

Definition plain (st : Z) : Http.outcome := answer st [] [] Xml.XMLSyntaxError.

(** A server that answers from a table keyed by method and URL, and
    [404] for everything else. *)
Fixpoint lookup (m u : string) (table : list (string * string * Http.outcome))
  : Http.outcome :=
  match table with
  | [] => plain 404
  | (m', u', o) :: rest =>
      if String.eqb m' m && String.eqb u' u then o else lookup m u rest
  end.

Definition scripted (table : list (string * string * Http.outcome)) : Http.server :=
  fun _ r => lookup (Http.method r) (Http.url r) table.

Definition start (srv : Http.server) (fs : gmap string Os.node) : world :=
  {| remote := srv; wire := []; progress_calls := []; sink := []; local := fs |}.

(** One [response] element of a multistatus body. *)
Definition entry (href : string) (collection : bool) : Xml.element :=
  Xml.Element "{DAV:}response" [] None
    [Xml.Element "{DAV:}href" [] (Some href) [];
     Xml.Element "{DAV:}propstat" [] None
       [Xml.Element "{DAV:}prop" [] None
          [Xml.Element "{DAV:}resourcetype" [] None
             (if collection then [Xml.Element "{DAV:}collection" [] None []] else [])]]].

Definition multistatus (entries : list Xml.element) : Xml.document :=
  Xml.WellFormed (Xml.Element "{DAV:}multistatus" [] None entries).

(** A client of [http://dav.example] without token or credentials, and
    one whose session carries credentials. *)
Definition client : Client.t :=
  Client.init "http://dav.example/" None None None (Some "/") None.

Definition client_auth : Client.t :=
  Client.init "http://dav.example/" (Some "user") (Some "secret") None (Some "/") (Some 4).

(** A directory [/C#/] with one file in it. *)
Definition sharp_server : Http.server :=
  scripted
    [("HEAD", "http://dav.example/C%23/", plain 200);
     ("PROPFIND", "http://dav.example/C%23/",
      answer 207 [] []
        (multistatus [entry "/C%23/" true; entry "/C%23/notes.txt" false]))].

(** A directory [/docs/] that exists already, with a file [a.bin] of
    ten bytes in it. *)
Definition ten_bytes : list byte := repeat Byte.x2a 10.

Definition docs_server : Http.server :=
  scripted
    [("GET", "http://dav.example", plain 200);
     ("HEAD", "http://dav.example/", plain 200);
     ("HEAD", "http://dav.example/docs/", plain 200);
     ("HEAD", "http://dav.example/docs/a.bin", plain 200);
     ("MKCOL", "http://dav.example/docs/", plain 405);
     ("PROPFIND", "http://dav.example/docs/",
      answer 207 [] []
        (multistatus [entry "/docs/" true; entry "/docs/a.bin" false]));
     ("GET", "http://dav.example/docs/a.bin",
      answer 200 [("Content-Length", "10")] [take 3 ten_bytes; drop 3 ten_bytes]
        Xml.XMLSyntaxError);
     ("PUT", "http://dav.example/docs/b.bin", plain 201);
     ("MOVE", "http://dav.example/docs/a.bin", plain 201)].

(** A local file [/tmp/b.bin] of ten bytes next to a directory. *)
Definition local_files : gmap string Os.node :=
  {[ "/tmp/b.bin" := Os.File ten_bytes;
     "/tmp/photos" := Os.Directory ["one.jpg"];
     "/tmp/photos/one.jpg" := Os.File ten_bytes ]}.

End Scenario.



(* ===================================================================== *)
(** ** [aiodav/client.py] continued, and [aiodav/resource.py]             *)
(* ===================================================================== *)

Module Stream.
Import Py IO.
Local Open Scope io_scope.

(** [Client.download_iter(path)]: the blocks the iterator it returns
    will yield. *)
Definition download_iter (c : Client.t) (path : string) : M (list (list byte)) :=
  let urn := Urn.init path false in
  let* d := Client.is_directory c (Urn.path urn) in
  if d : bool then raise (OptionNotValid "path" path)
  else
    let* e := Client.exists_ c (Urn.path urn) in
    if negb e then raise (RemoteResourceNotFound (Urn.path urn))
    else
      let* response :=
        Client._execute_request c Client.download_ (Urn.quoted urn) Client.NoData [] in
      ret (Http.iter_chunked (Client._chunk_size c) response).

End Stream.

Module Resource.
Import Py IO.
Local Open Scope io_scope.

(** A [Resource]: the client it delegates to and the locator it holds.
    The methods that assign [self.urn] return the handle as it is after
    the call; when they raise, the handle is as it was. *)
Record t : Type := Make {
  client : Client.t;
  urn : Urn.t
}.

(** [Client.resource(path)] *)
Definition resource (c : Client.t) (path : string) : t :=
  {| client := c; urn := Urn.init path false |}.

(** [Resource.is_directory()] *)
Definition is_directory (r : t) : M bool :=
  Client.is_directory (client r) (Urn.path (urn r)).

(** [Resource.rename(name)] *)
Definition rename (r : t) (name : string) : M t :=
  let old_path := Urn.path (urn r) in
  let parent_path := Urn.parent (urn r) in
  let name := Urn.filename (Urn.init name false) in
  let new_path := parent_path +:+ name in
  let* _ := Client.move (client r) old_path new_path false in
  ret {| client := client r; urn := Urn.init new_path false |}.

(** [Resource.move(path)] *)
Definition move (r : t) (path : string) : M t :=
  let new_urn := Urn.init path false in
  let* _ := Client.move (client r) (Urn.path (urn r)) (Urn.path new_urn) false in
  ret {| client := client r; urn := new_urn |}.

(** [Resource.unlink()] *)
Definition unlink (r : t) : M unit :=
  Client.unlink (client r) (Urn.path (urn r)).

(** [Resource.delete()] *)
Definition delete (r : t) : M unit := unlink r.

(** [Resource.exists()] *)
Definition exists_ (r : t) : M bool :=
  Client.exists_ (client r) (Urn.path (urn r)).

End Resource.

(** Vocabulary of the further statements. *)
Module Terms.

(** The characters of a percent-encoded path: those [quote] leaves
    alone, and the percent sign. *)
Definition is_encoded_char (c : ascii) : bool :=
  PyStr.is_safe c || Ascii.eqb c "%".

(** The request does not use the method. *)
Definition not_method (m : string) (r : Http.request) : bool :=
  negb (String.eqb (Http.method r) m).

(** A [MOVE] request says [Overwrite: F]; other requests pass. *)
Definition never_overwrites (r : Http.request) : bool :=
  if String.eqb (Http.method r) "MOVE"
  then match Py.dict_get "Overwrite" (Http.headers r) with
       | Some v => String.eqb v "F"
       | None => false
       end
  else true.

(** [s] begins with one separator, not two. *)
Definition single_root (s : string) : bool :=
  match s with
  | String a t => PyStr.is_slash a && negb (PyStr.startswith_sep t)
  | EmptyString => false
  end.


(** The progress calls of a transfer of [n] bytes that has begun: the
    first is [(0, n)], the byte counts increase strictly and every call
    carries the total [n].  No call at all is the transfer that failed
    before it began.  Every initial part of a complete trace is of this
    kind. *)
Definition begins_trace (n : Z) (calls : list (Z * option Z)) : Prop :=
  calls = []
  \/ (head calls = Some (0, Some n)
      /\ Client.ascending (fst <$> calls) = true
      /\ Forall (fun call => snd call = Some n) calls).

(** The property element the batch builder makes of a description. *)
Definition property_element (d : Py.dict) : Xml.element :=
  Xml.Element (default EmptyString (Py.dict_get "name" d))
    [("xmlns", default EmptyString (Py.dict_get "namespace" d))]
    (Some (default EmptyString (Py.dict_get "value" d))) [].

Definition has_name (d : Py.dict) : bool :=
  match Py.dict_get "name" d with
  | Some _ => true
  | None => false
  end.

(** Strings the XML library takes without complaint: a tag made of an
    ASCII letter or underscore followed by letters, digits and [_-.],
    and a text or attribute value of printable ASCII characters.  The
    library accepts more; outside of its own rules it raises
    [ValueError], which the embedding of the builders leaves out. *)
Definition is_name_start (c : ascii) : bool :=
  PyStr.is_alpha c || Ascii.eqb c "_".

Definition is_name_char (c : ascii) : bool :=
  PyStr.is_alpha c || PyStr.is_digit c
  || Ascii.eqb c "_" || Ascii.eqb c "-" || Ascii.eqb c ".".

Definition is_tag_name (s : string) : bool :=
  match s with
  | String c t => is_name_start c && PyStr.all_chars is_name_char t
  | EmptyString => false
  end.

Definition is_xml_text (s : string) : bool :=
  PyStr.all_chars (PyStr.in_range 32 126) s.

(** A property description the batch builder can turn into an element. *)
Definition describes_property (d : Py.dict) : bool :=
  match Py.dict_get "name" d with
  | Some n => is_tag_name n
  | None => false
  end
  && is_xml_text (default EmptyString (Py.dict_get "namespace" d))
  && is_xml_text (default EmptyString (Py.dict_get "value" d)).

End Terms.

(** Servers that fail or answer oddly. *)
Module Faults.

(** No connection can be made. *)
Definition unreachable : Http.server := fun _ _ => Http.ConnectionError.

(** Every request is refused by the library. *)
Definition refusing : Http.server := fun _ _ => Http.ResponseError.

(** The listing of the root is not XML, the file [/docs/a.bin] has no
    property beyond its type, and its content comes without
    [content-length]. *)
Definition sparse_server : Http.server :=
  Scenario.scripted
    [("HEAD", "http://dav.example/docs/a.bin", Scenario.plain 200);
     ("PROPFIND", "http://dav.example/", Scenario.plain 207);
     ("PROPFIND", "http://dav.example/docs/",
      Scenario.answer 207 [] []
        (Scenario.multistatus
           [Scenario.entry "/docs/" true; Scenario.entry "/docs/a.bin" false]));
     ("PROPFIND", "http://dav.example/docs/a.bin",
      Scenario.answer 207 [] []
        (Scenario.multistatus [Scenario.entry "/docs/a.bin" false]));
     ("GET", "http://dav.example/docs/a.bin",
      Scenario.answer 200 [("Transfer-Encoding", "chunked")] [Scenario.ten_bytes]
        Xml.XMLSyntaxError)].

(** The content of [/docs/a.bin] is announced with a [content-length]
    of five and streamed as ten bytes, as happens to a body that is sent
    compressed and decoded on arrival. *)
Definition encoded_server : Http.server :=
  Scenario.scripted
    [("HEAD", "http://dav.example/docs/a.bin", Scenario.plain 200);
     ("PROPFIND", "http://dav.example/docs/",
      Scenario.answer 207 [] []
        (Scenario.multistatus
           [Scenario.entry "/docs/" true; Scenario.entry "/docs/a.bin" false]));
     ("GET", "http://dav.example/docs/a.bin",
      Scenario.answer 200 [("Content-Encoding", "gzip"); ("Content-Length", "5")]
        [Scenario.ten_bytes] Xml.XMLSyntaxError)].

End Faults.

(* ===================================================================== *)
(** * Properties                                                          *)
(* ===================================================================== *)

(** ** Strings and regular expressions *)

Module PyStrFacts.
Import PyStr.

Lemma is_slash_true c : is_slash c = true -> c = slash.
Proof. unfold is_slash. apply Ascii.eqb_eq. Qed.

Lemma is_slash_slash : is_slash slash = true.
Proof. reflexivity. Qed.

Lemma slash_not_dot c : is_slash c = true -> is_dot c = false.
Proof. intros H. apply is_slash_true in H. subst c. reflexivity. Qed.

Lemma dot_not_slash c : is_dot c = true -> is_slash c = false.
Proof.
  unfold is_dot. intros H. apply Ascii.eqb_eq in H. subst c. reflexivity.
Qed.

Lemma append_nil_l s : EmptyString +:+ s = s.
Proof. reflexivity. Qed.

Lemma append_cons c s t : String c s +:+ t = String c (s +:+ t).
Proof. reflexivity. Qed.

Lemma append_empty_r s : s +:+ EmptyString = s.
Proof.
  induction s as [|c s IH]; [done|]. by rewrite append_cons, IH.
Qed.

Lemma append_assoc s1 s2 s3 : (s1 +:+ s2) +:+ s3 = s1 +:+ (s2 +:+ s3).
Proof.
  induction s1 as [|c s1 IH]; [done|]. by rewrite !append_cons, IH.
Qed.

(** *** [endswith] and [s[-1]] *)

Lemma endswith_sep_cons c t :
  endswith_sep (String c t) =
  match t with EmptyString => is_slash c | String _ _ => endswith_sep t end.
Proof. reflexivity. Qed.

Lemma endswith_sep_append s1 s2 :
  endswith_sep (s1 +:+ s2) =
  match s2 with EmptyString => endswith_sep s1 | String _ _ => endswith_sep s2 end.
Proof.
  induction s1 as [|c s1 IH].
  - rewrite append_nil_l. by destruct s2.
  - rewrite append_cons, endswith_sep_cons, IH.
    destruct s1 as [|d s1]; destruct s2 as [|e s2]; done.
Qed.

Lemma last_char_endswith s :
  endswith_sep s = true -> last_char s = Some slash.
Proof.
  induction s as [|c s IH]; [done|].
  destruct s as [|d s].
  - simpl. intros H. apply is_slash_true in H. by subst.
  - intros H. apply IH in H. exact H.
Qed.

(** *** The substitutions keep the last character *)

Lemma squeeze_empty s : squeeze s = EmptyString -> s = EmptyString.
Proof.
  induction s as [|c s IH]; [done|]. simpl.
  destruct (is_slash c && startswith_sep s) eqn:E; [|done].
  intros H. apply IH in H. subst s. rewrite andb_false_r in E. done.
Qed.

Lemma endswith_squeeze s : endswith_sep (squeeze s) = endswith_sep s.
Proof.
  induction s as [|c s IH]; [done|].
  simpl squeeze. destruct (is_slash c && startswith_sep s) eqn:E.
  - rewrite IH. destruct s; [by rewrite andb_false_r in E | done].
  - rewrite !endswith_sep_cons, IH.
    destruct s as [|d s]; [done|].
    destruct (squeeze (String d s)) eqn:Es; [|done].
    by apply squeeze_empty in Es.
Qed.

Lemma sub_dots_from_drop k s : sub_dots_from k s = sub_dots (drop k s).
Proof.
  revert k. induction s as [|c s IH]; intros [|k]; try done.
  simpl. apply IH.
Qed.

Lemma sub_dots_cons c t :
  sub_dots (String c t) =
  if is_slash c && dots_then_sep t
  then String slash (sub_dots (drop (S (leading_dots t)) t))
  else String c (sub_dots t).
Proof.
  unfold sub_dots at 1. simpl.
  destruct (is_slash c && dots_then_sep t); [|done].
  by rewrite (sub_dots_from_drop (S _)).
Qed.

Lemma length_drop_le k s : (String.length (drop k s) <= String.length s)%nat.
Proof.
  revert k. induction s as [|c s IH]; intros [|k]; simpl; try lia.
  specialize (IH k). lia.
Qed.

(** After a match of [\.+/] at the head of [t], what is left of [t]
    decides whether [t] ends with the separator. *)
Lemma endswith_after_dots t :
  dots_then_sep t = true ->
  endswith_sep t =
  match drop (S (leading_dots t)) t with
  | EmptyString => true
  | String _ _ as r => endswith_sep r
  end.
Proof.
  unfold dots_then_sep. induction t as [|c t IH]; [done|].
  simpl leading_dots. destruct (is_dot c) eqn:Ec; [|done].
  intros H. simpl in H.
  change (drop (S (S (leading_dots t))) (String c t))
    with (drop (S (leading_dots t)) t).
  destruct (leading_dots t) as [|n] eqn:En.
  - simpl in H. destruct t as [|d t]; [done|]. simpl in H.
    rewrite endswith_sep_cons. simpl drop.
    destruct t as [|e t]; [simpl; by rewrite H | done].
  - rewrite endswith_sep_cons. destruct t as [|d t]; [done|].
    apply IH. exact H.
Qed.

Lemma sub_dots_empty s : sub_dots s = EmptyString -> s = EmptyString.
Proof.
  destruct s as [|c s]; [done|]. rewrite sub_dots_cons.
  by destruct (is_slash c && dots_then_sep s).
Qed.

Lemma endswith_sub_dots s : endswith_sep (sub_dots s) = endswith_sep s.
Proof.
  remember (String.length s) as n eqn:Hn.
  revert s Hn. induction (lt_wf n) as [n _ IH]. intros s ->.
  destruct s as [|c s]; [done|].
  rewrite sub_dots_cons.
  destruct (is_slash c && dots_then_sep s) eqn:E.
  - apply andb_true_iff in E as [Hc Hd].
    apply is_slash_true in Hc. subst c.
    rewrite (endswith_sep_cons slash s).
    destruct s as [|d s]; [done|].
    rewrite (endswith_after_dots _ Hd).
    set (r := drop (S (leading_dots (String d s))) (String d s)).
    assert (Hr : (String.length r < String.length (String slash (String d s)))%nat).
    { pose proof (length_drop_le (S (leading_dots (String d s))) (String d s)).
      subst r. simpl String.length in *. lia. }
    rewrite endswith_sep_cons.
    destruct (sub_dots r) eqn:Er.
    + apply sub_dots_empty in Er. by rewrite Er.
    + rewrite <- Er. rewrite (IH _ Hr r eq_refl).
      destruct r; [discriminate Er | done].
  - rewrite !endswith_sep_cons.
    destruct s as [|d s]; [done|].
    destruct (sub_dots (String d s)) eqn:Es; [by apply sub_dots_empty in Es|].
    rewrite <- Es. apply (IH (String.length (String d s))); [simpl; lia | done].
Qed.

(** *** [quote], character by character *)

Ltac each_char c := destruct c as [[] [] [] [] [] [] [] []].

Lemma quote_char_slash : quote_char slash = String slash EmptyString.
Proof. reflexivity. Qed.

Lemma quote_char_dot : quote_char dot = String dot EmptyString.
Proof. reflexivity. Qed.

Lemma startswith_quote_char c r :
  startswith_sep (quote_char c +:+ r) = is_slash c.
Proof. each_char c; reflexivity. Qed.

Lemma endswith_quote_char c : endswith_sep (quote_char c) = is_slash c.
Proof. each_char c; reflexivity. Qed.

Lemma quote_char_cons c : exists a w, quote_char c = String a w.
Proof.
  unfold quote_char, escape. destruct (is_safe c); eauto.
Qed.

Lemma unquote_quote_char c r :
  unquote (quote_char c +:+ r) = String c (unquote r).
Proof. each_char c; reflexivity. Qed.

Lemma squeeze_quote_char c r :
  is_slash c = false ->
  squeeze (quote_char c +:+ r) = quote_char c +:+ squeeze r.
Proof. each_char c; intros H; try discriminate H; reflexivity. Qed.

Lemma search_quote_char c r :
  is_slash c = false ->
  search_dots (quote_char c +:+ r) = search_dots r.
Proof. each_char c; intros H; try discriminate H; reflexivity. Qed.

Lemma leading_dots_quote_char c r :
  is_dot c = false -> leading_dots (quote_char c +:+ r) = O.
Proof. each_char c; intros H; try discriminate H; reflexivity. Qed.

(** *** [quote] and [squeeze] commute with the scanning functions *)

Lemma quote_cons c t : quote (String c t) = quote_char c +:+ quote t.
Proof. reflexivity. Qed.

Lemma quote_empty p : quote p = EmptyString -> p = EmptyString.
Proof.
  destruct p as [|c p]; [done|]. rewrite quote_cons.
  destruct (quote_char_cons c) as (a & w & ->). by rewrite append_cons.
Qed.

Lemma startswith_quote p : startswith_sep (quote p) = startswith_sep p.
Proof.
  destruct p as [|c p]; [done|]. by rewrite quote_cons, startswith_quote_char.
Qed.

Lemma endswith_quote p : endswith_sep (quote p) = endswith_sep p.
Proof.
  induction p as [|c p IH]; [done|].
  rewrite quote_cons, endswith_sep_append, endswith_sep_cons, IH.
  destruct p as [|d p]; [by rewrite endswith_quote_char|].
  destruct (quote (String d p)) eqn:E; [by apply quote_empty in E | done].
Qed.

Lemma unquote_quote p : unquote (quote p) = p.
Proof.
  induction p as [|c p IH]; [done|].
  by rewrite quote_cons, unquote_quote_char, IH.
Qed.

Lemma quote_dot_cons t : quote (String dot t) = String dot (quote t).
Proof. reflexivity. Qed.

Lemma quote_slash_cons t : quote (String slash t) = String slash (quote t).
Proof. reflexivity. Qed.

Lemma is_dot_true c : is_dot c = true -> c = dot.
Proof. unfold is_dot. apply Ascii.eqb_eq. Qed.

Lemma leading_dots_quote p : leading_dots (quote p) = leading_dots p.
Proof.
  induction p as [|c p IH]; [done|].
  destruct (is_dot c) eqn:Ec.
  - apply is_dot_true in Ec. subst c. rewrite quote_dot_cons. simpl. by rewrite IH.
  - rewrite quote_cons, leading_dots_quote_char by done. simpl. by rewrite Ec.
Qed.

Lemma drop_dots_quote p :
  drop (leading_dots p) (quote p) = quote (drop (leading_dots p) p).
Proof.
  induction p as [|c p IH]; [done|].
  simpl leading_dots. destruct (is_dot c) eqn:Ec; [|done].
  apply is_dot_true in Ec. subst c. rewrite quote_dot_cons. simpl. exact IH.
Qed.

Lemma dots_then_sep_quote p : dots_then_sep (quote p) = dots_then_sep p.
Proof.
  unfold dots_then_sep.
  by rewrite leading_dots_quote, drop_dots_quote, startswith_quote.
Qed.

Lemma search_quote p : search_dots (quote p) = search_dots p.
Proof.
  induction p as [|c p IH]; [done|].
  destruct (is_slash c) eqn:Ec.
  - apply is_slash_true in Ec. subst c. rewrite quote_slash_cons. simpl.
    by rewrite dots_then_sep_quote, IH.
  - rewrite quote_cons, search_quote_char by done. simpl. by rewrite Ec, IH.
Qed.

Lemma squeeze_quote p : squeeze (quote p) = quote (squeeze p).
Proof.
  induction p as [|c p IH]; [done|].
  destruct (is_slash c) eqn:Ec.
  - apply is_slash_true in Ec. subst c. rewrite quote_slash_cons. simpl.
    rewrite startswith_quote, IH. by destruct (startswith_sep p).
  - rewrite quote_cons, squeeze_quote_char by done. simpl.
    by rewrite Ec, IH.
Qed.

Lemma startswith_squeeze s : startswith_sep (squeeze s) = startswith_sep s.
Proof.
  induction s as [|c s IH]; [done|]. simpl.
  destruct (is_slash c) eqn:Ec; [|by simpl].
  destruct (startswith_sep s) eqn:Es; simpl; [by rewrite IH | done].
Qed.

Lemma squeeze_idem s : squeeze (squeeze s) = squeeze s.
Proof.
  induction s as [|c s IH]; [done|]. simpl.
  destruct (is_slash c && startswith_sep s) eqn:E; [done|].
  simpl. rewrite startswith_squeeze, E. by rewrite IH.
Qed.

Lemma leading_dots_squeeze s : leading_dots (squeeze s) = leading_dots s.
Proof.
  induction s as [|c s IH]; [done|]. simpl.
  destruct (is_dot c) eqn:Ec.
  - rewrite (dot_not_slash _ Ec). simpl. by rewrite Ec, IH.
  - destruct (is_slash c && startswith_sep s) eqn:E; [|simpl; by rewrite Ec].
    destruct s as [|d s]; [by rewrite andb_false_r in E|].
    apply andb_true_iff in E as [_ Hd]. simpl in Hd.
    rewrite IH. simpl. by rewrite (slash_not_dot _ Hd).
Qed.

Lemma drop_dots_squeeze s :
  drop (leading_dots s) (squeeze s) = squeeze (drop (leading_dots s) s).
Proof.
  induction s as [|c s IH]; [done|]. simpl leading_dots.
  destruct (is_dot c) eqn:Ec; [|done].
  simpl squeeze. rewrite (dot_not_slash _ Ec). simpl. exact IH.
Qed.

Lemma dots_then_sep_squeeze s : dots_then_sep (squeeze s) = dots_then_sep s.
Proof.
  unfold dots_then_sep.
  by rewrite leading_dots_squeeze, drop_dots_squeeze, startswith_squeeze.
Qed.

Lemma dots_then_sep_slash s : startswith_sep s = true -> dots_then_sep s = false.
Proof.
  destruct s as [|c s]; [done|]. simpl. intros H.
  unfold dots_then_sep. simpl. by rewrite (slash_not_dot _ H).
Qed.

Lemma search_squeeze s : search_dots s = false -> search_dots (squeeze s) = false.
Proof.
  induction s as [|c s IH]; [done|]. simpl.
  intros H. apply orb_false_iff in H as [H1 H2].
  destruct (is_slash c && startswith_sep s) eqn:E; [by apply IH|].
  simpl. rewrite dots_then_sep_squeeze, H1. by apply IH.
Qed.

Lemma sub_dots_no_match s : search_dots s = false -> sub_dots s = s.
Proof.
  induction s as [|c s IH]; [done|]. simpl.
  intros H. apply orb_false_iff in H as [H1 H2].
  rewrite sub_dots_cons, H1. by rewrite IH.
Qed.

(** *** [sub_dots] commutes with [quote] *)

Lemma sub_dots_quote_char c r :
  is_slash c = false ->
  sub_dots (quote_char c +:+ r) = quote_char c +:+ sub_dots r.
Proof. each_char c; intros H; try discriminate H; reflexivity. Qed.

Lemma drop_S n s : drop (S n) s = drop 1 (drop n s).
Proof.
  revert s. induction n as [|n IH]; intros s; [done|].
  destruct s as [|c s]; [done|]. exact (IH s).
Qed.

Lemma drop_match_quote t :
  dots_then_sep t = true ->
  drop (S (leading_dots t)) (quote t) = quote (drop (S (leading_dots t)) t).
Proof.
  unfold dots_then_sep. intros H. apply andb_true_iff in H as [_ H].
  rewrite (drop_S _ (quote t)), (drop_S _ t), drop_dots_quote.
  destruct (drop (leading_dots t) t) as [|c r]; [done|].
  simpl in H. apply is_slash_true in H. subst c.
  by rewrite quote_slash_cons.
Qed.

Lemma sub_dots_quote p : sub_dots (quote p) = quote (sub_dots p).
Proof.
  remember (String.length p) as n eqn:Hn.
  revert p Hn. induction (lt_wf n) as [n _ IH]. intros p ->.
  destruct p as [|c t]; [done|].
  destruct (is_slash c) eqn:Ec.
  - apply is_slash_true in Ec. subst c.
    rewrite quote_slash_cons, !sub_dots_cons, dots_then_sep_quote, leading_dots_quote.
    rewrite is_slash_slash. cbn [andb].
    destruct (dots_then_sep t) eqn:Ed.
    + rewrite (drop_match_quote t Ed), quote_slash_cons. f_equal.
      apply (IH (String.length (drop (S (leading_dots t)) t))); [|done].
      pose proof (length_drop_le (S (leading_dots t)) t).
      change (String.length (String slash t)) with (S (String.length t)). lia.
    + rewrite quote_slash_cons. f_equal.
      apply (IH (String.length t)); [simpl; lia | done].
  - rewrite quote_cons, (sub_dots_quote_char c _ Ec), sub_dots_cons, Ec.
    cbn [andb]. rewrite quote_cons. f_equal.
    apply (IH (String.length t)); [simpl; lia | done].
Qed.

(** *** A match makes [sub_dots] shorten the string *)

Lemma length_squeeze s : (String.length (squeeze s) <= String.length s)%nat.
Proof.
  induction s as [|c s IH]; [done|]. simpl.
  destruct (is_slash c && startswith_sep s); simpl; lia.
Qed.

Lemma length_drop_match t :
  dots_then_sep t = true ->
  (String.length (drop (S (leading_dots t)) t) < String.length t)%nat.
Proof.
  unfold dots_then_sep. intros H. apply andb_true_iff in H as [H _].
  apply Nat.ltb_lt in H.
  destruct t as [|c t]; [simpl in H; lia|].
  pose proof (length_drop_le (leading_dots (String c t)) t).
  change (drop (S (leading_dots (String c t))) (String c t))
    with (drop (leading_dots (String c t)) t).
  change (String.length (String c t)) with (S (String.length t)). lia.
Qed.

Lemma length_sub_dots s : (String.length (sub_dots s) <= String.length s)%nat.
Proof.
  remember (String.length s) as n eqn:Hn.
  revert s Hn. induction (lt_wf n) as [n _ IH]. intros s ->.
  destruct s as [|c t]; [done|].
  rewrite sub_dots_cons.
  destruct (is_slash c && dots_then_sep t) eqn:E.
  - apply andb_true_iff in E as [_ Ed].
    pose proof (length_drop_match t Ed) as Hlt.
    change (String.length (String c t)) with (S (String.length t)) in *.
    pose proof (IH (String.length (drop (S (leading_dots t)) t))
                  ltac:(lia) _ eq_refl).
    change (String.length (String slash ?x)) with (S (String.length x)). lia.
  - change (String.length (String c t)) with (S (String.length t)) in *.
    pose proof (IH (String.length t) ltac:(lia) _ eq_refl).
    change (String.length (String c ?x)) with (S (String.length x)). lia.
Qed.

Lemma length_sub_dots_match s :
  search_dots s = true -> (String.length (sub_dots s) < String.length s)%nat.
Proof.
  induction s as [|c t IH]; [done|].
  simpl search_dots. rewrite sub_dots_cons.
  destruct (is_slash c && dots_then_sep t) eqn:E.
  - intros _. apply andb_true_iff in E as [_ Ed].
    pose proof (length_drop_match t Ed).
    pose proof (length_sub_dots (drop (S (leading_dots t)) t)).
    cbn [String.length]. lia.
  - cbn [orb]. intros H. specialize (IH H). cbn [String.length]. lia.
Qed.

Lemma startswith_sub_dots s : startswith_sep (sub_dots s) = startswith_sep s.
Proof.
  destruct s as [|c t]; [done|]. rewrite sub_dots_cons.
  destruct (is_slash c && dots_then_sep t) eqn:E; [|done].
  apply andb_true_iff in E as [Ec _]. simpl. by rewrite Ec.
Qed.

End PyStrFacts.

(** ** The path model *)

Module UrnExamples.
Import PyStr Urn.

Example quote_space : quote "/a b/c%d" = "/a%20b/c%25d".
Proof. reflexivity. Qed.

Example unquote_mixed : unquote "%41%4%zz%2f%" = "A%4%zz/%".
Proof. reflexivity. Qed.

Example sub_dots_once : sub_dots "/./../x" = "/../x".
Proof. reflexivity. Qed.

Example sub_dots_runs : sub_dots "/a/.../b/./c/.d/" = "/a/b/c/.d/".
Proof. reflexivity. Qed.

Example init_plain : quoted (init "a//b/./c" false) = "/a/b/c".
Proof. reflexivity. Qed.

Example init_dir : quoted (init "/a/b" true) = "/a/b/".
Proof. reflexivity. Qed.

Example filename_dir : filename (init "/a/b c/" false) = "b c/".
Proof. reflexivity. Qed.

Example filename_file : filename (init "/a/b.txt" false) = "b.txt".
Proof. reflexivity. Qed.

Example parent_top : parent (init "/a" false) = "/".
Proof. reflexivity. Qed.

Example parent_nested : parent (init "/a/b/c/" false) = "/a/b/".
Proof. reflexivity. Qed.

Example nesting_level_dir : nesting_level (init "/a/b/c/" false) = 3%nat.
Proof. reflexivity. Qed.

Example normalize_trailing : normalize_path "/a//b/" = "/a/b".
Proof. reflexivity. Qed.

Example compare_encoded : compare_path "/a b" "http://host/a%20b/" = true.
Proof. reflexivity. Qed.

Example urlsplit_query : urlsplit_path "/a?b/" = "/a".
Proof. reflexivity. Qed.

Example urlsplit_absolute : urlsplit_path "https://host:8080/dav/x%20y?q#f" = "/dav/x%20y".
Proof. reflexivity. Qed.

End UrnExamples.

Module UrnFacts.
Import PyStr PyStrFacts Urn.

Lemma init_file p : quoted (init p false) = rooted p.
Proof. reflexivity. Qed.

Lemma init_directory p :
  quoted (init p true) =
  if negb (endswith_sep (rooted p)) then rooted p +:+ separate else rooted p.
Proof. reflexivity. Qed.

Lemma endswith_rooted p :
  p <> EmptyString -> endswith_sep (rooted p) = endswith_sep p.
Proof.
  intros Hp. unfold rooted, sub_sep_plus.
  set (q := squeeze (sub_dots (quote p))).
  assert (Hq : endswith_sep q = endswith_sep p).
  { subst q. by rewrite endswith_squeeze, endswith_sub_dots, endswith_quote. }
  destruct (startswith_sep q); cbn [negb]; [done|].
  unfold separate. rewrite append_cons, append_nil_l, endswith_sep_cons.
  destruct q eqn:Eq; [|done].
  subst q. apply squeeze_empty, sub_dots_empty, quote_empty in Eq. done.
Qed.

(** The decoded path, computed on the input itself. *)
Lemma path_init_file p :
  path (init p false) = squeeze (separate +:+ sub_dots p).
Proof.
  unfold path. rewrite init_file. unfold rooted, sub_sep_plus.
  rewrite sub_dots_quote, squeeze_quote, startswith_quote, startswith_squeeze.
  unfold separate. rewrite !append_cons, !append_nil_l. simpl squeeze.
  destruct (startswith_sep (sub_dots p)) eqn:Es; cbn [negb andb].
  - apply unquote_quote.
  - rewrite <- quote_slash_cons. apply unquote_quote.
Qed.

Lemma startswith_path_init_file p : startswith_sep (path (init p false)) = true.
Proof.
  rewrite path_init_file, startswith_squeeze. reflexivity.
Qed.

Lemma endswith_init_directory p : endswith_sep (quoted (init p true)) = true.
Proof.
  rewrite init_directory.
  destruct (endswith_sep (rooted p)) eqn:E; cbn [negb]; [done|].
  by rewrite endswith_sep_append.
Qed.

Lemma is_dir_init_directory p : is_dir (init p true) = Some true.
Proof.
  unfold is_dir. change (_path (init p true)) with (quoted (init p true)).
  by rewrite (last_char_endswith _ (endswith_init_directory p)).
Qed.

(** C9, as the code has it: a directory locator is in directory form for
    every input, and a file locator built from a non-empty path without a
    trailing separator does not end with the separator. *)
Theorem init_trailing_separator (p : string) :
  (is_dir (init p true) = Some true
   /\ endswith_sep (quoted (init p true)) = true)
  /\ (p <> EmptyString -> endswith_sep p = false ->
      endswith_sep (quoted (init p false)) = false).
Proof.
  split; [split|].
  - apply is_dir_init_directory.
  - apply endswith_init_directory.
  - intros Hp He. by rewrite init_file, endswith_rooted.
Qed.

Lemma init_trailing_separator_witness :
  (is_dir (init "/a b/c" true) = Some true
   /\ endswith_sep (quoted (init "/a b/c" true)) = true)
  /\ endswith_sep (quoted (init "/a b/c" false)) = false.
Proof.
  destruct (init_trailing_separator "/a b/c") as [H1 H2].
  split; [exact H1|]. apply H2; [discriminate | reflexivity].
Defined.

(** C9, as stated, fails on the empty path: it has no trailing separator,
    yet its file locator is the root and ends with one. *)
Lemma empty_path_ends_with_separator :
  endswith_sep EmptyString = false
  /\ quoted (init EmptyString false) = "/"
  /\ endswith_sep (quoted (init EmptyString false)) = true.
Proof. repeat split. Qed.

(** C8, as the code has it: the decoded path is stable under
    reconstruction when it holds no dot segment, that is when ["/\.+/"]
    has no match in it. *)
Theorem path_idempotent_no_dot_segment (p : string) :
  search_dots (path (init p false)) = false ->
  path (init (path (init p false)) false) = path (init p false).
Proof.
  intros H. set (p1 := path (init p false)) in *.
  assert (H1 : startswith_sep p1 = true) by apply startswith_path_init_file.
  rewrite (path_init_file p1), (sub_dots_no_match p1 H).
  unfold separate. rewrite append_cons, append_nil_l. simpl squeeze.
  rewrite H1. cbn [andb]. subst p1.
  rewrite (path_init_file p) at 2. rewrite path_init_file. apply squeeze_idem.
Qed.

Lemma path_idempotent_no_dot_segment_witness :
  path (init (path (init "a//b c/./d.txt" false)) false)
  = path (init "a//b c/./d.txt" false).
Proof.
  apply (path_idempotent_no_dot_segment "a//b c/./d.txt"). reflexivity.
Defined.

(** The condition is the exact one: with a dot segment left in the
    decoded path, the next construction removes it. *)
Lemma path_changes_with_dot_segment p :
  search_dots (path (init p false)) = true ->
  path (init (path (init p false)) false) <> path (init p false).
Proof.
  intros H. set (p1 := path (init p false)) in *.
  assert (H1 : startswith_sep p1 = true) by apply startswith_path_init_file.
  rewrite (path_init_file p1).
  unfold separate. rewrite append_cons, append_nil_l. simpl squeeze.
  rewrite startswith_sub_dots, H1. cbn [andb].
  intros E. apply (f_equal String.length) in E.
  pose proof (length_squeeze (sub_dots p1)).
  pose proof (length_sub_dots_match p1 H). lia.
Qed.

(** An input without dot segment gives a path without dot segment. *)
Lemma path_no_dot_segment p :
  search_dots (separate +:+ p) = false ->
  search_dots (path (init p false)) = false.
Proof.
  intros H. rewrite path_init_file.
  assert (Hp : search_dots p = false).
  { unfold separate in H. rewrite append_cons, append_nil_l in H.
    simpl in H. by apply orb_false_iff in H as [_ ?]. }
  rewrite (sub_dots_no_match p Hp). by apply search_squeeze.
Qed.

(** C8, as stated, fails: the substitution replaces non-overlapping
    matches only, so of two adjacent dot segments the second survives the
    first construction and is removed by the next one. *)
Lemma path_not_idempotent :
  path (init "/././x" false) = "/./x"
  /\ path (init (path (init "/././x" false)) false) = "/x"
  /\ path (init (path (init "/././x" false)) false) <> path (init "/././x" false).
Proof. repeat split. discriminate. Qed.

End UrnFacts.

(** ** The world monad *)

Module IOFacts.
Import Py IO.
Local Open Scope list_scope.

Lemma bind_ok {A B} (m : M A) (k : A -> M B) w a w1 :
  m w = (Ok a, w1) -> bind m k w = k a w1.
Proof. unfold bind. by intros ->. Qed.

Lemma bind_raise {A B} (m : M A) (k : A -> M B) w e w1 :
  m w = (Raise e, w1) -> bind m k w = (Raise e, w1).
Proof. unfold bind. by intros ->. Qed.

Lemma bind_ok_inv {A B} (m : M A) (k : A -> M B) w b w' :
  bind m k w = (Ok b, w') ->
  exists a w1, m w = (Ok a, w1) /\ k a w1 = (Ok b, w').
Proof.
  unfold bind. destruct (m w) as [[a|e] w1]; [eauto | discriminate].
Qed.

Lemma try_ok {A} (m : M A) h w a w1 :
  m w = (Ok a, w1) -> try_except m h w = (Ok a, w1).
Proof. unfold try_except. by intros ->. Qed.

Lemma try_raise {A} (m : M A) h w e w1 :
  m w = (Raise e, w1) -> try_except m h w = h e w1.
Proof. unfold try_except. by intros ->. Qed.

(** *** What an operation leaves alone *)

Lemma quiet_ret {A} Q (a : A) : quiet Q (ret a).
Proof.
  intros w r w' [= <- <-]. repeat split. exists []. by rewrite app_nil_r.
Qed.

Lemma quiet_raise {A} Q e : quiet Q (@raise A e).
Proof.
  intros w r w' [= <- <-]. repeat split. exists []. by rewrite app_nil_r.
Qed.

Lemma quiet_lift {A} Q (x : result A) : quiet Q (lift x).
Proof. destruct x; [apply quiet_ret | apply quiet_raise]. Qed.

Lemma quiet_local_fs Q : quiet Q local_fs.
Proof.
  intros w r w' [= <- <-]. repeat split. exists []. by rewrite app_nil_r.
Qed.

Lemma quiet_trans {A B} Q (m : M A) (k : A -> M B) w r1 w1 r2 w2 :
  quiet Q m -> quiet Q (k r1) ->
  m w = (Ok r1, w1) -> k r1 w1 = (r2, w2) ->
  remote w2 = remote w /\ local w2 = local w /\ sink w2 = sink w
  /\ progress_calls w2 = progress_calls w
  /\ exists l, wire w2 = wire w ++ l /\ forallb Q l = true.
Proof.
  intros Hm Hk E1 E2.
  destruct (Hm _ _ _ E1) as (a1 & a2 & a3 & a4 & l1 & a5 & a6).
  destruct (Hk _ _ _ E2) as (b1 & b2 & b3 & b4 & l2 & b5 & b6).
  repeat split; try congruence.
  exists (l1 ++ l2). rewrite b5, a5, app_assoc. split; [done|].
  by rewrite forallb_app, a6, b6.
Qed.

Lemma quiet_bind {A B} Q (m : M A) (k : A -> M B) :
  quiet Q m -> (forall a, quiet Q (k a)) -> quiet Q (bind m k).
Proof.
  intros Hm Hk w r w'. unfold bind.
  destruct (m w) as [[a|e] w1] eqn:E1.
  - intros E2. exact (quiet_trans Q m k w a w1 r w' Hm (Hk a) E1 E2).
  - intros [= <- <-]. exact (Hm _ _ _ E1).
Qed.

Lemma quiet_try {A} Q (m : M A) (h : exn -> M A) :
  quiet Q m -> (forall e, quiet Q (h e)) -> quiet Q (try_except m h).
Proof.
  intros Hm Hh w r w'. unfold try_except.
  destruct (m w) as [[a|e] w1] eqn:E1.
  - intros [= <- <-]. exact (Hm _ _ _ E1).
  - intros E2.
    destruct (Hm _ _ _ E1) as (a1 & a2 & a3 & a4 & l1 & a5 & a6).
    destruct (Hh e _ _ _ E2) as (b1 & b2 & b3 & b4 & l2 & b5 & b6).
    repeat split; try congruence.
    exists (l1 ++ l2). rewrite b5, a5, app_assoc. split; [done|].
    by rewrite forallb_app, a6, b6.
Qed.

Lemma quiet_session_request (Q : Http.request -> bool) r :
  Q r = true -> quiet Q (session_request r).
Proof.
  intros Hr w x w'. unfold session_request.
  destruct (remote w (wire w) r); intros [= <- <-]; simpl;
    (repeat split; exists [r]; split; [done | by simpl; rewrite Hr]).
Qed.

Lemma session_request_answer r w resp :
  remote w (wire w) r = Http.Answer resp ->
  session_request r w = (Ok resp, sent r w).
Proof. unfold session_request. by intros ->. Qed.

Lemma session_request_ok_inv r w resp w' :
  session_request r w = (Ok resp, w') ->
  remote w (wire w) r = Http.Answer resp /\ w' = sent r w.
Proof.
  unfold session_request.
  destruct (remote w (wire w) r); intros [=]; subst; auto.
Qed.

Lemma quiet_for_each {A} Q (l : list A) (body : A -> M unit) :
  (forall x, quiet Q (body x)) -> quiet Q (for_each l body).
Proof.
  intros Hb. induction l as [|x l IH]; simpl.
  - apply quiet_ret.
  - apply quiet_bind; [apply Hb | intros _; apply IH].
Qed.

Lemma quiet_not_awaited {A} Q (c : coroutine A) : quiet Q (not_awaited c).
Proof. apply quiet_ret. Qed.

(** *** The exceptions an operation raises *)

Lemma raises_ret {A} P (a : A) : raises_only P (ret a).
Proof. intros w e w' [=]. Qed.

Lemma raises_raise {A} (P : exn -> Prop) e : P e -> raises_only P (@raise A e).
Proof. intros He w e' w' [= <- _]. exact He. Qed.

Lemma raises_bind {A B} P (m : M A) (k : A -> M B) :
  raises_only P m -> (forall a, raises_only P (k a)) -> raises_only P (bind m k).
Proof.
  intros Hm Hk w e w'. unfold bind.
  destruct (m w) as [[a|e1] w1] eqn:E1.
  - apply Hk.
  - intros [= <- <-]. exact (Hm _ _ _ E1).
Qed.

Lemma raises_try {A} (P Q : exn -> Prop) (m : M A) (h : exn -> M A) :
  raises_only Q m -> (forall e, Q e -> raises_only P (h e)) ->
  raises_only P (try_except m h).
Proof.
  intros Hm Hh w e w'. unfold try_except.
  destruct (m w) as [[a|e1] w1] eqn:E1; [intros [=]|].
  apply Hh. exact (Hm _ _ _ E1).
Qed.

Lemma raises_session_request r :
  raises_only (fun e => e = ClientConnectionError \/ e = ClientResponseError)
    (session_request r).
Proof.
  intros w e w'. unfold session_request.
  destruct (remote w (wire w) r); intros [= <- _]; auto.
Qed.

Lemma raises_for_each {A} P (l : list A) (body : A -> M unit) :
  (forall x, raises_only P (body x)) -> raises_only P (for_each l body).
Proof.
  intros Hb. induction l as [|x l IH]; simpl.
  - apply raises_ret.
  - apply raises_bind; [apply Hb | intros _; apply IH].
Qed.

Lemma raises_lift {A} (P : exn -> Prop) (x : result A) :
  (forall e, x = Raise e -> P e) -> raises_only P (lift x).
Proof.
  intros H w e w'. destruct x as [a|e']; simpl; [intros [=]|].
  intros [= <- _]. by apply H.
Qed.

Lemma raises_local_fs P : raises_only P local_fs.
Proof. intros w e w' [=]. Qed.

Lemma raises_weaken {A} (P Q : exn -> Prop) (m : M A) :
  (forall e, P e -> Q e) -> raises_only P m -> raises_only Q m.
Proof. intros H Hm w e w' E. apply H. exact (Hm _ _ _ E). Qed.

End IOFacts.

(** ** Streams and progress calls *)

Module TransferFacts.
Import Py IO IOFacts.
Local Open Scope list_scope.

Lemma len_app a b : Client.len (a ++ b) = Client.len a + Client.len b.
Proof. unfold Client.len. rewrite length_app. lia. Qed.

Lemma len_nonneg b : 0 <= Client.len b.
Proof. unfold Client.len. lia. Qed.

Lemma len_pos b : b <> [] -> 0 < Client.len b.
Proof. unfold Client.len. destruct b; [done | simpl; lia]. Qed.

(** *** Slicing loses nothing and yields no empty block *)

Lemma concat_slices_upto steps n (seg : list byte) :
  (0 < n)%nat -> (List.length seg <= steps)%nat ->
  List.concat (Http.slices_upto steps n seg) = seg.
Proof.
  intros Hn. revert seg. induction steps as [|k IH]; intros seg Hl.
  - destruct seg; [done | simpl in Hl; lia].
  - destruct seg as [|b seg]; [done|].
    cbn [Http.slices_upto List.concat].
    rewrite IH.
    + apply take_drop.
    + rewrite length_drop. simpl in *. lia.
Qed.

Lemma slices_upto_nonempty steps n (seg : list byte) :
  (0 < n)%nat -> Forall (fun b => b <> []) (Http.slices_upto steps n seg).
Proof.
  intros Hn. revert seg. induction steps as [|k IH]; intros seg; [constructor|].
  destruct seg as [|b seg]; [constructor|].
  cbn [Http.slices_upto]. constructor; [|apply IH].
  destruct n; [lia | done].
Qed.

Lemma reads_spec n (segs : list (list byte)) :
  n <> 0 ->
  List.concat (Http.reads n segs) = List.concat segs
  /\ Forall (fun b => b <> []) (Http.reads n segs).
Proof.
  intros Hn. unfold Http.reads.
  destruct (Z.ltb_spec n 0) as [Hneg|Hpos].
  - destruct (List.concat segs) as [|b all] eqn:E; simpl.
    + split; [done | constructor].
    + rewrite app_nil_r. split; [done|]. by repeat constructor.
  - destruct (Z.eqb_spec n 0) as [|_]; [done|].
    assert (Hnat : (0 < Z.to_nat n)%nat) by lia.
    induction segs as [|seg segs [IH1 IH2]]; [split; [done | constructor]|].
    simpl. split.
    + rewrite List.concat_app, IH1. unfold Http.slices.
      by rewrite concat_slices_upto.
    + apply Forall_app. split; [by apply slices_upto_nonempty | done].
Qed.

(** *** The calls of a transfer form a progress trace *)

Lemma running_totals total current blocks :
  Forall (fun call : Z * option Z => snd call = Some total)
    (Client.running total current blocks).
Proof.
  revert current. induction blocks as [|b blocks IH]; intros current; simpl.
  - constructor.
  - constructor; [done | apply IH].
Qed.

Lemma running_last total current blocks :
  last ((current, Some total) :: Client.running total current blocks)
  = Some (current + Client.len (List.concat blocks), Some total).
Proof.
  revert current. induction blocks as [|b blocks IH]; intros current.
  - simpl. do 2 f_equal. unfold Client.len. simpl. lia.
  - cbn [Client.running]. rewrite last_cons_cons, IH.
    cbn [List.concat]. rewrite len_app. do 2 f_equal. lia.
Qed.

Lemma running_ascending total current blocks :
  Forall (fun b => b <> []) blocks ->
  Client.ascending (fst <$> (current, Some total) :: Client.running total current blocks)
  = true.
Proof.
  intros H. revert current. induction H as [|b blocks Hb _ IH]; intros current.
  - reflexivity.
  - cbn [Client.running fmap list_fmap fst Client.ascending] in *.
    apply andb_true_iff. split; [|apply IH].
    apply Z.ltb_lt. pose proof (len_pos b Hb). lia.
Qed.

Lemma progress_trace_running n blocks :
  Forall (fun b => b <> []) blocks ->
  Client.len (List.concat blocks) = n ->
  Client.progress_trace n ((0, Some n) :: Client.running n 0 blocks).
Proof.
  intros Hb Hn. unfold Client.progress_trace. repeat split.
  - by rewrite running_last, Hn.
  - by apply running_ascending.
  - constructor; [done | apply running_totals].
Qed.

(** *** The two loops *)

Lemma download_blocks_spec total current blocks w :
  exists w',
    Client.download_blocks true total current blocks w = (Ok tt, w')
    /\ remote w' = remote w /\ wire w' = wire w /\ local w' = local w
    /\ sink w' = sink w ++ List.concat blocks
    /\ progress_calls w' = progress_calls w ++ Client.running total current blocks.
Proof.
  revert current w. induction blocks as [|b blocks IH]; intros current w.
  - exists w. simpl. by rewrite !app_nil_r.
  - cbn [Client.download_blocks Client.report].
    unfold bind at 1. unfold buffer_write at 1.
    unfold bind at 1. unfold call_progress at 1.
    destruct (IH (current + Client.len b)
                {| remote := remote w; wire := wire w;
                   progress_calls := progress_calls w ++ [(current + Client.len b, Some total)];
                   sink := sink w ++ b; local := local w |})
      as (w' & E & H1 & H2 & H3 & H4 & H5).
    exists w'. split; [exact E|]. simpl in *.
    repeat split; try done.
    + by rewrite H4, <- app_assoc.
    + by rewrite H5, <- app_assoc.
Qed.

Lemma file_sender_loop_spec n current reads w :
  Forall (fun b => b <> []) reads ->
  current + Client.len (List.concat reads) = n ->
  exists w',
    Client.file_sender_loop n current reads w = (Ok reads, w')
    /\ remote w' = remote w /\ wire w' = wire w /\ local w' = local w
    /\ sink w' = sink w
    /\ progress_calls w' = progress_calls w ++ Client.running n current reads.
Proof.
  intros H. revert current w.
  induction H as [|b reads Hb _ IH]; intros current w Hn.
  - exists w. simpl in *. rewrite app_nil_r.
    destruct (Z.ltb_spec current n) as [Hlt|_]; [|done].
    unfold Client.len in Hn. simpl in Hn. lia.
  - cbn [Client.file_sender_loop].
    cbn [List.concat] in Hn. rewrite len_app in Hn.
    pose proof (len_pos b Hb). pose proof (len_nonneg (List.concat reads)).
    destruct (Z.ltb_spec current n) as [_|Hge]; [|lia].
    unfold bind at 1. unfold call_progress at 1.
    destruct (IH (current + Client.len b)
                {| remote := remote w; wire := wire w;
                   progress_calls := progress_calls w ++ [(current + Client.len b, Some n)];
                   sink := sink w; local := local w |})
      as (w' & E & H1 & H2 & H3 & H4 & H5); [lia|].
    exists w'. unfold bind. rewrite E. simpl in *.
    repeat split; try done.
    by rewrite H5, <- app_assoc.
Qed.

End TransferFacts.

(** ** The operations *)

Module ClientFacts.
Import Py IO IOFacts.
Local Open Scope list_scope.

(** *** Requests and the wire *)

Lemma quiet_authenticate (Q : Http.request -> bool) c :
  Q (Client.auth_request c) = true -> quiet Q (Client.authenticate c).
Proof.
  intros H. unfold Client.authenticate. destruct (Client.session_auth c).
  - apply quiet_bind; [by apply quiet_session_request | intros; apply quiet_ret].
  - apply quiet_ret.
Qed.

Lemma send_body_plain data :
  Client.plain_data data = true -> Client.send_body data = ret (Client.body_of data).
Proof. by destruct data. Qed.

Lemma bind_ret {A B} (a : A) (k : A -> M B) : bind (ret a) k = k a.
Proof. reflexivity. Qed.

Lemma quiet_execute_request (Q : Http.request -> bool) c a path data hx :
  Client.plain_data data = true ->
  Q (Client.auth_request c) = true ->
  Q (Client.primary_request c a path (Client.body_of data) hx) = true ->
  quiet Q (Client._execute_request c a path data hx).
Proof.
  intros Hd Ha Hp. unfold Client._execute_request.
  apply quiet_try.
  - apply quiet_bind; [by apply quiet_authenticate|]. intros _.
    rewrite (send_body_plain _ Hd), bind_ret.
    apply quiet_bind; [by apply quiet_session_request | intros; apply quiet_lift].
  - intros e. destruct e; apply quiet_raise.
Qed.

Lemma is_probe_auth c : Client.is_probe (Client.auth_request c) = true.
Proof. reflexivity. Qed.

Lemma quiet_exists c path : quiet Client.is_probe (Client.exists_ c path).
Proof.
  unfold Client.exists_. apply quiet_try.
  - apply quiet_bind; [|intros; apply quiet_ret].
    by apply quiet_execute_request.
  - intros e. destruct e; first [apply quiet_ret | apply quiet_raise].
Qed.

(** What [_execute_request] does once the session has authenticated and
    the server answers. *)
Lemma execute_request_answered c a path data hx w w1 resp :
  Client.plain_data data = true ->
  Client.authenticate c w = (Ok tt, w1) ->
  remote w1 (wire w1) (Client.primary_request c a path (Client.body_of data) hx)
  = Http.Answer resp ->
  Client._execute_request c a path data hx w
  = (Client.check_status c a path resp,
     sent (Client.primary_request c a path (Client.body_of data) hx) w1).
Proof.
  intros Hd Ha Hs. unfold Client._execute_request.
  set (req := Client.primary_request c a path (Client.body_of data) hx) in *.
  assert (E : bind (Client.authenticate c)
                (fun _ => bind (Client.send_body data)
                   (fun body => bind (session_request
                                        (Client.primary_request c a path body hx))
                      (fun response => lift (Client.check_status c a path response)))) w
              = lift (Client.check_status c a path resp) (sent req w1)).
  { rewrite (bind_ok _ _ _ _ _ Ha), (send_body_plain _ Hd), bind_ret.
    by rewrite (bind_ok _ _ _ _ _ (session_request_answer _ _ _ Hs)). }
  unfold Client.check_status in *.
  destruct (Http.status resp =? 507); [by rewrite (try_raise _ _ _ _ _ E)|].
  destruct (Http.status resp =? 404); [by rewrite (try_raise _ _ _ _ _ E)|].
  destruct (Http.status resp =? 405); [by rewrite (try_raise _ _ _ _ _ E)|].
  destruct (Http.status resp >=? 400); [by rewrite (try_raise _ _ _ _ _ E)|].
  by rewrite (try_ok _ _ _ _ _ E).
Qed.

Lemma check_status_405 c a path resp :
  Http.status resp = 405 ->
  Client.check_status c a path resp
  = Raise (MethodNotSupported (Client.action_name a) (Client._hostname c)).
Proof. unfold Client.check_status. by intros ->. Qed.

Lemma check_status_ok c a path resp :
  Http.status resp < 400 -> Client.check_status c a path resp = Ok resp.
Proof.
  intros H. unfold Client.check_status.
  destruct (Z.eqb_spec (Http.status resp) 507); [lia|].
  destruct (Z.eqb_spec (Http.status resp) 404); [lia|].
  destruct (Z.eqb_spec (Http.status resp) 405); [lia|].
  destruct (Z.geb_spec (Http.status resp) 400); [lia|done].
Qed.

Lemma check_status_ok_inv c a path resp r :
  Client.check_status c a path resp = Ok r -> r = resp.
Proof.
  unfold Client.check_status.
  repeat match goal with
         | |- (if ?b then _ else _) = _ -> _ => destruct b
         end; congruence.
Qed.

(** Whatever the server answers, the request is on the wire. *)
Lemma execute_request_sent c a path data hx w w1 :
  Client.plain_data data = true ->
  Client.authenticate c w = (Ok tt, w1) ->
  snd (Client._execute_request c a path data hx w)
  = sent (Client.primary_request c a path (Client.body_of data) hx) w1.
Proof.
  intros Hd Ha. unfold Client._execute_request, try_except.
  rewrite (bind_ok _ _ _ _ _ Ha), (send_body_plain _ Hd), bind_ret.
  unfold bind, session_request.
  destruct (remote w1 (wire w1) _) as [resp| |]; try reflexivity.
  unfold lift. destruct (Client.check_status c a path resp) as [r|e]; [done|].
  by destruct e.
Qed.

(** *** Creating a directory *)

(** C6: when the parent exists and the server answers the [MKCOL] with
    405, [create_directory] returns [True]; when the parent does not
    exist it raises [RemoteParentNotFound] and the wire carries the
    probe only, no [MKCOL]. *)
Theorem create_directory_405_and_missing_parent (c : Client.t) (path : string) :
  let urn := Urn.init path true in
  let mkcol := Client.primary_request c Client.mkdir_ (Urn.quoted urn) Http.NoBody [] in
  (forall w w1 w2 resp,
      Client.exists_ c (Urn.parent urn) w = (Ok true, w1) ->
      Client.authenticate c w1 = (Ok tt, w2) ->
      remote w2 (wire w2) mkcol = Http.Answer resp ->
      Http.status resp = 405 ->
      Client.create_directory c path w = (Ok true, sent mkcol w2))
  /\ (forall w w1,
         Client.exists_ c (Urn.parent urn) w = (Ok false, w1) ->
         Client.create_directory c path w
         = (Raise (RemoteParentNotFound (Urn.path urn)), w1)
         /\ Client.count_method "MKCOL" (Client.issued w w1) = O).
Proof.
  intros urn mkcol. split.
  - intros w w1 w2 resp He Ha Hs H405.
    unfold Client.create_directory. fold urn.
    rewrite (bind_ok _ _ _ _ _ He). cbn [negb].
    pose proof (execute_request_answered c Client.mkdir_ (Urn.quoted urn)
                  Client.NoData [] w1 w2 resp eq_refl Ha Hs) as E.
    rewrite (check_status_405 _ _ _ _ H405) in E.
    by rewrite (try_raise _ _ _ _ _ (bind_raise _ _ _ _ _ E)).
  - intros w w1 He. split.
    + unfold Client.create_directory. fold urn.
      by rewrite (bind_ok _ _ _ _ _ He).
    + destruct (quiet_exists c _ _ _ _ He) as (_ & _ & _ & _ & l & Hw & Hl).
      unfold Client.issued, Client.count_method. rewrite Hw, drop_app_length.
      clear Hw. induction l as [|r l IH]; [done|].
      simpl in Hl. apply andb_true_iff in Hl as [Hr Hl]. simpl.
      unfold Client.is_probe in Hr.
      destruct (String.eqb_spec (Http.method r) "MKCOL") as [E|_]; [|by apply IH].
      rewrite E in Hr. discriminate Hr.
Qed.

Lemma create_directory_405_and_missing_parent_witness :
  fst (Client.create_directory Scenario.client_auth "/docs"
         (Scenario.start Scenario.docs_server ∅)) = Ok true
  /\ fst (Client.create_directory Scenario.client "/nowhere/x"
            (Scenario.start Scenario.docs_server ∅))
     = Raise (RemoteParentNotFound "/nowhere/x/").
Proof.
  set (w := Scenario.start Scenario.docs_server ∅).
  split.
  - set (w1 := snd (Client.exists_ Scenario.client_auth "/" w)).
    set (w2 := snd (Client.authenticate Scenario.client_auth w1)).
    rewrite (proj1 (create_directory_405_and_missing_parent
                      Scenario.client_auth "/docs")
               w w1 w2
               {| Http.status := 405; Http.resp_headers := [];
                  Http.content := []; Http.text := Xml.XMLSyntaxError |});
      reflexivity.
  - set (w1 := snd (Client.exists_ Scenario.client "/nowhere/" w)).
    rewrite (proj1 (proj2 (create_directory_405_and_missing_parent
                             Scenario.client "/nowhere/x") w w1 eq_refl)).
    reflexivity.
Defined.

(** *** Moving a resource *)

Lemma count_method_probes m l :
  forallb Client.is_probe l = true ->
  String.eqb m "HEAD" = false -> String.eqb m "GET" = false ->
  Client.count_method m l = O.
Proof.
  intros Hl H1 H2. unfold Client.count_method.
  induction l as [|r l IH]; [done|].
  simpl in Hl. apply andb_true_iff in Hl as [Hr Hl]. simpl.
  destruct (String.eqb_spec (Http.method r) m) as [E|_]; [|by apply IH].
  unfold Client.is_probe in Hr. rewrite E in Hr.
  rewrite H1, H2 in Hr. discriminate Hr.
Qed.

Lemma count_method_app m l1 l2 :
  Client.count_method m (l1 ++ l2)
  = (Client.count_method m l1 + Client.count_method m l2)%nat.
Proof.
  unfold Client.count_method. by rewrite List.filter_app, length_app.
Qed.

Lemma issued_app w w' l : wire w' = wire w ++ l -> Client.issued w w' = l.
Proof. intros H. unfold Client.issued. by rewrite H, drop_app_length. Qed.

Lemma dict_get_set k v d : dict_get k (dict_set k v d) = Some v.
Proof.
  induction d as [|[k' v'] d IH]; simpl.
  - by rewrite String.eqb_refl.
  - destruct (String.eqb_spec k' k) as [->|Hne]; simpl.
    + by rewrite String.eqb_refl.
    + by destruct (String.eqb_spec k' k).
Qed.

Lemma dict_get_set_other k k' v d :
  k' <> k -> dict_get k (dict_set k' v d) = dict_get k d.
Proof.
  intros Hne. induction d as [|[k1 v1] d IH]; simpl.
  - by destruct (String.eqb_spec k' k).
  - destruct (String.eqb_spec k1 k') as [->|H1]; simpl.
    + by destruct (String.eqb_spec k' k).
    + by rewrite IH.
Qed.

(** The headers of the [MOVE] request. *)
Lemma move_headers c dest (overwrite : bool) :
  let h := Client._get_headers c Client.move_
             [("Destination", dest); ("Overwrite", if overwrite then "T" else "F")] in
  dict_get "Destination" h = Some dest
  /\ dict_get "Overwrite" h = Some (if overwrite then "T" else "F").
Proof.
  unfold Client._get_headers.
  destruct (Client._token c) as [[|a tok]|]; split;
    try rewrite dict_get_set_other by discriminate; reflexivity.
Qed.

(** C7: [move] fails with [RemoteResourceNotFound] after the probe of
    the source alone, with [RemoteParentNotFound] after the probe of the
    parent of the destination, and otherwise, once the session has
    authenticated, sends one [MOVE] with the [Destination] header and
    [Overwrite] set to [T] or [F]. *)
Theorem move_preconditions_and_request
    (c : Client.t) (source destination : string) (overwrite : bool) :
  let urn_from := Urn.init source false in
  let urn_to := Urn.init destination false in
  let headers := [("Destination", Client._get_url c (Urn.quoted urn_to));
                  ("Overwrite", if overwrite then "T" else "F")] in
  let request :=
    Client.primary_request c Client.move_ (Urn.quoted urn_from) Http.NoBody headers in
  (forall w w1,
      Client.exists_ c (Urn.path urn_from) w = (Ok false, w1) ->
      Client.move c source destination overwrite w
      = (Raise (RemoteResourceNotFound (Urn.path urn_from)), w1))
  /\ (forall w w1 w2,
         Client.exists_ c (Urn.path urn_from) w = (Ok true, w1) ->
         Client.exists_ c (Urn.parent urn_to) w1 = (Ok false, w2) ->
         Client.move c source destination overwrite w
         = (Raise (RemoteParentNotFound (Urn.path urn_to)), w2))
  /\ (forall w w1 w2 w3,
         Client.exists_ c (Urn.path urn_from) w = (Ok true, w1) ->
         Client.exists_ c (Urn.parent urn_to) w1 = (Ok true, w2) ->
         Client.authenticate c w2 = (Ok tt, w3) ->
         snd (Client.move c source destination overwrite w) = sent request w3
         /\ Client.count_method "MOVE"
              (Client.issued w (snd (Client.move c source destination overwrite w)))
            = 1%nat
         /\ Http.method request = "MOVE"
         /\ dict_get "Destination" (Http.headers request)
            = Some (Client._get_url c (Urn.quoted urn_to))
         /\ dict_get "Overwrite" (Http.headers request)
            = Some (if overwrite then "T" else "F")).
Proof.
  intros urn_from urn_to headers request. split; [|split].
  - intros w w1 He. unfold Client.move. fold urn_from.
    by rewrite (bind_ok _ _ _ _ _ He).
  - intros w w1 w2 He1 He2. unfold Client.move. fold urn_from urn_to.
    rewrite (bind_ok _ _ _ _ _ He1). cbn [negb].
    by rewrite (bind_ok _ _ _ _ _ He2).
  - intros w w1 w2 w3 He1 He2 Ha.
    assert (Hm : snd (Client.move c source destination overwrite w)
                 = sent request w3).
    { unfold Client.move. fold urn_from urn_to.
      rewrite (bind_ok _ _ _ _ _ He1). cbn [negb].
      rewrite (bind_ok _ _ _ _ _ He2). cbn [negb].
      fold headers.
      pose proof (execute_request_sent c Client.move_ (Urn.quoted urn_from)
                    Client.NoData headers w2 w3 eq_refl Ha) as E.
      unfold bind.
      destruct (Client._execute_request c Client.move_ (Urn.quoted urn_from)
                  Client.NoData headers w2) as [[r|e] w4]; exact E. }
    split; [exact Hm|]. split; [|split; [reflexivity | apply move_headers]].
    rewrite Hm.
    destruct (quiet_exists c _ _ _ _ He1) as (_ & _ & _ & _ & l1 & Hw1 & Hl1).
    destruct (quiet_exists c _ _ _ _ He2) as (_ & _ & _ & _ & l2 & Hw2 & Hl2).
    destruct (quiet_authenticate Client.is_probe c eq_refl _ _ _ Ha)
      as (_ & _ & _ & _ & l3 & Hw3 & Hl3).
    rewrite (issued_app w (sent request w3) (l1 ++ l2 ++ l3 ++ [request])).
    + rewrite !count_method_app.
      rewrite !count_method_probes by done. reflexivity.
    + simpl. rewrite Hw3, Hw2, Hw1. by rewrite <- !app_assoc.
Qed.

Lemma move_preconditions_and_request_witness :
  fst (Client.move Scenario.client "/docs/gone.bin" "/docs/c.bin" false
         (Scenario.start Scenario.docs_server ∅))
  = Raise (RemoteResourceNotFound "/docs/gone.bin")
  /\ fst (Client.move Scenario.client "/docs/a.bin" "/nowhere/c.bin" false
            (Scenario.start Scenario.docs_server ∅))
     = Raise (RemoteParentNotFound "/nowhere/c.bin")
  /\ Client.count_method "MOVE"
       (wire (snd (Client.move Scenario.client_auth "/docs/a.bin" "/docs/c.bin" true
                     (Scenario.start Scenario.docs_server ∅)))) = 1%nat.
Proof.
  set (w := Scenario.start Scenario.docs_server ∅).
  split; [|split].
  - set (w1 := snd (Client.exists_ Scenario.client "/docs/gone.bin" w)).
    rewrite (proj1 (move_preconditions_and_request
                      Scenario.client "/docs/gone.bin" "/docs/c.bin" false)
               w w1 eq_refl).
    reflexivity.
  - set (w1 := snd (Client.exists_ Scenario.client "/docs/a.bin" w)).
    set (w2 := snd (Client.exists_ Scenario.client "/nowhere/" w1)).
    rewrite (proj1 (proj2 (move_preconditions_and_request
                             Scenario.client "/docs/a.bin" "/nowhere/c.bin" false))
               w w1 w2 eq_refl eq_refl).
    reflexivity.
  - set (w1 := snd (Client.exists_ Scenario.client_auth "/docs/a.bin" w)).
    set (w2 := snd (Client.exists_ Scenario.client_auth "/docs/" w1)).
    set (w3 := snd (Client.authenticate Scenario.client_auth w2)).
    exact (proj1 (proj2 (proj2 (proj2 (move_preconditions_and_request
                                         Scenario.client_auth "/docs/a.bin"
                                         "/docs/c.bin" true))
                                 w w1 w2 w3 eq_refl eq_refl eq_refl))).
Defined.

(** *** Free space *)

Lemma parse_free_space_absent tree hostname :
  Xml.find_deep (WebDavXmlUtils.dav "quota-available-bytes") tree = None ->
  WebDavXmlUtils.parse_free_space_response (Xml.WellFormed tree) hostname
  = Raise (MethodNotSupported "free" hostname).
Proof. unfold WebDavXmlUtils.parse_free_space_response. by intros ->. Qed.

(** C4, where the code departs from it: on a body that is not XML,
    [parse_free_space_response] returns [-1] and raises nothing. *)
Theorem parse_free_space_malformed_returns (hostname : string) :
  WebDavXmlUtils.parse_free_space_response Xml.XMLSyntaxError hostname = Ok (-1).
Proof. reflexivity. Qed.

(** The same seen from [free]: a server whose answer to the quota
    request is not XML makes [free] return [-1]. *)
Lemma free_malformed_returns c w w1 resp :
  Client.authenticate c w = (Ok tt, w1) ->
  remote w1 (wire w1)
    (Client.primary_request c Client.free_ EmptyString
       (Http.XmlBody WebDavXmlUtils.create_free_space_request_content) [])
  = Http.Answer resp ->
  Http.status resp < 400 ->
  Http.text resp = Xml.XMLSyntaxError ->
  fst (Client.free c w) = Ok (-1).
Proof.
  intros Ha Hs Hst Ht. unfold Client.free.
  pose proof (execute_request_answered c Client.free_ EmptyString
                (Client.XmlData WebDavXmlUtils.create_free_space_request_content)
                [] w w1 resp eq_refl Ha Hs) as E.
  rewrite (check_status_ok _ _ _ _ Hst) in E.
  rewrite (bind_ok _ _ _ _ _ E), Ht. reflexivity.
Qed.

(** *** Setting a property *)

(** C1, where the code departs from it: [set_property] looks up a method
    [check] that [Client] does not have, so it raises [AttributeError]
    for every path, before any request. *)
Theorem set_property_raises_attribute_error
    (c : Client.t) (path : string) (option : value) (w : world) :
  Client.set_property c path option w = (Raise (AttributeError "Client" "check"), w).
Proof. reflexivity. Qed.

(** The request body is never built either: the batch builder iterates
    over its argument, and [set_property] hands it the description
    itself, a [dict], whose keys are strings. *)
Lemma set_property_batch_of_a_dict :
  WebDavXmlUtils.create_set_property_batch_request_content
    (Dict [("name", "x"); ("value", "v")])
  = Raise (TypeError "string indices must be integers").
Proof. reflexivity. Qed.

Lemma set_property_batch_of_a_list :
  WebDavXmlUtils.create_set_property_batch_request_content
    (List [Dict [("name", "x"); ("value", "v")]])
  = Ok (Xml.Element "propertyupdate" [("xmlns", "DAV:")] None
          [Xml.Element "set" [] None
             [Xml.Element "prop" [] None
                [Xml.Element "x" [("xmlns", EmptyString)] (Some "v") []]]]).
Proof. reflexivity. Qed.

(** *** The upload dispatcher *)

(** C2, where the code departs from it: [upload] creates the coroutine
    of the nested transfer and drops it; it returns with the world as it
    found it, nothing sent. *)
Theorem upload_returns_without_transfer
    (depth : nat) (c : Client.t) (remote_path local_path : string)
    (progress : bool) (w : world) :
  Client.upload depth c remote_path local_path progress w = (Ok tt, w).
Proof.
  unfold Client.upload, Client.upload_with, bind, local_fs, not_awaited, ret.
  by destruct (Os.isdir (local w) local_path).
Qed.

(** The transfer it leaves out: awaited, [upload_file] puts the ten
    bytes of the local file on the wire. *)
Lemma upload_file_awaited_transfers :
  let w := Scenario.start Scenario.docs_server Scenario.local_files in
  wire (snd (Client.upload 1 Scenario.client "/docs/b.bin" "/tmp/b.bin" false w)) = []
  /\ last (wire (snd (await (Client.upload_file Scenario.client
                               "/docs/b.bin" "/tmp/b.bin" false) w)))
     = Some {| Http.method := "PUT";
               Http.url := "http://dav.example/docs/b.bin";
               Http.headers := [];
               Http.data := Http.BufferBody Scenario.ten_bytes |}.
Proof. split; vm_compute; reflexivity. Qed.

(** *** Uploading a directory *)

Lemma raises_authenticate c : raises_only not_local (Client.authenticate c).
Proof.
  unfold Client.authenticate. destruct (Client.session_auth c).
  - apply raises_bind; [|intros; apply raises_ret].
    eapply raises_weaken; [|apply raises_session_request].
    intros e [-> | ->] p; discriminate.
  - apply raises_ret.
Qed.

Lemma raises_execute_request c a path data hx :
  Client.plain_data data = true ->
  raises_only not_local (Client._execute_request c a path data hx).
Proof.
  intros Hd. unfold Client._execute_request.
  apply (raises_try not_local not_local).
  - apply raises_bind; [apply raises_authenticate|]. intros _.
    rewrite (send_body_plain _ Hd), bind_ret.
    apply raises_bind.
    + eapply raises_weaken; [|apply raises_session_request].
      intros e [-> | ->] p; discriminate.
    + intros resp. apply raises_lift. unfold Client.check_status.
      intros e He p.
      repeat match type of He with
             | (if ?b then _ else _) = _ => destruct b
             end; inversion He; discriminate.
  - intros e He. destruct e; apply raises_raise; try exact He;
      intros p; discriminate.
Qed.

Lemma raises_exists c path : raises_only not_local (Client.exists_ c path).
Proof.
  unfold Client.exists_. apply (raises_try not_local not_local).
  - apply raises_bind; [by apply raises_execute_request | intros; apply raises_ret].
  - intros e He. destruct e; first [apply raises_ret | by apply raises_raise].
Qed.

Lemma raises_unlink c path : raises_only not_local (Client.unlink c path).
Proof.
  unfold Client.unlink.
  apply raises_bind; [by apply raises_execute_request | intros; apply raises_ret].
Qed.

Lemma raises_create_directory c path :
  raises_only not_local (Client.create_directory c path).
Proof.
  unfold Client.create_directory.
  apply raises_bind; [apply raises_exists|]. intros e.
  destruct (negb e); [apply raises_raise; intros p; discriminate|].
  apply (raises_try not_local not_local).
  - apply raises_bind; [by apply raises_execute_request | intros; apply raises_ret].
  - intros e' He. destruct e'; first [apply raises_ret | by apply raises_raise].
Qed.

Lemma raises_upload_with P ud c remote_path local_path progress :
  raises_only P (Client.upload_with ud c remote_path local_path progress).
Proof.
  unfold Client.upload_with.
  apply raises_bind; [apply raises_local_fs|]. intros fs.
  destruct (Os.isdir fs local_path); apply raises_ret.
Qed.

Lemma isdir_exists fs path : Os.isdir fs path = true -> Os.exists_ fs path = true.
Proof. unfold Os.isdir, Os.exists_. by destruct (fs !! path) as [[]|]. Qed.

(** [upload_directory] once the remote path has passed its check,
    which it always does. *)
Lemma upload_directory_unfold depth c remote_path local_path progress :
  Client.upload_directory (S depth) c remote_path local_path progress
  = bind local_fs (fun fs =>
      if negb (Os.isdir fs local_path)
      then raise (OptionNotValid "local_path" local_path)
      else if negb (Os.exists_ fs local_path)
      then raise (LocalResourceNotFound local_path)
      else
        let urn := Urn.init remote_path true in
        bind (Client.exists_ c (Urn.path urn)) (fun e =>
        bind (if e : bool then Client.unlink c (Urn.path urn) else ret tt) (fun _ =>
        bind (Client.create_directory c remote_path) (fun _ =>
          for_each
            (match fs !! local_path with
             | Some (Os.Directory entries) => entries
             | _ => []
             end)
            (fun resource_name =>
               await (Client.upload_with
                        (fun r l => Client.upload_directory depth c r l progress)
                        c
                        (Client.remove_backslashes (Urn.path urn +:+ resource_name))
                        (Os.join local_path resource_name) progress)))))).
Proof.
  cbn [Client.upload_directory].
  by rewrite UrnFacts.is_dir_init_directory.
Qed.

Lemma raises_upload_directory depth c remote_path local_path progress :
  raises_only not_local
    (Client.upload_directory depth c remote_path local_path progress).
Proof.
  destruct depth as [|depth].
  - apply raises_raise. intros p. discriminate.
  - rewrite upload_directory_unfold.
    apply raises_bind; [apply raises_local_fs|]. intros fs.
    destruct (Os.isdir fs local_path) eqn:Ed; cbn [negb].
    + rewrite (isdir_exists _ _ Ed). cbn [negb].
      apply raises_bind; [apply raises_exists|]. intros e.
      apply raises_bind.
      { destruct e; [apply raises_unlink | apply raises_ret]. }
      intros _. apply raises_bind; [apply raises_create_directory|]. intros _.
      apply raises_for_each. intros name. apply raises_upload_with.
    + apply raises_raise. intros p. discriminate.
Qed.

(** C10: on a local path that does not exist, [upload_directory] raises
    [OptionNotValid] for [local_path] and touches nothing; and it never
    raises [LocalResourceNotFound], whatever its arguments. *)
Theorem upload_directory_missing_local_path
    (depth : nat) (c : Client.t) (remote_path local_path : string)
    (progress : bool) (w : world) :
  (local w !! local_path = None ->
   Client.upload_directory (S depth) c remote_path local_path progress w
   = (Raise (OptionNotValid "local_path" local_path), w))
  /\ (forall p,
         fst (Client.upload_directory depth c remote_path local_path progress w)
         <> Raise (LocalResourceNotFound p)).
Proof.
  split.
  - intros Hl. rewrite upload_directory_unfold.
    unfold bind, local_fs, Os.isdir. rewrite Hl. reflexivity.
  - intros p H.
    destruct (Client.upload_directory depth c remote_path local_path progress w)
      as [r w'] eqn:E.
    simpl in H. subst r.
    exact (raises_upload_directory _ _ _ _ _ _ _ _ E p eq_refl).
Qed.

Lemma upload_directory_missing_local_path_witness :
  Client.upload_directory 3 Scenario.client "/docs/new" "/tmp/missing" true
    (Scenario.start Scenario.docs_server Scenario.local_files)
  = (Raise (OptionNotValid "local_path" "/tmp/missing"),
     Scenario.start Scenario.docs_server Scenario.local_files).
Proof.
  apply (proj1 (upload_directory_missing_local_path 2 Scenario.client
                  "/docs/new" "/tmp/missing" true
                  (Scenario.start Scenario.docs_server Scenario.local_files))).
  vm_compute. reflexivity.
Defined.

(** *** Listing a directory *)

(** The first half of C5: a directory other than the root whose probe
    fails is reported missing, and the wire carries the probe only. *)
Lemma list_missing_directory c path get_info w w1 :
  let directory_urn := Urn.init path true in
  Urn.path directory_urn <> "/" ->
  Client.exists_ c (Urn.path directory_urn) w = (Ok false, w1) ->
  Client.list c path get_info w
  = (Raise (RemoteResourceNotFound (Urn.path directory_urn)), w1)
  /\ Client.count_method "PROPFIND" (Client.issued w w1) = O.
Proof.
  intros urn Hroot He. split.
  - unfold Client.list. fold urn.
    destruct (String.eqb_spec (Urn.path urn) "/") as [E|_]; [done|]. cbn [negb].
    unfold bind at 1. unfold bind at 1. by rewrite He.
  - destruct (quiet_exists c _ _ _ _ He) as (_ & _ & _ & _ & l & Hw & Hl).
    rewrite (issued_app _ _ _ Hw). by apply count_method_probes.
Qed.

(** What the filter of [list] does guarantee: on no entry it returns
    does [compare_path] answer [True]. *)
Lemma list_entries_fail_compare_path c path w l :
  let directory_urn := Urn.init path true in
  fst (Client.list c path true w) = Ok (Client.Infos l) ->
  Forall (fun entry =>
            Urn.compare_path
              (Urn.normalize_path (Client.get_full_path c directory_urn))
              (WebDavXmlUtils.path entry) = false) l.
Proof.
  intros urn. unfold Client.list. fold urn.
  unfold bind at 1.
  destruct ((if negb (Urn.path urn =? "/")%string
             then bind (Client.exists_ c (Urn.path urn)) (fun e => ret (negb e))
             else ret false) w) as [[missing|e] w1]; [|discriminate].
  destruct missing; [discriminate|].
  unfold bind.
  destruct (Client._execute_request c Client.list_ (Urn.quoted urn)
              Client.NoData [] w1) as [[resp|e] w2]; [|discriminate].
  simpl. intros [= <-].
  apply List.Forall_forall. intros entry Hin.
  apply List.filter_In in Hin as [_ Hin]. by apply negb_true_iff.
Qed.

(** C5, where the code departs from it: [list] hands [compare_path] a
    path that is already decoded, and [compare_path] splits and decodes
    it once more as if it were an [href].  For the directory [/C#] the
    ["#"] then starts a fragment, the comparison is made with [/C], and
    the entry of the directory itself stays in the result, in both
    modes. *)
Theorem list_returns_the_directory_itself :
  let c := Scenario.client in
  let w := Scenario.start Scenario.sharp_server ∅ in
  let directory := Urn.normalize_path (Client.get_full_path c (Urn.init "/C#" true)) in
  fst (Client.list c "/C#" false w) = Ok (Client.Names ["C#/"; "notes.txt"])
  /\ (exists info rest,
         fst (Client.list c "/C#" true w) = Ok (Client.Infos (info :: rest))
         /\ WebDavXmlUtils.path info = "/C#/"
         /\ Urn.normalize_path (WebDavXmlUtils.path info) = directory)
  /\ Urn.compare_path directory "/C#/" = false
  /\ Urn.compare_path directory "/C%23/" = true.
Proof.
  split; [vm_compute; reflexivity|]. split; [|split; reflexivity].
  eexists _, _. split; [vm_compute; reflexivity|]. split; reflexivity.
Qed.

(** *** Transfers with a progress callback *)

Lemma execute_request_ok_inv c a path data hx w resp w' :
  Client._execute_request c a path data hx w = (Ok resp, w') ->
  exists w1 body w2,
    Client.authenticate c w = (Ok tt, w1)
    /\ Client.send_body data w1 = (Ok body, w2)
    /\ remote w2 (wire w2) (Client.primary_request c a path body hx) = Http.Answer resp
    /\ w' = sent (Client.primary_request c a path body hx) w2.
Proof.
  unfold Client._execute_request, try_except.
  match goal with |- context [match ?m w with _ => _ end] => destruct (m w) as [[r|e] w0] eqn:E end.
  - intros [= -> ->].
    apply bind_ok_inv in E as ([] & w1 & Ha & E).
    apply bind_ok_inv in E as (body & w2 & Hb & E).
    apply bind_ok_inv in E as (resp' & w3 & Hs & E).
    apply session_request_ok_inv in Hs as [Hs ->].
    destruct (Client.check_status c a path resp') as [r|e] eqn:Ec;
      simpl in E; [|discriminate].
    injection E as -> <-.
    apply check_status_ok_inv in Ec as ->.
    by exists w1, body, w2.
  - destruct e; discriminate.
Qed.

Lemma quiet_weaken {A} (Q Q' : Http.request -> bool) (m : M A) :
  (forall r, Q r = true -> Q' r = true) -> quiet Q m -> quiet Q' m.
Proof.
  intros H Hm w r w' E.
  destruct (Hm _ _ _ E) as (a1 & a2 & a3 & a4 & l & a5 & a6).
  repeat split; try done. exists l. split; [done|].
  apply forallb_forall. intros x Hx. apply H.
  by apply (proj1 (forallb_forall _ _) a6).
Qed.

Lemma quiet_exists_any c path : quiet Client.any_request (Client.exists_ c path).
Proof. eapply quiet_weaken; [|apply quiet_exists]. done. Qed.

Lemma quiet_is_directory c path : quiet Client.any_request (Client.is_directory c path).
Proof.
  unfold Client.is_directory, Client._check_remote_resource.
  apply quiet_bind.
  - apply quiet_bind; [apply quiet_exists_any|]. intros [|]; [apply quiet_ret|].
    apply quiet_bind; [apply quiet_exists_any|].
    intros [|]; [apply quiet_ret | apply quiet_raise].
  - intros _. apply quiet_bind; [by apply quiet_execute_request|].
    intros resp. apply quiet_lift.
Qed.

Lemma file_sender_spec c buffer w :
  Client._chunk_size c <> 0 ->
  exists chunks w',
    Client.file_sender c buffer (Some (Client.len buffer)) w = (Ok chunks, w')
    /\ List.concat chunks = buffer
    /\ Forall (fun b => b <> []) chunks
    /\ remote w' = remote w /\ wire w' = wire w
    /\ progress_calls w'
       = progress_calls w
         ++ (0, Some (Client.len buffer)) :: Client.running (Client.len buffer) 0 chunks.
Proof.
  intros Hc. unfold Client.file_sender.
  destruct (TransferFacts.reads_spec (Client._chunk_size c) [buffer] Hc) as [Hcat Hne].
  simpl in Hcat. rewrite app_nil_r in Hcat.
  set (chunks := Http.reads (Client._chunk_size c) [buffer]) in *.
  unfold bind at 1. unfold call_progress at 1.
  destruct (TransferFacts.file_sender_loop_spec (Client.len buffer) 0 chunks
              {| remote := remote w; wire := wire w;
                 progress_calls := progress_calls w ++ [(0, Some (Client.len buffer))];
                 sink := sink w; local := local w |} Hne)
    as (w' & E & H1 & H2 & H3 & H4 & H5); [by rewrite Hcat|].
  exists chunks, w'. simpl in *. repeat split; try done.
  by rewrite H5, <- app_assoc.
Qed.

Lemma upload_to_progress c path buffer w w' :
  Client._chunk_size c <> 0 ->
  Client.upload_to c path buffer (Some (Client.len buffer)) true w = (Ok tt, w') ->
  exists calls chunks,
    progress_calls w' = progress_calls w ++ calls
    /\ Client.progress_trace (Client.len buffer) calls
    /\ last (wire w')
       = Some (Client.primary_request c Client.upload_
                 (Urn.quoted (Urn.init path false)) (Http.ChunkedBody chunks) [])
    /\ List.concat chunks = buffer.
Proof.
  intros Hc. unfold Client.upload_to.
  set (urn := Urn.init path false).
  destruct (Urn.is_dir urn) as [[|]|]; cbn [lift]; try discriminate.
  rewrite bind_ret.
  intros E. apply bind_ok_inv in E as (e & w1 & He & E).
  destruct e; cbn [negb] in E; [|discriminate].
  apply bind_ok_inv in E as (resp & w2 & Hx & E). injection E as <-.
  apply execute_request_ok_inv in Hx as (wa & body & wb & Ha & Hb & Hs & ->).
  cbn [Client.send_body] in Hb.
  apply bind_ok_inv in Hb as (chunks & wc & Hg & Hb). injection Hb as <- <-.
  destruct (file_sender_spec c buffer wa Hc)
    as (chunks' & w'' & Hg' & Hcat & Hne & _ & _ & Hp).
  rewrite Hg in Hg'. injection Hg' as <- <-.
  destruct (quiet_exists c _ _ _ _ He) as (_ & _ & _ & Hp1 & _).
  destruct (quiet_authenticate Client.is_probe c eq_refl _ _ _ Ha)
    as (_ & _ & _ & Hp2 & _).
  exists ((0, Some (Client.len buffer)) :: Client.running (Client.len buffer) 0 chunks),
         chunks.
  repeat split.
  - simpl. by rewrite Hp, Hp2, Hp1.
  - apply (TransferFacts.progress_trace_running (Client.len buffer) chunks Hne).
    by rewrite Hcat.
  - apply (TransferFacts.progress_trace_running (Client.len buffer) chunks Hne).
    by rewrite Hcat.
  - apply (TransferFacts.progress_trace_running (Client.len buffer) chunks Hne).
    by rewrite Hcat.
  - simpl. apply last_snoc.
  - exact Hcat.
Qed.

Lemma download_to_progress c path n w w' :
  Client._chunk_size c <> 0 ->
  Client.serves_size (remote w)
    (Client.primary_request c Client.download_
       (Urn.quoted (Urn.init path false)) Http.NoBody []) n ->
  Client.download_to c path true w = (Ok tt, w') ->
  exists calls bytes,
    progress_calls w' = progress_calls w ++ calls
    /\ Client.progress_trace n calls
    /\ sink w' = sink w ++ bytes
    /\ Client.len bytes = n.
Proof.
  intros Hc Hsrv. unfold Client.download_to.
  set (urn := Urn.init path false) in *.
  intros E. apply bind_ok_inv in E as (d & w1 & Hd & E).
  destruct d; [discriminate|].
  apply bind_ok_inv in E as (e & w2 & He & E).
  destruct e; cbn [negb] in E; [|discriminate].
  apply bind_ok_inv in E as (resp & w3 & Hx & E).
  apply execute_request_ok_inv in Hx as (wa & body & wb & Ha & Hb & Hs & ->).
  injection Hb as <- <-.
  destruct (quiet_is_directory c _ _ _ _ Hd) as (Hr1 & _ & Hs1 & Hp1 & _).
  destruct (quiet_exists c _ _ _ _ He) as (Hr2 & _ & Hs2 & Hp2 & _).
  destruct (quiet_authenticate Client.is_probe c eq_refl _ _ _ Ha)
    as (Hr3 & _ & Hs3 & Hp3 & _).
  assert (Hr : remote wa = remote w) by congruence.
  rewrite Hr in Hs.
  destruct (Hsrv _ _ Hs) as [(v & Hv & Hi) Hlen].
  rewrite Hv, Hi, bind_ret in E.
  cbn [Client.report] in E.
  unfold bind at 1 in E. unfold call_progress at 1 in E.
  destruct (TransferFacts.reads_spec (Client._chunk_size c) (Http.content resp) Hc)
    as [Hcat Hne].
  unfold Http.iter_chunked in E.
  set (blocks := Http.reads (Client._chunk_size c) (Http.content resp)) in *.
  match type of E with
  | Client.download_blocks _ _ _ _ ?w0 = _ =>
      destruct (TransferFacts.download_blocks_spec n 0 blocks w0)
        as (w'' & E' & _ & _ & _ & H4 & H5)
  end.
  rewrite E in E'. injection E' as <-.
  simpl in H4, H5.
  exists ((0, Some n) :: Client.running n 0 blocks), (List.concat blocks).
  split; [|split; [|split]].
  - rewrite H5, <- app_assoc. simpl. congruence.
  - apply TransferFacts.progress_trace_running; [done | by rewrite Hcat].
  - rewrite H4. congruence.
  - by rewrite Hcat.
Qed.

Lemma begins_trace_complete n calls :
  Client.progress_trace n calls -> Terms.begins_trace n calls.
Proof. intros (H1 & _ & H3 & H4). right. by split; [|split]. Qed.

(** The handler of [_execute_request] raises again, in the same world. *)
Lemma execute_request_handler c e w :
  exists e',
    (match e with
     | ClientConnectionError => raise (NoConnection (Client._hostname c))
     | ClientResponseError => raise ConnectionException
     | _ => raise e
     end : M Http.response) w = (Raise e', w).
Proof. destruct e; eexists; reflexivity. Qed.

Lemma execute_request_generator_calls c a path buffer hx w r w' :
  Client._chunk_size c <> 0 ->
  Client._execute_request c a path
    (Client.Generator (Client.file_sender c buffer (Some (Client.len buffer)))) hx w
  = (r, w') ->
  progress_calls w' = progress_calls w
  \/ exists chunks,
       progress_calls w'
       = progress_calls w
         ++ (0, Some (Client.len buffer)) :: Client.running (Client.len buffer) 0 chunks
       /\ List.concat chunks = buffer
       /\ Forall (fun b => b <> []) chunks.
Proof.
  intros Hc. unfold Client._execute_request, try_except.
  unfold bind at 1.
  destruct (Client.authenticate c w) as [[[]|e] w1] eqn:Ha.
  - destruct (quiet_authenticate Client.is_probe c eq_refl _ _ _ Ha)
      as (_ & _ & _ & Hp1 & _).
    destruct (file_sender_spec c buffer w1 Hc)
      as (chunks & w2 & Hg & Hcat & Hne & _ & _ & Hp).
    cbn [Client.send_body]. unfold bind at 1. unfold bind at 1. rewrite Hg.
    cbn [ret]. unfold bind at 1.
    set (req := Client.primary_request c a path (Http.ChunkedBody chunks) hx).
    assert (forall x : result Http.response * world,
               snd x = sent req w2 ->
               x = (r, w') ->
               progress_calls w' = progress_calls w
               \/ exists chunks0,
                    progress_calls w'
                    = progress_calls w
                      ++ (0, Some (Client.len buffer))
                         :: Client.running (Client.len buffer) 0 chunks0
                    /\ List.concat chunks0 = buffer
                    /\ Forall (fun b => b <> []) chunks0) as Hend.
    { intros x Hx ->. cbn [snd] in Hx. subst w'. right. exists chunks.
      cbn [sent progress_calls]. by rewrite Hp, Hp1. }
    unfold session_request.
    destruct (remote w2 (wire w2) req) as [resp| |].
    + destruct (Client.check_status c a path resp) as [r0|e0]; cbn [lift ret raise].
      * by apply Hend.
      * destruct (execute_request_handler c e0 (sent req w2)) as [e' He'].
        rewrite He'. by apply Hend.
    + by apply Hend.
    + by apply Hend.
  - destruct (quiet_authenticate Client.is_probe c eq_refl _ _ _ Ha)
      as (_ & _ & _ & Hp1 & _).
    destruct (execute_request_handler c e w1) as [e' He']. rewrite He'.
    intros [= <- <-]. by left.
Qed.

Lemma upload_to_calls c path buffer w r w' :
  Client._chunk_size c <> 0 ->
  Client.upload_to c path buffer (Some (Client.len buffer)) true w = (r, w') ->
  exists calls,
    progress_calls w' = progress_calls w ++ calls
    /\ Terms.begins_trace (Client.len buffer) calls.
Proof.
  intros Hc. unfold Client.upload_to.
  set (urn := Urn.init path false).
  assert (forall w0, progress_calls w0 = progress_calls w ->
                     exists calls, progress_calls w0 = progress_calls w ++ calls
                                   /\ Terms.begins_trace (Client.len buffer) calls) as Hnone.
  { intros w0 H0. exists []. split; [by rewrite app_nil_r | by left]. }
  destruct (Urn.is_dir urn) as [[|]|]; cbn [lift].
  - intros [= <- <-]. by apply Hnone.
  - rewrite bind_ret. unfold bind at 1.
    destruct (Client.exists_ c (Urn.parent urn) w) as [[e|ex] w1] eqn:He.
    + destruct (quiet_exists c _ _ _ _ He) as (_ & _ & _ & Hp1 & _).
      destruct e; cbn [negb].
      * unfold bind.
        destruct (Client._execute_request c Client.upload_ (Urn.quoted urn)
                    (Client.Generator
                       (Client.file_sender c buffer (Some (Client.len buffer)))) [] w1)
          as [[resp|e] w2] eqn:Hx.
        all: destruct (execute_request_generator_calls _ _ _ _ _ _ _ _ Hc Hx)
            as [H0|(chunks & Hp & Hcat & Hne)].
        all: intros [= <- <-].
        all: try (apply Hnone; congruence).
        all: exists ((0, Some (Client.len buffer))
                       :: Client.running (Client.len buffer) 0 chunks).
        all: split; [by rewrite Hp, Hp1|].
        all: apply begins_trace_complete, TransferFacts.progress_trace_running; [done|].
        all: by rewrite Hcat.
      * intros [= <- <-]. by apply Hnone.
    + destruct (quiet_exists c _ _ _ _ He) as (_ & _ & _ & Hp1 & _).
      intros [= <- <-]. by apply Hnone.
  - intros [= <- <-]. by apply Hnone.
Qed.

Lemma download_to_calls c path n w r w' :
  Client._chunk_size c <> 0 ->
  Client.serves_size (remote w)
    (Client.primary_request c Client.download_
       (Urn.quoted (Urn.init path false)) Http.NoBody []) n ->
  Client.download_to c path true w = (r, w') ->
  exists calls,
    progress_calls w' = progress_calls w ++ calls
    /\ Terms.begins_trace n calls.
Proof.
  intros Hc Hsrv. unfold Client.download_to.
  set (urn := Urn.init path false) in *.
  assert (forall w0, progress_calls w0 = progress_calls w ->
                     exists calls, progress_calls w0 = progress_calls w ++ calls
                                   /\ Terms.begins_trace n calls) as Hnone.
  { intros w0 H0. exists []. split; [by rewrite app_nil_r | by left]. }
  unfold bind at 1.
  destruct (Client.is_directory c (Urn.path urn) w) as [[d|ex] w1] eqn:Hd;
    destruct (quiet_is_directory c _ _ _ _ Hd) as (Hr1 & _ & _ & Hp1 & _).
  2:{ intros [= <- <-]. by apply Hnone. }
  destruct d.
  { intros [= <- <-]. by apply Hnone. }
  unfold bind at 1.
  destruct (Client.exists_ c (Urn.path urn) w1) as [[e|ex] w2] eqn:He;
    destruct (quiet_exists c _ _ _ _ He) as (Hr2 & _ & _ & Hp2 & _).
  2:{ intros [= <- <-]. apply Hnone. congruence. }
  destruct e; cbn [negb].
  2:{ intros [= <- <-]. apply Hnone. congruence. }
  unfold bind at 1.
  destruct (Client._execute_request c Client.download_ (Urn.quoted urn)
              Client.NoData [] w2) as [[resp|ex] w3] eqn:Hx.
  2:{ assert (quiet Client.any_request
                (Client._execute_request c Client.download_ (Urn.quoted urn)
                   Client.NoData [])) as Q by (by apply quiet_execute_request).
      destruct (Q _ _ _ Hx) as (_ & _ & _ & Hp3 & _).
      intros [= <- <-]. apply Hnone. congruence. }
  pose proof Hx as Hx'.
  apply execute_request_ok_inv in Hx' as (wa & body & wb & Ha & Hb & Hs & ->).
  injection Hb as <- <-.
  destruct (quiet_authenticate Client.is_probe c eq_refl _ _ _ Ha)
    as (Hr3 & _ & _ & Hp3 & _).
  assert (Hr : remote wa = remote w) by congruence.
  rewrite Hr in Hs.
  destruct (Hsrv _ _ Hs) as [(v & Hv & Hi) Hlen].
  rewrite Hv, Hi, bind_ret.
  cbn [Client.report].
  unfold bind at 1. unfold call_progress at 1.
  destruct (TransferFacts.reads_spec (Client._chunk_size c) (Http.content resp) Hc) as [Hcat Hne].
  unfold Http.iter_chunked.
  set (blocks := Http.reads (Client._chunk_size c) (Http.content resp)) in *.
  match goal with
  | |- Client.download_blocks _ _ _ _ ?w0 = _ -> _ =>
      destruct (TransferFacts.download_blocks_spec n 0 blocks w0)
        as (w'' & E' & _ & _ & _ & _ & H5)
  end.
  rewrite E'. intros [= <- <-].
  exists ((0, Some n) :: Client.running n 0 blocks). split.
  - rewrite H5. cbn [progress_calls sent]. rewrite <- app_assoc. cbn [app].
    congruence.
  - apply begins_trace_complete, TransferFacts.progress_trace_running; [done | by rewrite Hcat].
Qed.

(** C3, as the code has it: a transfer with a progress callback whose declared
    size [n] is the size of what is moved (for [upload_to] the buffer
    holds [n] bytes and [buffer_size] is [n]; for [download_to] the
    server streams [n] bytes and announces them in [content-length]).
    Whatever the outcome, the calls made are none or begin with
    [(0, n)], with strictly increasing byte counts and the total [n]
    in each.  On success they end with [(n, n)] and exactly the [n]
    bytes are moved: the chunks of the [PUT] concatenate to the buffer,
    and the download writes [n] bytes. *)
Theorem transfer_progress_and_payload (c : Client.t) (path : string) :
  Client._chunk_size c <> 0 ->
  (forall buffer w r w',
      Client.upload_to c path buffer (Some (Client.len buffer)) true w = (r, w') ->
      exists calls,
        progress_calls w' = progress_calls w ++ calls
        /\ Terms.begins_trace (Client.len buffer) calls
        /\ (r = Ok tt ->
            Client.progress_trace (Client.len buffer) calls
            /\ exists chunks,
                 last (wire w')
                 = Some (Client.primary_request c Client.upload_
                           (Urn.quoted (Urn.init path false))
                           (Http.ChunkedBody chunks) [])
                 /\ List.concat chunks = buffer))
  /\ (forall n w r w',
         Client.serves_size (remote w)
           (Client.primary_request c Client.download_
              (Urn.quoted (Urn.init path false)) Http.NoBody []) n ->
         Client.download_to c path true w = (r, w') ->
         exists calls,
           progress_calls w' = progress_calls w ++ calls
           /\ Terms.begins_trace n calls
           /\ (r = Ok tt ->
               Client.progress_trace n calls
               /\ exists bytes, sink w' = sink w ++ bytes /\ Client.len bytes = n)).
Proof.
  intros Hc. split.
  - intros buffer w r w' Hrun.
    destruct (upload_to_calls c path buffer w r w' Hc Hrun) as (calls & Hp & Hb).
    exists calls. split; [exact Hp|]. split; [exact Hb|].
    intros ->.
    destruct (upload_to_progress c path buffer w w' Hc Hrun)
      as (calls' & chunks & Hp' & Ht & Hl & Hcat).
    assert (calls' = calls) as -> by (apply (app_inv_head (progress_calls w)); congruence).
    split; [exact Ht|]. by exists chunks.
  - intros n w r w' Hsrv Hrun.
    destruct (download_to_calls c path n w r w' Hc Hsrv Hrun) as (calls & Hp & Hb).
    exists calls. split; [exact Hp|]. split; [exact Hb|].
    intros ->.
    destruct (download_to_progress c path n w w' Hc Hsrv Hrun)
      as (calls' & bytes & Hp' & Ht & Hs & Hlen).
    assert (calls' = calls) as -> by (apply (app_inv_head (progress_calls w)); congruence).
    split; [exact Ht|]. by exists bytes.
Qed.

Lemma docs_server_serves_ten_bytes h :
  Client.serves_size Scenario.docs_server
    (Client.primary_request Scenario.client_auth Client.download_
       (Urn.quoted (Urn.init "/docs/a.bin" false)) Http.NoBody h) 10.
Proof.
  intros h' resp H. vm_compute in H. injection H as <-.
  split; [exists "10"; split; reflexivity | reflexivity].
Defined.

Lemma transfer_progress_and_payload_witness :
  (exists calls chunks,
      progress_calls
        (snd (Client.upload_to Scenario.client_auth "/docs/b.bin"
                Scenario.ten_bytes (Some 10) true
                (Scenario.start Scenario.docs_server ∅))) = calls
      /\ Terms.begins_trace 10 calls
      /\ Client.progress_trace 10 calls
      /\ List.concat chunks = Scenario.ten_bytes)
  /\ (exists calls bytes,
         progress_calls
           (snd (Client.download_to Scenario.client_auth "/docs/a.bin" true
                   (Scenario.start Scenario.docs_server ∅))) = calls
         /\ Terms.begins_trace 10 calls
         /\ Client.progress_trace 10 calls
         /\ sink (snd (Client.download_to Scenario.client_auth "/docs/a.bin" true
                         (Scenario.start Scenario.docs_server ∅))) = bytes
         /\ Client.len bytes = 10)
  /\ (exists calls,
         progress_calls
           (snd (Client.upload_to Scenario.client_auth "/nowhere/b.bin"
                   Scenario.ten_bytes (Some 10) true
                   (Scenario.start Scenario.docs_server ∅))) = calls
         /\ Terms.begins_trace 10 calls).
Proof.
  set (w := Scenario.start Scenario.docs_server ∅).
  assert (Hc : Client._chunk_size Scenario.client_auth <> 0) by discriminate.
  split; [|split].
  - set (w' := snd (Client.upload_to Scenario.client_auth "/docs/b.bin"
                      Scenario.ten_bytes (Some 10) true w)).
    assert (Hu : Client.upload_to Scenario.client_auth "/docs/b.bin"
                   Scenario.ten_bytes (Some (Client.len Scenario.ten_bytes)) true w
                 = (Ok tt, w')) by (vm_compute; reflexivity).
    destruct (proj1 (transfer_progress_and_payload
                       Scenario.client_auth "/docs/b.bin" Hc)
                Scenario.ten_bytes w (Ok tt) w' Hu)
      as (calls & H1 & H2 & H3).
    destruct (H3 eq_refl) as (H4 & chunks & _ & H5).
    exists calls, chunks.
    split; [exact H1 | split; [exact H2 | split; [exact H4 | exact H5]]].
  - set (w' := snd (Client.download_to Scenario.client_auth "/docs/a.bin" true w)).
    assert (Hd : Client.download_to Scenario.client_auth "/docs/a.bin" true w
                 = (Ok tt, w')) by (vm_compute; reflexivity).
    destruct (proj2 (transfer_progress_and_payload
                       Scenario.client_auth "/docs/a.bin" Hc)
                10 w (Ok tt) w' (docs_server_serves_ten_bytes []) Hd)
      as (calls & H1 & H2 & H3).
    destruct (H3 eq_refl) as (H4 & bytes & H5 & H6).
    exists calls, bytes.
    split; [exact H1 | split; [exact H2 | split; [exact H4 | split; [exact H5 | exact H6]]]].
  - set (r := fst (Client.upload_to Scenario.client_auth "/nowhere/b.bin"
                     Scenario.ten_bytes (Some 10) true w)).
    set (w' := snd (Client.upload_to Scenario.client_auth "/nowhere/b.bin"
                      Scenario.ten_bytes (Some 10) true w)).
    assert (Hu : Client.upload_to Scenario.client_auth "/nowhere/b.bin"
                   Scenario.ten_bytes (Some (Client.len Scenario.ten_bytes)) true w
                 = (r, w')) by (vm_compute; reflexivity).
    destruct (proj1 (transfer_progress_and_payload
                       Scenario.client_auth "/nowhere/b.bin" Hc)
                Scenario.ten_bytes w r w' Hu)
      as (calls & H1 & H2 & _).
    exists calls. split; [exact H1 | exact H2].
Defined.

(** C3, as stated, fails when the declared size is not the size
    of what is moved.  An upload of ten bytes declared as five succeeds
    with the calls [(0,5)], [(4,5)], [(8,5)] and a [PUT] of eight bytes;
    declared as zero it succeeds with an empty [PUT].  A download
    announced as five bytes and streamed as ten succeeds with the calls
    [(0,5)], [(10,5)] and ten bytes written.  In no case do the calls
    end with [(n, n)], for any [n]. *)
Lemma declared_size_is_not_the_size_moved :
  let w := Scenario.start Scenario.docs_server ∅ in
  let put chunks :=
    Client.primary_request Scenario.client_auth Client.upload_
      (Urn.quoted (Urn.init "/docs/b.bin" false)) (Http.ChunkedBody chunks) [] in
  let five :=
    Client.upload_to Scenario.client_auth "/docs/b.bin" Scenario.ten_bytes (Some 5) true w in
  let zero :=
    Client.upload_to Scenario.client_auth "/docs/b.bin" Scenario.ten_bytes (Some 0) true w in
  let down :=
    Client.download_to Scenario.client "/docs/a.bin" true
      (Scenario.start Faults.encoded_server ∅) in
  (fst five = Ok tt
   /\ progress_calls (snd five) = [(0, Some 5); (4, Some 5); (8, Some 5)]
   /\ (forall n, ~ Client.progress_trace n (progress_calls (snd five)))
   /\ exists chunks,
        last (wire (snd five)) = Some (put chunks)
        /\ Client.len (List.concat chunks) = 8)
  /\ (fst zero = Ok tt
      /\ progress_calls (snd zero) = [(0, Some 0)]
      /\ last (wire (snd zero)) = Some (put []))
  /\ (fst down = Ok tt
      /\ progress_calls (snd down) = [(0, Some 5); (10, Some 5)]
      /\ (forall n, ~ Client.progress_trace n (progress_calls (snd down)))
      /\ sink (snd down) = Scenario.ten_bytes).
Proof.
  intros w put five zero down.
  assert (progress_calls (snd five) = [(0, Some 5); (4, Some 5); (8, Some 5)]) as H5
    by (vm_compute; reflexivity).
  assert (progress_calls (snd down) = [(0, Some 5); (10, Some 5)]) as Hd
    by (vm_compute; reflexivity).
  split; [|split].
  - split; [vm_compute; reflexivity|]. split; [exact H5|]. split.
    + intros n (_ & Hl & _). rewrite H5 in Hl. cbn in Hl.
      injection Hl as H1 H2. lia.
    + exists [take 4 Scenario.ten_bytes; take 4 (drop 4 Scenario.ten_bytes)].
      split; vm_compute; reflexivity.
  - split; [vm_compute; reflexivity|]. split; vm_compute; reflexivity.
  - split; [vm_compute; reflexivity|]. split; [exact Hd|]. split.
    + intros n (_ & Hl & _). rewrite Hd in Hl. cbn in Hl.
      injection Hl as H1 H2. lia.
    + vm_compute. reflexivity.
Qed.

(** The chunk size [__init__] sets is never zero. *)
Lemma init_chunk_size_nonzero hostname login password token root chunk_size :
  Client._chunk_size (Client.init hostname login password token root chunk_size) <> 0.
Proof.
  unfold Client.init. simpl. destruct chunk_size as [n|]; [|done].
  by destruct (Z.eqb_spec n 0).
Qed.

End ClientFacts.

(** ** Further properties of the path model *)

Module UrnMore.
Import PyStr PyStrFacts Urn.

Lemma squeezed_cons c t :
  squeeze (String c t) = String c t ->
  (is_slash c && startswith_sep t) = false /\ squeeze t = t.
Proof.
  simpl. destruct (is_slash c && startswith_sep t) eqn:E.
  - intros H. apply (f_equal String.length) in H.
    pose proof (length_squeeze t). simpl in H. lia.
  - intros [= H]. done.
Qed.

Lemma squeeze_snoc s :
  squeeze s = s -> endswith_sep s = false ->
  squeeze (s +:+ separate) = s +:+ separate.
Proof.
  induction s as [|c t IH]; [done|].
  intros Hs He. apply squeezed_cons in Hs as [Hc Ht].
  rewrite append_cons. simpl squeeze.
  assert (Hc' : (is_slash c && startswith_sep (t +:+ separate)) = false).
  { destruct t as [|d t]; [|exact Hc].
    simpl in He. rewrite He. done. }
  rewrite Hc'. f_equal. apply IH; [done|].
  destruct t as [|d t]; [done|]. exact He.
Qed.

Lemma quoted_init p d :
  quoted (init p d) =
  if d && negb (endswith_sep (rooted p)) then rooted p +:+ separate else rooted p.
Proof. reflexivity. Qed.

Lemma startswith_rooted p : startswith_sep (rooted p) = true.
Proof.
  unfold rooted.
  destruct (startswith_sep (sub_sep_plus (sub_dots (quote p)))) eqn:E;
    cbn [negb]; [done | reflexivity].
Qed.

Lemma squeeze_rooted p : squeeze (rooted p) = rooted p.
Proof.
  unfold rooted, sub_sep_plus.
  destruct (startswith_sep (squeeze (sub_dots (quote p)))) eqn:E; cbn [negb].
  - apply squeeze_idem.
  - unfold separate. rewrite append_cons, append_nil_l. simpl squeeze.
    rewrite E. cbn [andb]. by rewrite squeeze_idem.
Qed.

(** *** Only encoded characters *)

Lemma all_chars_append P s1 s2 :
  all_chars P (s1 +:+ s2) = all_chars P s1 && all_chars P s2.
Proof.
  induction s1 as [|c s1 IH]; [done|].
  rewrite append_cons. simpl. by rewrite IH, andb_assoc.
Qed.

Lemma all_chars_quote_char c r :
  all_chars Terms.is_encoded_char (quote_char c +:+ r)
  = all_chars Terms.is_encoded_char r.
Proof. each_char c; reflexivity. Qed.

Lemma all_chars_quote p : all_chars Terms.is_encoded_char (quote p) = true.
Proof.
  induction p as [|c p IH]; [done|]. by rewrite quote_cons, all_chars_quote_char.
Qed.

Lemma all_chars_drop P n s : all_chars P s = true -> all_chars P (drop n s) = true.
Proof.
  revert s. induction n as [|n IH]; intros s; [done|].
  destruct s as [|c s]; [done|]. simpl.
  intros H. apply andb_true_iff in H as [_ H]. by apply IH.
Qed.

Lemma all_chars_squeeze P s : all_chars P s = true -> all_chars P (squeeze s) = true.
Proof.
  induction s as [|c s IH]; [done|]. simpl.
  intros H. apply andb_true_iff in H as [Hc Hs].
  destruct (is_slash c && startswith_sep s); [by apply IH|].
  simpl. by rewrite Hc, IH.
Qed.

Lemma all_chars_sub_dots P s :
  all_chars P s = true -> all_chars P (sub_dots s) = true.
Proof.
  remember (String.length s) as n eqn:Hn.
  revert s Hn. induction (lt_wf n) as [n _ IH]. intros s -> H.
  destruct s as [|c t]; [done|].
  simpl in H. apply andb_true_iff in H as [Hc Ht].
  rewrite sub_dots_cons.
  destruct (is_slash c && dots_then_sep t) eqn:E.
  - apply andb_true_iff in E as [Es _]. apply is_slash_true in Es. subst c.
    cbn [all_chars]. rewrite Hc. cbn [andb].
    apply (IH (String.length (drop (S (leading_dots t)) t))); [|done|].
    + pose proof (length_drop_le (S (leading_dots t)) t).
      change (String.length (String slash t)) with (S (String.length t)). lia.
    + by apply all_chars_drop.
  - cbn [all_chars]. rewrite Hc. cbn [andb].
    apply (IH (String.length t)); [simpl; lia | done | done].
Qed.

Lemma all_chars_rooted p : all_chars Terms.is_encoded_char (rooted p) = true.
Proof.
  unfold rooted, sub_sep_plus.
  assert (H : all_chars Terms.is_encoded_char (squeeze (sub_dots (quote p))) = true).
  { apply all_chars_squeeze, all_chars_sub_dots, all_chars_quote. }
  destruct (startswith_sep (squeeze (sub_dots (quote p)))); cbn [negb]; [done|].
  by rewrite all_chars_append, H.
Qed.

(** X1.  The invariants of a locator: whatever the input and the flag,
    the encoded path begins with the separator, holds no two separators
    in a row, and consists of unreserved characters, separators and
    percent signs only. *)
Theorem locator_invariants (p : string) (d : bool) :
  startswith_sep (quoted (init p d)) = true
  /\ squeeze (quoted (init p d)) = quoted (init p d)
  /\ all_chars Terms.is_encoded_char (quoted (init p d)) = true.
Proof.
  rewrite quoted_init.
  pose proof (startswith_rooted p) as H1.
  pose proof (squeeze_rooted p) as H2.
  pose proof (all_chars_rooted p) as H3.
  destruct (d && negb (endswith_sep (rooted p))) eqn:E; [|done].
  apply andb_true_iff in E as [_ E]. apply negb_true_iff in E.
  split; [|split].
  - destruct (rooted p) as [|c r]; [done|]. by rewrite append_cons.
  - by apply squeeze_snoc.
  - by rewrite all_chars_append, H3.
Qed.

(** X2.  A path already in canonical form (leading separator, no two
    separators in a row, no dot segment) goes through a locator
    unchanged: the encoded form is its percent-encoding and the decoded
    form is the path itself. *)
Theorem canonical_path_round_trip (p : string) :
  startswith_sep p = true ->
  squeeze p = p ->
  search_dots p = false ->
  quoted (init p false) = quote p /\ path (init p false) = p.
Proof.
  intros Hs Hq Hd.
  assert (E : quoted (init p false) = quote p).
  { rewrite quoted_init. cbn [andb]. unfold rooted, sub_sep_plus.
    rewrite (sub_dots_no_match (quote p)) by (by rewrite search_quote).
    rewrite squeeze_quote, Hq, startswith_quote, Hs. reflexivity. }
  split; [exact E|].
  unfold path. change (_path (init p false)) with (quoted (init p false)).
  rewrite E. apply unquote_quote.
Qed.

Lemma canonical_path_round_trip_witness :
  quoted (init "/my docs/100%/C#.txt" false) = quote "/my docs/100%/C#.txt"
  /\ path (init "/my docs/100%/C#.txt" false) = "/my docs/100%/C#.txt".
Proof.
  apply (canonical_path_round_trip "/my docs/100%/C#.txt"); reflexivity.
Defined.

(** *** [normalize_path] *)

Lemma squeeze_cons c t :
  squeeze (String c t)
  = if is_slash c && startswith_sep t then squeeze t else String c (squeeze t).
Proof. reflexivity. Qed.

Lemma squeeze_drop_last s : squeeze s = s -> squeeze (drop_last s) = drop_last s.
Proof.
  induction s as [|c t IH]; [done|].
  intros H. apply squeezed_cons in H as [Hc Ht].
  destruct t as [|d t]; [done|].
  change (drop_last (String c (String d t)))
    with (String c (drop_last (String d t))).
  rewrite squeeze_cons.
  assert (Hc' : (is_slash c && startswith_sep (drop_last (String d t))) = false).
  { destruct t as [|e t]; [by rewrite andb_false_r | exact Hc]. }
  rewrite Hc'. f_equal. by apply IH.
Qed.

Lemma endswith_drop_last s :
  squeeze s = s -> endswith_sep s = true -> endswith_sep (drop_last s) = false.
Proof.
  induction s as [|c t IH]; [done|].
  intros H He. apply squeezed_cons in H as [Hc Ht].
  destruct t as [|d t]; [done|].
  change (drop_last (String c (String d t)))
    with (String c (drop_last (String d t))).
  rewrite endswith_sep_cons.
  destruct t as [|e t].
  - simpl in He. simpl in Hc. rewrite He, andb_true_r in Hc. exact Hc.
  - change (drop_last (String d (String e t)))
      with (String d (drop_last (String e t))).
    change (String d (drop_last (String e t)))
      with (drop_last (String d (String e t))).
    by apply IH.
Qed.

(** X3.  [normalize_path] gives a normal form: applying it again
    changes nothing, and its result neither ends with the separator nor
    holds two separators in a row. *)
Theorem normalize_path_normal_form (p : string) :
  normalize_path (normalize_path p) = normalize_path p
  /\ endswith_sep (normalize_path p) = false
  /\ squeeze (normalize_path p) = normalize_path p.
Proof.
  assert (H : endswith_sep (normalize_path p) = false
              /\ squeeze (normalize_path p) = normalize_path p).
  { unfold normalize_path, sub_sep_twice.
    pose proof (squeeze_idem p) as Hq.
    destruct (squeeze p) as [|c r] eqn:E; [done|].
    cbn [String.length Nat.ltb Nat.leb orb].
    destruct (endswith_sep (String c r)) eqn:Ee; cbn [negb].
    - split; [by apply endswith_drop_last | by apply squeeze_drop_last].
    - done. }
  destruct H as [H1 H2]. split; [|done].
  unfold normalize_path at 1. unfold sub_sep_twice. rewrite H2, H1.
  cbn [negb]. by rewrite orb_true_r.
Qed.

(** *** [compare_path] on an encoded [href] *)

Lemma is_encoded_not_special c :
  Terms.is_encoded_char c = true ->
  is_tab_or_newline c = false /\ is_c0_or_space c = false
  /\ Ascii.eqb c ":" = false /\ Ascii.eqb c "#" = false /\ Ascii.eqb c "?" = false.
Proof. each_char c; intros H; try discriminate H; done. Qed.

Lemma remove_unsafe_encoded s :
  all_chars Terms.is_encoded_char s = true -> remove_unsafe s = s.
Proof.
  induction s as [|c s IH]; [done|]. simpl.
  intros H. apply andb_true_iff in H as [Hc Hs].
  destruct (is_encoded_not_special c Hc) as (-> & _). by rewrite IH.
Qed.

Lemma before_absent d s :
  all_chars (fun c => negb (Ascii.eqb c d)) s = true -> before d s = s.
Proof.
  induction s as [|c s IH]; [done|]. simpl.
  intros H. apply andb_true_iff in H as [Hc Hs].
  apply negb_true_iff in Hc. rewrite Hc. by rewrite IH.
Qed.

Lemma after_absent d s :
  all_chars (fun c => negb (Ascii.eqb c d)) s = true -> after d s = None.
Proof.
  induction s as [|c s IH]; [done|]. simpl.
  intros H. apply andb_true_iff in H as [Hc Hs].
  apply negb_true_iff in Hc. rewrite Hc. by apply IH.
Qed.

Lemma all_chars_impl (P Q : ascii -> bool) s :
  (forall c, P c = true -> Q c = true) ->
  all_chars P s = true -> all_chars Q s = true.
Proof.
  intros HPQ. induction s as [|c s IH]; [done|]. simpl.
  intros H. apply andb_true_iff in H as [Hc Hs].
  by rewrite (HPQ c Hc), IH.
Qed.

Lemma encoded_without d s :
  (forall c, Terms.is_encoded_char c = true -> Ascii.eqb c d = false) ->
  all_chars Terms.is_encoded_char s = true ->
  all_chars (fun c => negb (Ascii.eqb c d)) s = true.
Proof.
  intros H. apply all_chars_impl. intros c Hc. by rewrite (H c Hc).
Qed.

Lemma single_root_quote p : Terms.single_root (quote p) = Terms.single_root p.
Proof.
  destruct p as [|c p]; [done|].
  destruct (is_slash c) eqn:Ec.
  - apply is_slash_true in Ec. subst c. rewrite quote_slash_cons. simpl.
    by rewrite startswith_quote.
  - rewrite quote_cons. simpl. rewrite Ec.
    destruct (quote_char c +:+ quote p) as [|a r] eqn:E; [done|].
    simpl. pose proof (startswith_quote_char c (quote p)) as H.
    rewrite E in H. simpl in H. by rewrite H, Ec.
Qed.

(** The path [urlsplit] finds in the encoding of a path that begins
    with a single separator is that encoding. *)
Lemma urlsplit_path_quote p :
  Terms.single_root p = true -> urlsplit_path (quote p) = quote p.
Proof.
  intros Hp. pose proof (all_chars_quote p) as Ha.
  rewrite <- single_root_quote in Hp.
  set (q := quote p) in *. unfold urlsplit_path.
  assert (E1 : lstrip_c0 q = q).
  { destruct q as [|c r]; [done|]. simpl in *.
    apply andb_true_iff in Ha as [Hc _].
    by destruct (is_encoded_not_special c Hc) as (_ & -> & _). }
  rewrite E1, (remove_unsafe_encoded q Ha).
  assert (E2 : strip_scheme q = q).
  { unfold strip_scheme. rewrite after_absent; [done|].
    apply encoded_without; [|done]. intros c Hc.
    by destruct (is_encoded_not_special c Hc) as (_ & _ & -> & _). }
  rewrite E2.
  assert (E3 : strip_netloc q = q).
  { destruct q as [|a [|b r]]; try done. simpl in *.
    destruct (is_slash a); [|done]. cbn [andb] in *.
    apply negb_true_iff in Hp. by rewrite Hp. }
  rewrite E3.
  rewrite (before_absent "#" q), (before_absent "?" q); [done| |].
  - apply encoded_without; [|done]. intros c Hc.
    by destruct (is_encoded_not_special c Hc) as (_ & _ & _ & _ & ->).
  - apply encoded_without; [|done]. intros c Hc.
    by destruct (is_encoded_not_special c Hc) as (_ & _ & _ & -> & _).
Qed.

(** X4.  Against an [href] that is the percent-encoding of a path
    beginning with a single separator, [compare_path] compares normal
    forms: it answers whether the two paths are equal once separator
    runs are collapsed and a trailing separator dropped. *)
Theorem compare_path_encoded_href (path_a p : string) :
  Terms.single_root p = true ->
  compare_path path_a (quote p)
  = String.eqb (normalize_path path_a) (normalize_path p).
Proof.
  intros Hp. unfold compare_path.
  rewrite (urlsplit_path_quote p Hp), unquote_quote.
  f_equal. unfold normalize_path, sub_sep_twice, separate.
  rewrite append_cons, append_nil_l.
  destruct p as [|c r]; [done|]. simpl in Hp.
  apply andb_true_iff in Hp as [Hc _].
  change (squeeze (String slash (String c r)))
    with (if is_slash slash && is_slash c then squeeze (String c r)
          else String slash (squeeze (String c r))).
  by rewrite Hc.
Qed.

Lemma compare_path_encoded_href_witness :
  compare_path "/my docs//C#/" (quote "/my docs/C#")
  = String.eqb (normalize_path "/my docs//C#/") (normalize_path "/my docs/C#").
Proof.
  apply (compare_path_encoded_href "/my docs//C#/" "/my docs/C#"). reflexivity.
Defined.

(** *** [parent] *)

Lemma endswith_unquote s :
  endswith_sep s = true -> endswith_sep (unquote s) = true.
Proof.
  remember (String.length s) as n eqn:Hn.
  revert s Hn. induction (lt_wf n) as [n _ IH]. intros s -> H.
  destruct s as [|c t]; [done|].
  assert (Hplain : endswith_sep (String c (unquote t)) = true).
  { rewrite endswith_sep_cons in H. rewrite endswith_sep_cons.
    destruct t as [|d t]; [done|].
    assert (Ht : endswith_sep (unquote (String d t)) = true).
    { apply (IH (String.length (String d t))); [simpl; lia | done | done]. }
    destruct (unquote (String d t)); [done | exact Ht]. }
  simpl unquote. destruct (Ascii.eqb c "%") eqn:Ec; [|exact Hplain].
  destruct t as [|h [|l r]]; try exact Hplain.
  destruct (hex_value h) as [a|] eqn:Eh; [|exact Hplain].
  destruct (hex_value l) as [b|] eqn:El; [|exact Hplain].
  assert (Hr : endswith_sep r = true /\ r <> EmptyString).
  { destruct r as [|e r].
    - exfalso. simpl in H. revert El H. clear. each_char l; intros; discriminate.
    - split; [exact H | done]. }
  destruct Hr as [Hr Hne].
  assert (Hu : endswith_sep (unquote r) = true).
  { apply (IH (String.length r)); [simpl; lia | done | done]. }
  rewrite endswith_sep_cons. destruct (unquote r); [done | exact Hu].
Qed.

(** X5.  [parent] is always in directory form: for every locator it
    ends with the separator. *)
Theorem parent_ends_with_separator (u : Urn.t) :
  endswith_sep (parent u) = true.
Proof.
  unfold parent.
  set (x := if negb (Nat.eqb (nesting_level u) 1)
            then join_sep (take (nesting_level u) (split_sep (_path u)))
            else separate).
  destruct (endswith_sep x) eqn:E; cbn [negb].
  - by apply endswith_unquote.
  - apply endswith_unquote. by rewrite endswith_sep_append.
Qed.

Lemma is_dir_endswith s :
  s <> EmptyString -> is_dir (Mk s) = Some (endswith_sep s).
Proof.
  unfold is_dir. cbn [_path].
  induction s as [|c t IH]; [done|]. intros _.
  destruct t as [|c' t']; [done|].
  change (last_char (String c (String c' t')))
    with (last_char (String c' t')).
  rewrite endswith_sep_cons. by apply IH.
Qed.

Lemma is_dir_init p d :
  is_dir (init p d) = Some (d || String.eqb p EmptyString || endswith_sep p).
Proof.
  destruct d; [apply UrnFacts.is_dir_init_directory|].
  cbn [orb].
  pose proof (UrnFacts.init_file p) as Hq. unfold quoted in Hq.
  destruct (init p false) as [s] eqn:Es. cbn [_path] in Hq. subst s.
  rewrite is_dir_endswith.
  - destruct p as [|c t]; [done|]. cbn [String.eqb orb].
    by rewrite UrnFacts.endswith_rooted.
  - intros H0. pose proof (startswith_rooted p) as Hs.
    rewrite H0 in Hs. discriminate.
Qed.

(** X18.  [is_dir] of a locator never fails, and says whether the
    locator was made as a directory or from a path that is empty or
    ends with the separator. *)
Theorem is_dir_of_a_locator (p : string) (d : bool) :
  is_dir (init p d) = Some (d || String.eqb p EmptyString || endswith_sep p).
Proof. apply is_dir_init. Qed.

End UrnMore.

(** ** Further properties of the XML wire codec *)

Module CodecFacts.
Import Py Xml WebDavXmlUtils.
Local Open Scope list_scope.

(** *** Finding the response of a path *)

Lemma first_response_for_sound n_path prefix path responses resp :
  first_response_for n_path prefix path responses = Ok resp ->
  In resp responses
  /\ match findtext_child (dav "href") resp with
     | None => Urn.compare_path n_path EmptyString = true
     | Some href =>
         Urn.compare_path n_path href = true
         \/ Urn.compare_path n_path
              (if startswith prefix href
               then PyStr.drop (String.length prefix) href else href) = true
     end.
Proof.
  induction responses as [|r rest IH]; [discriminate|].
  cbn [first_response_for].
  destruct (findtext_child (dav "href") r) as [href|] eqn:Eh.
  - destruct (Urn.compare_path n_path href) eqn:E1.
    { intros [= <-]. split; [by left|]. rewrite Eh. by left. }
    destruct (Urn.compare_path n_path
                (if startswith prefix href
                 then PyStr.drop (String.length prefix) href else href)) eqn:E2.
    { intros [= <-]. split; [by left|]. rewrite Eh. by right. }
    intros H. destruct (IH H) as [Hin Hm]. split; [by right | exact Hm].
  - destruct (Urn.compare_path n_path EmptyString) eqn:E1; [|discriminate].
    intros [= <-]. split; [by left|]. by rewrite Eh.
Qed.

(** X6.  What [extract_response_for_path] returns is a [response] child
    of the root of a well-formed body whose [href] matches the
    normalised path under [compare_path], as it stands or with the path
    prefix of the host name removed. *)
Theorem extract_response_for_path_sound
    (content : document) (path hostname : string) (resp : element) :
  extract_response_for_path content path hostname = Ok resp ->
  exists tree,
    content = WellFormed tree
    /\ In resp (children tree)
    /\ tag resp = dav "response"
    /\ match findtext_child (dav "href") resp with
       | None => Urn.compare_path (Urn.normalize_path path) EmptyString = true
       | Some href =>
           Urn.compare_path (Urn.normalize_path path) href = true
           \/ Urn.compare_path (Urn.normalize_path path)
                (if startswith (urlparse_path hostname) href
                 then PyStr.drop (String.length (urlparse_path hostname)) href
                 else href) = true
       end.
Proof.
  unfold extract_response_for_path.
  destruct content as [tree|]; [|discriminate].
  intros H. apply first_response_for_sound in H as [Hin Hm].
  exists tree. split; [done|].
  unfold findall_child in Hin. apply List.filter_In in Hin as [Hin Ht].
  split; [done|]. split; [|done].
  unfold has_tag in Ht. by apply String.eqb_eq in Ht.
Qed.

Lemma extract_response_for_path_sound_witness :
  exists tree,
    Scenario.multistatus
      [Scenario.entry "/dav/docs/" true; Scenario.entry "/dav/docs/a.bin" false]
    = WellFormed tree
    /\ In (Scenario.entry "/dav/docs/a.bin" false) (children tree).
Proof.
  destruct (extract_response_for_path_sound
              (Scenario.multistatus
                 [Scenario.entry "/dav/docs/" true;
                  Scenario.entry "/dav/docs/a.bin" false])
              "/docs/a.bin" "http://dav.example/dav"
              (Scenario.entry "/dav/docs/a.bin" false) eq_refl)
    as (tree & H1 & H2 & _).
  exists tree. split; [exact H1 | exact H2].
Defined.

(** *** The two listing parsers *)




(** *** Building the body of a property update *)

Lemma add_properties_named acc ds :
  forallb Terms.has_name ds = true ->
  add_properties (Element "prop" [] None acc) (Dict <$> ds)
  = Ok (Element "prop" [] None (acc ++ (Terms.property_element <$> ds))).
Proof.
  revert acc. induction ds as [|d ds IH]; intros acc H.
  - simpl. by rewrite app_nil_r.
  - simpl in H. apply andb_true_iff in H as [Hd Hds].
    cbn [fmap list_fmap add_properties getitem get_default].
    unfold Terms.has_name in Hd.
    destruct (dict_get "name" d) as [n|] eqn:En; [|discriminate].
    cbn [append_child]. rewrite (IH _ Hds).
    unfold Terms.property_element at 2. rewrite En. cbn [default].
    by rewrite <- app_assoc.
Qed.

Lemma add_properties_unnamed acc ds1 d ds2 :
  forallb Terms.has_name ds1 = true ->
  Terms.has_name d = false ->
  add_properties (Element "prop" [] None acc) (Dict <$> (ds1 ++ d :: ds2))
  = Raise (KeyError "name").
Proof.
  revert acc. induction ds1 as [|d1 ds1 IH]; intros acc H Hd.
  - cbn [app fmap list_fmap add_properties getitem].
    unfold Terms.has_name in Hd. by destruct (dict_get "name" d).
  - simpl in H. apply andb_true_iff in H as [H1 Hds].
    cbn [app fmap list_fmap add_properties getitem get_default].
    unfold Terms.has_name in H1.
    destruct (dict_get "name" d1) as [n|] eqn:En; [|discriminate].
    cbn [append_child]. by apply IH.
Qed.

Lemma describes_has_name ds :
  forallb Terms.describes_property ds = true -> forallb Terms.has_name ds = true.
Proof.
  induction ds as [|d ds IH]; [done|]. simpl. intros H.
  apply andb_true_iff in H as [Hd Hds]. rewrite (IH Hds), andb_true_r.
  unfold Terms.describes_property in Hd. unfold Terms.has_name.
  by destruct (dict_get "name" d).
Qed.

(** X8.  For a list of property descriptions that each have a [name]
    fit for a tag, and a namespace and a value fit for XML when given,
    the batch builder returns one [propertyupdate] with a single [set]
    and, under its [prop], one element per description in the order
    given, named after it and carrying its namespace and value (empty
    when absent).  The first description without [name] makes it raise
    [KeyError]. *)
Theorem set_property_batch_content (ds : list dict) :
  (forallb Terms.describes_property ds = true ->
   create_set_property_batch_request_content (List (Dict <$> ds))
   = Ok (Element "propertyupdate" [("xmlns", "DAV:")] None
           [Element "set" [] None
              [Element "prop" [] None (Terms.property_element <$> ds)]]))
  /\ (forall ds1 d ds2,
         ds = ds1 ++ d :: ds2 ->
         forallb Terms.describes_property ds1 = true ->
         Terms.has_name d = false ->
         create_set_property_batch_request_content (List (Dict <$> ds))
         = Raise (KeyError "name")).
Proof.
  unfold create_set_property_batch_request_content. cbn [iterate]. split.
  - intros H. by rewrite (add_properties_named [] ds (describes_has_name ds H)).
  - intros ds1 d ds2 -> H1 Hd.
    by rewrite (add_properties_unnamed [] ds1 d ds2 (describes_has_name ds1 H1) Hd).
Qed.

Lemma set_property_batch_content_witness :
  create_set_property_batch_request_content
    (List (Dict <$> [[("name", "author"); ("value", "me")];
                     [("namespace", "urn:x"); ("name", "tag")]]))
  = Ok (Element "propertyupdate" [("xmlns", "DAV:")] None
          [Element "set" [] None
             [Element "prop" [] None
                (Terms.property_element
                   <$> [[("name", "author"); ("value", "me")];
                        [("namespace", "urn:x"); ("name", "tag")]])]])
  /\ create_set_property_batch_request_content
       (List (Dict <$> [[("name", "author")]; [("value", "orphan")]]))
     = Raise (KeyError "name").
Proof.
  split.
  - apply (proj1 (set_property_batch_content
                    [[("name", "author"); ("value", "me")];
                     [("namespace", "urn:x"); ("name", "tag")]])).
    reflexivity.
  - apply (proj2 (set_property_batch_content
                    [[("name", "author")]; [("value", "orphan")]])
             [[("name", "author")]] [("value", "orphan")] []);
      reflexivity.
Defined.

End CodecFacts.

(** ** Further properties of the client *)

Module ClientMore.
Import Py IO PyStrFacts UrnFacts IOFacts TransferFacts ClientFacts.
Local Open Scope list_scope.

(** *** Requests *)

Lemma check_status_ok_lt c a path resp r :
  Client.check_status c a path resp = Ok r -> Http.status resp < 400.
Proof.
  unfold Client.check_status.
  destruct (Http.status resp =? 507); [discriminate|].
  destruct (Http.status resp =? 404); [discriminate|].
  destruct (Http.status resp =? 405); [discriminate|].
  destruct (Http.status resp >=? 400) eqn:E; [discriminate|].
  intros _. rewrite Z.geb_leb in E. apply Z.leb_gt in E. lia.
Qed.

(** X10.  [_execute_request] translates the two exceptions of the HTTP
    library: a connection error becomes [NoConnection] with the host
    name, a response error [ConnectionException].  When it is the
    authentication request that fails, the request proper is not sent
    and the data are not read, whatever they are. *)
Theorem execute_request_transport_errors
    (c : Client.t) (a : Client.action) (path : string) (hx : dict) :
  (forall data w,
      Client.session_auth c = true ->
      remote w (wire w) (Client.auth_request c) = Http.ConnectionError ->
      Client._execute_request c a path data hx w
      = (Raise (NoConnection (Client._hostname c)), sent (Client.auth_request c) w))
  /\ (forall data w,
         Client.session_auth c = true ->
         remote w (wire w) (Client.auth_request c) = Http.ResponseError ->
         Client._execute_request c a path data hx w
         = (Raise ConnectionException, sent (Client.auth_request c) w))
  /\ (forall data w w1,
         Client.plain_data data = true ->
         Client.authenticate c w = (Ok tt, w1) ->
         remote w1 (wire w1)
           (Client.primary_request c a path (Client.body_of data) hx)
         = Http.ConnectionError ->
         Client._execute_request c a path data hx w
         = (Raise (NoConnection (Client._hostname c)),
            sent (Client.primary_request c a path (Client.body_of data) hx) w1))
  /\ (forall data w w1,
         Client.plain_data data = true ->
         Client.authenticate c w = (Ok tt, w1) ->
         remote w1 (wire w1)
           (Client.primary_request c a path (Client.body_of data) hx)
         = Http.ResponseError ->
         Client._execute_request c a path data hx w
         = (Raise ConnectionException,
            sent (Client.primary_request c a path (Client.body_of data) hx) w1)).
Proof.
  split; [|split; [|split]].
  - intros data w Ha Hr.
    unfold Client._execute_request, try_except, bind, Client.authenticate.
    rewrite Ha. unfold bind, session_request. by rewrite Hr.
  - intros data w Ha Hr.
    unfold Client._execute_request, try_except, bind, Client.authenticate.
    rewrite Ha. unfold bind, session_request. by rewrite Hr.
  - intros data w w1 Hd Hauth Hr.
    unfold Client._execute_request, try_except, bind.
    rewrite Hauth, (send_body_plain data Hd). cbn [ret].
    unfold session_request. by rewrite Hr.
  - intros data w w1 Hd Hauth Hr.
    unfold Client._execute_request, try_except, bind.
    rewrite Hauth, (send_body_plain data Hd). cbn [ret].
    unfold session_request. by rewrite Hr.
Qed.

Lemma execute_request_transport_errors_witness :
  fst (Client._execute_request Scenario.client_auth Client.clean_ "/docs/a.bin"
         Client.NoData [] (Scenario.start Faults.unreachable ∅))
  = Raise (NoConnection "http://dav.example")
  /\ fst (Client._execute_request Scenario.client Client.clean_ "/docs/a.bin"
            Client.NoData [] (Scenario.start Faults.refusing ∅))
     = Raise ConnectionException.
Proof.
  split.
  - rewrite (proj1 (execute_request_transport_errors Scenario.client_auth
                      Client.clean_ "/docs/a.bin" [])
               Client.NoData (Scenario.start Faults.unreachable ∅) eq_refl eq_refl).
    reflexivity.
  - rewrite (proj2 (proj2 (proj2 (execute_request_transport_errors Scenario.client
                      Client.clean_ "/docs/a.bin" [])))
               Client.NoData (Scenario.start Faults.refusing ∅)
               (Scenario.start Faults.refusing ∅) eq_refl eq_refl eq_refl).
    reflexivity.
Defined.

(** X11.  A response that [_execute_request] returns has a status below
    400, and the last request on the wire is then the one of the action,
    sent to the URL of the path. *)
Theorem execute_request_returns_below_400
    (c : Client.t) (a : Client.action) (path : string) (data : Client.payload)
    (hx : dict) (w w' : world) (resp : Http.response) :
  Client._execute_request c a path data hx w = (Ok resp, w') ->
  Http.status resp < 400
  /\ exists body,
       last (wire w') = Some (Client.primary_request c a path body hx)
       /\ Http.method (Client.primary_request c a path body hx)
          = Client.DEFAULT_REQUESTS a
       /\ Http.url (Client.primary_request c a path body hx)
          = Client._hostname c +:+ Client._root c +:+ path.
Proof.
  intros H.
  destruct (execute_request_ok_inv _ _ _ _ _ _ _ _ H)
    as (w1 & body & w2 & Hauth & Hbody & Hans & ->).
  split.
  - revert H. unfold Client._execute_request, try_except, bind.
    rewrite Hauth, Hbody. unfold session_request. rewrite Hans.
    destruct (Client.check_status c a path resp) as [r|e] eqn:E.
    + intros _. exact (check_status_ok_lt _ _ _ _ _ E).
    + cbn [lift raise]. by destruct e.
  - exists body. split; [|by split].
    cbn [sent wire]. by rewrite last_snoc.
Qed.

Lemma execute_request_returns_below_400_witness :
  exists resp,
    fst (Client._execute_request Scenario.client Client.upload_ "/docs/b.bin"
           (Client.Buffer Scenario.ten_bytes) []
           (Scenario.start Scenario.docs_server ∅)) = Ok resp
    /\ Http.status resp < 400.
Proof.
  set (w := Scenario.start Scenario.docs_server ∅).
  set (w' := snd (Client._execute_request Scenario.client Client.upload_
                    "/docs/b.bin" (Client.Buffer Scenario.ten_bytes) [] w)).
  assert (Client._execute_request Scenario.client Client.upload_
            "/docs/b.bin" (Client.Buffer Scenario.ten_bytes) [] w
          = (Ok {| Http.status := 201; Http.resp_headers := []; Http.content := [];
                   Http.text := Xml.XMLSyntaxError |}, w')) as H
    by (vm_compute; reflexivity).
  eexists. split; [by rewrite H|].
  exact (proj1 (execute_request_returns_below_400 _ _ _ _ _ _ _ _ H)).
Defined.

Lemma dict_get_app k l1 l2 :
  dict_get k (l1 ++ l2)
  = match dict_get k l1 with Some v => Some v | None => dict_get k l2 end.
Proof.
  induction l1 as [|[k' v'] l1 IH]; [done|].
  simpl. by destruct (String.eqb k' k).
Qed.

Lemma dict_get_set_any k k' v d :
  dict_get k (dict_set k' v d) = if String.eqb k' k then Some v else dict_get k d.
Proof.
  destruct (String.eqb k' k) eqn:E.
  - apply String.eqb_eq in E as ->. apply dict_get_set.
  - apply String.eqb_neq in E. by apply dict_get_set_other.
Qed.

Lemma update_get k d ext :
  dict_get k (Client.update d ext)
  = match dict_get k (rev ext) with Some v => Some v | None => dict_get k d end.
Proof.
  revert d. induction ext as [|[k' v'] ext IH]; intros d; [done|].
  change (Client.update d ((k', v') :: ext))
    with (Client.update (dict_set k' v' d) ext).
  rewrite IH. cbn [rev]. rewrite dict_get_app.
  destruct (dict_get k (rev ext)); [done|].
  rewrite dict_get_set_any. cbn [dict_get]. by destruct (String.eqb k' k).
Qed.

(** X16.  In the headers of a request the token wins: with a token
    that is not empty, [Authorization] is [Bearer] and the token,
    whatever [headers_ext] says.  Every other key of [headers_ext]
    overrides the default header of the action. *)
Theorem get_headers_precedence (c : Client.t) (a : Client.action) (ext : dict) :
  (forall tok,
      Client._token c = Some tok -> tok <> EmptyString ->
      dict_get "Authorization" (Client._get_headers c a ext)
      = Some ("Bearer " +:+ tok))
  /\ (forall k v,
         dict_get k (rev ext) = Some v ->
         k <> "Authorization" \/ Client.truthy (Client._token c) = false ->
         dict_get k (Client._get_headers c a ext) = Some v).
Proof.
  split.
  - intros tok Ht Hne. unfold Client._get_headers. rewrite Ht.
    destruct tok as [|x tok]; [done|]. apply dict_get_set.
  - intros k v Hk Hor. unfold Client._get_headers.
    assert (forall d, dict_get k (Client.update d ext) = Some v) as Hu.
    { intros d. by rewrite update_get, Hk. }
    destruct (Client._token c) as [[|x tok]|] eqn:Ht; try apply Hu.
    destruct Hor as [Hne|Hf]; [|discriminate].
    rewrite dict_get_set_other; [apply Hu | congruence].
Qed.

Lemma get_headers_precedence_witness :
  dict_get "Authorization"
    (Client._get_headers
       (Client.init "http://dav.example" None None (Some "s3cr3t") None None)
       Client.list_ [("Authorization", "Basic dXNlcg=="); ("Depth", "0")])
  = Some "Bearer s3cr3t"
  /\ dict_get "Depth"
       (Client._get_headers
          (Client.init "http://dav.example" None None (Some "s3cr3t") None None)
          Client.list_ [("Authorization", "Basic dXNlcg=="); ("Depth", "0")])
     = Some "0".
Proof.
  split.
  - apply (proj1 (get_headers_precedence
                    (Client.init "http://dav.example" None None (Some "s3cr3t") None None)
                    Client.list_ [("Authorization", "Basic dXNlcg=="); ("Depth", "0")])
             "s3cr3t"); [reflexivity | discriminate].
  - apply (proj2 (get_headers_precedence
                    (Client.init "http://dav.example" None None (Some "s3cr3t") None None)
                    Client.list_ [("Authorization", "Basic dXNlcg=="); ("Depth", "0")])
             "Depth" "0"); [reflexivity | left; discriminate].
Defined.

Lemma endswith_rstrip s : PyStr.endswith_sep (PyStr.rstrip_sep s) = false.
Proof.
  induction s as [|c t IH]; [done|].
  cbn [PyStr.rstrip_sep].
  destruct (PyStr.rstrip_sep t) as [|c' t'] eqn:E.
  - destruct (PyStr.is_slash c) eqn:Ec; [done|]. by rewrite endswith_sep_cons.
  - by rewrite endswith_sep_cons.
Qed.

Lemma startswith_rstrip s :
  PyStr.rstrip_sep s = EmptyString
  \/ PyStr.startswith_sep (PyStr.rstrip_sep s) = PyStr.startswith_sep s.
Proof.
  destruct s as [|c t]; [by left|].
  cbn [PyStr.rstrip_sep].
  destruct (PyStr.rstrip_sep t) as [|c' t'].
  - destruct (PyStr.is_slash c); [by left | by right].
  - by right.
Qed.

(** X17.  A client as [__init__] leaves it: neither the host name nor
    the root ends with the separator, the root is empty or begins with
    the separator, and the chunk size is not zero. *)
Theorem init_invariants
    (hostname : string) (login password token root : option string)
    (chunk_size : option Z) :
  let c := Client.init hostname login password token root chunk_size in
  PyStr.endswith_sep (Client._hostname c) = false
  /\ PyStr.endswith_sep (Client._root c) = false
  /\ (Client._root c = EmptyString \/ PyStr.startswith_sep (Client._root c) = true)
  /\ Client._chunk_size c <> 0.
Proof.
  intros c. split; [apply endswith_rstrip|]. split; [apply endswith_rstrip|].
  split; [|apply init_chunk_size_nonzero].
  unfold c, Client.init, Client._root.
  destruct root as [[|x r]|]; [by left| |by left].
  destruct (startswith_rstrip (Urn.quoted (Urn.init (String x r) false))) as [H|H];
    [by left|].
  right. rewrite H. apply UrnMore.startswith_rooted.
Qed.

(** *** Probes *)

Lemma exists_never_reports_absence_by_raising c path :
  raises_only
    (fun e => (forall p, e <> RemoteResourceNotFound p)
              /\ (forall u k, e <> ResponseErrorCode u k))
    (Client.exists_ c path).
Proof.
  unfold Client.exists_.
  apply (raises_try _ (fun _ => True)).
  - intros w e w' _. exact I.
  - intros e _. destruct e; try apply raises_ret;
      apply raises_raise; split; intros; discriminate.
Qed.

(** X9.  Once the session has authenticated, what [exists] returns is
    decided by the answer to its [HEAD] request alone: [True] for status
    200 and [False] for every other status, 404 and the statuses from
    400 on included, except that 507 raises [NotEnoughSpace] and 405
    [MethodNotSupported]; a transport failure raises [NoConnection] or
    [ConnectionException].  In no world does [exists] raise
    [RemoteResourceNotFound] or [ResponseErrorCode]. *)
Theorem exists_by_status (c : Client.t) (path : string) :
  let head := Client.primary_request c Client.check_
                (Urn.quoted (Urn.init path false)) Http.NoBody [] in
  (forall w w1,
      Client.authenticate c w = (Ok tt, w1) ->
      Client.exists_ c path w
      = (match remote w1 (wire w1) head with
         | Http.Answer resp =>
             if Http.status resp =? 507 then Raise NotEnoughSpace
             else if Http.status resp =? 405
                  then Raise (MethodNotSupported "check" (Client._hostname c))
             else Ok (Http.status resp =? 200)
         | Http.ConnectionError => Raise (NoConnection (Client._hostname c))
         | Http.ResponseError => Raise ConnectionException
         end, sent head w1))
  /\ (forall w e w',
         Client.exists_ c path w = (Raise e, w') ->
         (forall p, e <> RemoteResourceNotFound p)
         /\ (forall u k, e <> ResponseErrorCode u k)).
Proof.
  intros head. split.
  - intros w w1 Hauth.
    unfold Client.exists_, Client._execute_request, try_except, bind.
    rewrite Hauth. cbn [Client.send_body ret]. fold head.
    unfold session_request.
    destruct (remote w1 (wire w1) head) as [resp| |]; [|reflexivity|reflexivity].
    unfold lift, Client.check_status.
    destruct (Http.status resp =? 507) eqn:E507; [reflexivity|].
    destruct (Http.status resp =? 404) eqn:E404.
    { apply Z.eqb_eq in E404. rewrite E404. reflexivity. }
    destruct (Http.status resp =? 405) eqn:E405; [reflexivity|].
    destruct (Http.status resp >=? 400) eqn:E400; [|reflexivity].
    cbn [raise ret]. rewrite Z.geb_leb in E400. apply Z.leb_le in E400.
    replace (Http.status resp =? 200) with false; [reflexivity|].
    symmetry. apply Z.eqb_neq. lia.
  - intros w e w'. apply exists_never_reports_absence_by_raising.
Qed.

Lemma exists_by_status_witness :
  fst (Client.exists_ Scenario.client "/docs/a.bin"
         (Scenario.start Scenario.docs_server ∅)) = Ok true
  /\ fst (Client.exists_ Scenario.client "/docs/gone.bin"
            (Scenario.start Scenario.docs_server ∅)) = Ok false.
Proof.
  split.
  - rewrite (proj1 (exists_by_status Scenario.client "/docs/a.bin")
               (Scenario.start Scenario.docs_server ∅)
               (Scenario.start Scenario.docs_server ∅) eq_refl).
    reflexivity.
  - rewrite (proj1 (exists_by_status Scenario.client "/docs/gone.bin")
               (Scenario.start Scenario.docs_server ∅)
               (Scenario.start Scenario.docs_server ∅) eq_refl).
    reflexivity.
Defined.

Lemma check_remote_resource_missing c path w w1 w2 :
  Client.exists_ c (Urn.path (Urn.init path false)) w = (Ok false, w1) ->
  Client.exists_ c (Urn.path (Urn.init path true)) w1 = (Ok false, w2) ->
  Client._check_remote_resource c path (Urn.init path false) w
  = (Raise (RemoteResourceNotFound path), w2).
Proof.
  intros H1 H2. unfold Client._check_remote_resource.
  rewrite (bind_ok _ _ _ _ _ H1). cbn iota.
  by rewrite (bind_ok _ _ _ _ _ H2).
Qed.

(** X12.  When neither the path nor the path taken as a directory
    exists, [info] and [is_directory] raise [RemoteResourceNotFound]
    with the path as the caller gave it, after the two probes and
    without any [PROPFIND]. *)
Theorem info_of_a_missing_resource (c : Client.t) (path : string) (w w1 w2 : world) :
  Client.exists_ c (Urn.path (Urn.init path false)) w = (Ok false, w1) ->
  Client.exists_ c (Urn.path (Urn.init path true)) w1 = (Ok false, w2) ->
  Client.info c path w = (Raise (RemoteResourceNotFound path), w2)
  /\ Client.is_directory c path w = (Raise (RemoteResourceNotFound path), w2)
  /\ Client.count_method "PROPFIND" (Client.issued w w2) = O.
Proof.
  intros H1 H2.
  pose proof (check_remote_resource_missing c path w w1 w2 H1 H2) as Hc.
  split; [|split].
  - unfold Client.info. by rewrite (bind_raise _ _ _ _ _ Hc).
  - unfold Client.is_directory. by rewrite (bind_raise _ _ _ _ _ Hc).
  - destruct (quiet_exists _ _ _ _ _ H1) as (_ & _ & _ & _ & l1 & Hl1 & Hq1).
    destruct (quiet_exists _ _ _ _ _ H2) as (_ & _ & _ & _ & l2 & Hl2 & Hq2).
    rewrite (issued_app w w2 (l1 ++ l2)).
    + rewrite count_method_app.
      by rewrite !count_method_probes.
    + by rewrite Hl2, Hl1, app_assoc.
Qed.

Lemma info_of_a_missing_resource_witness :
  Client.info Scenario.client "/docs/gone.bin" (Scenario.start Scenario.docs_server ∅)
  = (Raise (RemoteResourceNotFound "/docs/gone.bin"),
     snd (Client.exists_ Scenario.client "/docs/gone.bin/"
            (snd (Client.exists_ Scenario.client "/docs/gone.bin"
                    (Scenario.start Scenario.docs_server ∅))))).
Proof.
  set (w := Scenario.start Scenario.docs_server ∅).
  set (w1 := snd (Client.exists_ Scenario.client "/docs/gone.bin" w)).
  set (w2 := snd (Client.exists_ Scenario.client "/docs/gone.bin/" w1)).
  assert (Client.exists_ Scenario.client
            (Urn.path (Urn.init "/docs/gone.bin" false)) w = (Ok false, w1)) as H1
    by (vm_compute; reflexivity).
  assert (Client.exists_ Scenario.client
            (Urn.path (Urn.init "/docs/gone.bin" true)) w1 = (Ok false, w2)) as H2
    by (vm_compute; reflexivity).
  exact (proj1 (info_of_a_missing_resource _ _ _ _ _ H1 H2)).
Defined.

(** X13.  [unlink] and [delete], of the client and of a resource, send
    no [HEAD] request: the resource is deleted without asking first
    whether it exists.  They write nothing and call no progress
    function. *)
Theorem unlink_sends_no_probe (c : Client.t) (r : Resource.t) (path : string) :
  quiet (Terms.not_method "HEAD") (Client.unlink c path)
  /\ quiet (Terms.not_method "HEAD") (Client.delete c path)
  /\ quiet (Terms.not_method "HEAD") (Resource.unlink r)
  /\ quiet (Terms.not_method "HEAD") (Resource.delete r).
Proof.
  assert (forall c path, quiet (Terms.not_method "HEAD") (Client.unlink c path)) as H.
  { intros c' p. unfold Client.unlink. apply quiet_bind.
    - by apply quiet_execute_request.
    - intros _. apply quiet_ret. }
  split; [apply H|]. split; [apply H|]. split; apply H.
Qed.

(** X14.  When the directory listed is the root, [list] sends no [HEAD]
    request: the existence probe is skipped. *)
Theorem list_of_the_root_sends_no_probe
    (c : Client.t) (path : string) (get_info : bool) :
  Urn.path (Urn.init path true) = "/" ->
  quiet (Terms.not_method "HEAD") (Client.list c path get_info).
Proof.
  intros Hroot. unfold Client.list. rewrite Hroot. cbn [String.eqb Ascii.eqb negb].
  change (String.eqb "/" "/") with true. cbn [negb].
  apply quiet_bind; [apply quiet_ret|]. intros missing.
  destruct missing; [apply quiet_raise|].
  apply quiet_bind; [by apply quiet_execute_request|].
  intros response. destruct get_info; apply quiet_ret.
Qed.

Lemma list_of_the_root_sends_no_probe_witness :
  quiet (Terms.not_method "HEAD") (Client.list Scenario.client "/" false).
Proof.
  apply (list_of_the_root_sends_no_probe Scenario.client "/" false). reflexivity.
Defined.

(** X15.  When the server answers the [PROPFIND] of [list] with a
    status below 400 and a body that is not XML, [list] returns the
    empty list and raises nothing, with or without [get_info]. *)
Theorem list_of_a_malformed_body
    (c : Client.t) (path : string) (get_info : bool) (w w0 w1 : world)
    (resp : Http.response) :
  let directory_urn := Urn.init path true in
  let propfind :=
    Client.primary_request c Client.list_ (Urn.quoted directory_urn) Http.NoBody [] in
  (Urn.path directory_urn = "/" /\ w0 = w
   \/ Urn.path directory_urn <> "/"
      /\ Client.exists_ c (Urn.path directory_urn) w = (Ok true, w0)) ->
  Client.authenticate c w0 = (Ok tt, w1) ->
  remote w1 (wire w1) propfind = Http.Answer resp ->
  Http.status resp < 400 ->
  Http.text resp = Xml.XMLSyntaxError ->
  Client.list c path get_info w
  = (Ok (if get_info then Client.Infos [] else Client.Names []), sent propfind w1).
Proof.
  intros directory_urn propfind Hprobe Hauth Hans Hst Htext.
  assert (Client._execute_request c Client.list_ (Urn.quoted directory_urn)
            Client.NoData [] w0 = (Ok resp, sent propfind w1)) as Hreq.
  { rewrite (execute_request_answered c Client.list_ _ Client.NoData [] w0 w1 resp
               eq_refl Hauth Hans).
    by rewrite (check_status_ok _ _ _ _ Hst). }
  unfold Client.list. fold directory_urn.
  destruct Hprobe as [[Hroot ->]|[Hroot Hex]].
  - rewrite Hroot. change (String.eqb "/" "/") with true. cbn [negb].
    rewrite bind_ret. cbn iota.
    rewrite (bind_ok _ _ _ _ _ Hreq). rewrite Htext.
    by destruct get_info.
  - apply String.eqb_neq in Hroot. rewrite Hroot. cbn [negb].
    erewrite bind_ok; last first.
    { erewrite bind_ok by exact Hex. reflexivity. }
    cbn [negb]. cbn iota.
    rewrite (bind_ok _ _ _ _ _ Hreq). rewrite Htext.
    by destruct get_info.
Qed.

Lemma list_of_a_malformed_body_witness :
  fst (Client.list Scenario.client "/" true (Scenario.start Faults.sparse_server ∅))
  = Ok (Client.Infos []).
Proof.
  set (w := Scenario.start Faults.sparse_server ∅).
  rewrite (list_of_a_malformed_body Scenario.client "/" true w w w
             {| Http.status := 207; Http.resp_headers := []; Http.content := [];
                Http.text := Xml.XMLSyntaxError |}).
  - reflexivity.
  - left. split; reflexivity.
  - reflexivity.
  - reflexivity.
  - reflexivity.
  - reflexivity.
Defined.

(** X24.  [get_property] of an existing resource, asked for a property
    whose name is fit for a tag, raises [IndexError] when the answer
    holds no element with that local name, and the syntax error of the
    parser when the answer is not XML. *)
Theorem get_property_without_the_property
    (c : Client.t) (path : string) (d : dict) (n : string) (data : Xml.element)
    (w w1 w2 : world) (resp : Http.response) :
  let urn := Urn.init path false in
  dict_get "name" d = Some n ->
  Terms.is_tag_name n = true ->
  Terms.is_xml_text (default EmptyString (dict_get "namespace" d)) = true ->
  WebDavXmlUtils.create_get_property_request_content (Dict d) = Ok data ->
  Client.exists_ c (Urn.path urn) w = (Ok true, w1) ->
  Client._execute_request c Client.get_property_ (Urn.quoted urn)
    (Client.XmlData data) [] w1 = (Ok resp, w2) ->
  (Http.text resp = Xml.XMLSyntaxError ->
   Client.get_property c path (Dict d) w = (Raise LxmlSyntaxError, w2))
  /\ (forall tree,
         Http.text resp = Xml.WellFormed tree ->
         forallb (fun e => negb (String.eqb (WebDavXmlUtils.local_name (Xml.tag e)) n))
           (tree :: Xml.descendants tree) = true ->
         Client.get_property c path (Dict d) w = (Raise IndexError, w2)).
Proof.
  intros urn Hn _ _ Hdata He Hr.
  assert (forall doc,
             Http.text resp = doc ->
             Client.get_property c path (Dict d) w
             = (lift (WebDavXmlUtils.parse_get_property_response doc n)) w2) as Hg.
  { intros doc Hdoc. unfold Client.get_property. fold urn.
    rewrite (bind_ok _ _ _ _ _ He). cbn [negb]. cbn iota.
    rewrite Hdata. cbn [lift]. rewrite bind_ret.
    rewrite (bind_ok _ _ _ _ _ Hr).
    cbn [getitem]. rewrite Hn. cbn [lift]. rewrite bind_ret. by rewrite Hdoc. }
  split.
  - intros Ht. by rewrite (Hg _ Ht).
  - intros tree Ht Hall. rewrite (Hg _ Ht).
    unfold WebDavXmlUtils.parse_get_property_response.
    replace (List.filter _ (tree :: Xml.descendants tree)) with (@nil Xml.element);
      [done|].
    symmetry. revert Hall. generalize (tree :: Xml.descendants tree).
    induction l as [|x l IH]; [done|]. cbn [forallb List.filter].
    intros H. apply andb_true_iff in H as [Hx Hl].
    apply negb_true_iff in Hx. rewrite Hx. by apply IH.
Qed.

Lemma get_property_without_the_property_witness :
  fst (Client.get_property Scenario.client "/docs/a.bin"
         (Dict [("name", "author"); ("namespace", "urn:example")])
         (Scenario.start Faults.sparse_server ∅))
  = Raise IndexError.
Proof.
  set (w := Scenario.start Faults.sparse_server ∅).
  set (w1 := snd (Client.exists_ Scenario.client "/docs/a.bin" w)).
  set (data := Xml.Element "propfind" [("xmlns", "DAV:")] None
                 [Xml.Element "prop" [] None
                    [Xml.Element "author" [("xmlns", "urn:example")] None []]]).
  set (w2 := snd (Client._execute_request Scenario.client Client.get_property_
                    "/docs/a.bin" (Client.XmlData data) [] w1)).
  assert (Client.exists_ Scenario.client
            (Urn.path (Urn.init "/docs/a.bin" false)) w = (Ok true, w1)) as H1
    by (vm_compute; reflexivity).
  assert (Client._execute_request Scenario.client Client.get_property_
            (Urn.quoted (Urn.init "/docs/a.bin" false)) (Client.XmlData data) [] w1
          = (Ok {| Http.status := 207; Http.resp_headers := []; Http.content := [];
                   Http.text :=
                     Scenario.multistatus [Scenario.entry "/docs/a.bin" false] |},
             w2)) as H2
    by (vm_compute; reflexivity).
  by rewrite (proj2 (get_property_without_the_property Scenario.client "/docs/a.bin"
                       [("name", "author"); ("namespace", "urn:example")] "author"
                       data w w1 w2 _ eq_refl eq_refl eq_refl eq_refl H1 H2)
                _ eq_refl eq_refl).
Defined.

(** *** Transfers *)

(** X19.  [upload_to] refuses a path that is empty or ends with the
    separator with [OptionNotValid], before any request: the world is
    as it was. *)
Theorem upload_to_refuses_a_directory_path
    (c : Client.t) (path : string) (buffer : list byte) (buffer_size : option Z)
    (progress : bool) (w : world) :
  path = EmptyString \/ PyStr.endswith_sep path = true ->
  Client.upload_to c path buffer buffer_size progress w
  = (Raise (OptionNotValid "path" path), w).
Proof.
  intros H. unfold Client.upload_to. rewrite UrnMore.is_dir_init.
  cbn [orb]. destruct H as [-> | ->]; [done|].
  by rewrite orb_true_r.
Qed.

Lemma upload_to_refuses_a_directory_path_witness :
  Client.upload_to Scenario.client "/docs/" Scenario.ten_bytes (Some 10) true
    (Scenario.start Scenario.docs_server ∅)
  = (Raise (OptionNotValid "path" "/docs/"), Scenario.start Scenario.docs_server ∅).
Proof.
  apply (upload_to_refuses_a_directory_path Scenario.client "/docs/").
  right. reflexivity.
Defined.

(** X20.  Without a progress function, [upload_to] of a file path
    whose parent exists sends one [PUT] whose body is the buffer itself,
    whatever [buffer_size] is, and calls no progress function. *)
Theorem upload_to_without_progress
    (c : Client.t) (path : string) (buffer : list byte) (buffer_size : option Z)
    (w w1 w2 : world) :
  let urn := Urn.init path false in
  let put := Client.primary_request c Client.upload_ (Urn.quoted urn)
               (Http.BufferBody buffer) [] in
  path <> EmptyString -> PyStr.endswith_sep path = false ->
  Client.exists_ c (Urn.parent urn) w = (Ok true, w1) ->
  Client.authenticate c w1 = (Ok tt, w2) ->
  snd (Client.upload_to c path buffer buffer_size false w) = sent put w2
  /\ progress_calls (sent put w2) = progress_calls w
  /\ Client.count_method "PUT" (Client.issued w (sent put w2)) = 1%nat.
Proof.
  intros urn put Hne He Hex Hauth.
  assert (snd (Client.upload_to c path buffer buffer_size false w) = sent put w2) as Hs.
  { unfold Client.upload_to. rewrite UrnMore.is_dir_init. cbn [orb].
    apply String.eqb_neq in Hne. rewrite Hne, He. cbn [orb lift].
    rewrite bind_ret. cbn iota. fold urn.
    rewrite (bind_ok _ _ _ _ _ Hex). cbn [negb]. cbn iota.
    pose proof (execute_request_sent c Client.upload_ (Urn.quoted urn)
                  (Client.Buffer buffer) [] w1 w2 eq_refl Hauth) as Hsent.
    unfold bind.
    destruct (Client._execute_request c Client.upload_ (Urn.quoted urn)
                (Client.Buffer buffer) [] w1) as [[r|e] w3]; exact Hsent. }
  split; [exact Hs|].
  destruct (quiet_exists _ _ _ _ _ Hex) as (_ & _ & _ & Hp1 & l1 & Hl1 & Hq1).
  assert (quiet Client.is_probe (Client.authenticate c)) as Qa.
  { apply quiet_authenticate, is_probe_auth. }
  destruct (Qa _ _ _ Hauth) as (_ & _ & _ & Hp2 & l2 & Hl2 & Hq2).
  split.
  - cbn [sent progress_calls]. by rewrite Hp2, Hp1.
  - rewrite (issued_app w (sent put w2) (l1 ++ l2 ++ [put])).
    + rewrite !count_method_app, !count_method_probes by done. reflexivity.
    + cbn [sent wire]. by rewrite Hl2, Hl1, <- !app_assoc.
Qed.

Lemma upload_to_without_progress_witness :
  last (wire (snd (Client.upload_to Scenario.client "/docs/b.bin" Scenario.ten_bytes
                     None false (Scenario.start Scenario.docs_server ∅))))
  = Some {| Http.method := "PUT";
            Http.url := "http://dav.example/docs/b.bin";
            Http.headers := [];
            Http.data := Http.BufferBody Scenario.ten_bytes |}.
Proof.
  set (w := Scenario.start Scenario.docs_server ∅).
  set (w1 := snd (Client.exists_ Scenario.client "/docs/" w)).
  assert (Client.exists_ Scenario.client
            (Urn.parent (Urn.init "/docs/b.bin" false)) w = (Ok true, w1)) as H1
    by (vm_compute; reflexivity).
  assert (Client.authenticate Scenario.client w1 = (Ok tt, w1)) as H2
    by reflexivity.
  rewrite (proj1 (upload_to_without_progress Scenario.client "/docs/b.bin"
                    Scenario.ten_bytes None w w1 w1
                    ltac:(discriminate) eq_refl H1 H2)).
  vm_compute. reflexivity.
Defined.

Lemma probe_is_not m :
  String.eqb "HEAD" m = false -> String.eqb "GET" m = false ->
  forall r, Client.is_probe r = true -> Terms.not_method m r = true.
Proof.
  intros Hh Hg r. unfold Client.is_probe, Terms.not_method.
  destruct (String.eqb (Http.method r) "HEAD") eqn:E1.
  { apply String.eqb_eq in E1. rewrite E1, Hh. done. }
  destruct (String.eqb (Http.method r) "GET") eqn:E2; [|done].
  apply String.eqb_eq in E2. rewrite E2, Hg. done.
Qed.

Lemma quiet_create_directory_no_put c path :
  quiet (Terms.not_method "PUT") (Client.create_directory c path).
Proof.
  unfold Client.create_directory. apply quiet_bind.
  { eapply quiet_weaken; [|apply quiet_exists]. exact (probe_is_not "PUT" eq_refl eq_refl). }
  intros e. destruct e; cbn [negb]; [|apply quiet_raise].
  apply quiet_try.
  - apply quiet_bind; [by apply quiet_execute_request|].
    intros resp. apply quiet_ret.
  - intros e. destruct e; try apply quiet_raise. apply quiet_ret.
Qed.

(** X21.  [upload_directory] never sends a [PUT] request, writes
    nothing and never calls the progress function, at any depth and in
    any world: the uploads of the entries are not awaited. *)
Theorem upload_directory_transfers_no_file
    (depth : nat) (c : Client.t) (remote_path local_path : string) (progress : bool) :
  quiet (Terms.not_method "PUT")
    (Client.upload_directory depth c remote_path local_path progress).
Proof.
  destruct depth as [|depth]; [apply quiet_raise|].
  rewrite upload_directory_unfold.
  apply quiet_bind; [apply quiet_local_fs|]. intros fs.
  destruct (negb (Os.isdir fs local_path)); [apply quiet_raise|].
  destruct (negb (Os.exists_ fs local_path)); [apply quiet_raise|].
  cbv zeta. apply quiet_bind.
  { eapply quiet_weaken; [|apply quiet_exists]. exact (probe_is_not "PUT" eq_refl eq_refl). }
  intros e. apply quiet_bind.
  { destruct e; [|apply quiet_ret]. unfold Client.unlink.
    apply quiet_bind; [by apply quiet_execute_request|].
    intros _. apply quiet_ret. }
  intros _. apply quiet_bind; [apply quiet_create_directory_no_put|].
  intros _. apply quiet_for_each. intros name.
  unfold await, Client.upload_with.
  apply quiet_bind; [apply quiet_local_fs|]. intros fs'.
  destruct (Os.isdir fs' _); apply quiet_not_awaited.
Qed.

Lemma file_sender_loop_nil n current :
  Client.file_sender_loop n current [] = ret [].
Proof. cbn [Client.file_sender_loop]. by destruct (current <? n). Qed.

Lemma file_sender_loop_cons n current chunk rest :
  Client.file_sender_loop n current (chunk :: rest)
  = if current <? n
    then bind (call_progress (current + Client.len chunk) (Some n)) (fun _ =>
         bind (Client.file_sender_loop n (current + Client.len chunk) rest)
              (fun chunks => ret (chunk :: chunks)))
    else ret [].
Proof. reflexivity. Qed.

Lemma file_sender_loop_prefix n cs reads :
  Forall (fun b => Client.len b <= cs) reads ->
  forall current w,
  exists chunks rest w',
    Client.file_sender_loop n current reads w = (Ok chunks, w')
    /\ reads = chunks ++ rest
    /\ progress_calls w' = progress_calls w ++ Client.running n current chunks
    /\ (rest = [] \/ n <= current + Client.len (List.concat chunks))
    /\ (current < n + cs -> current + Client.len (List.concat chunks) < n + cs).
Proof.
  induction 1 as [|chunk reads Hc Hall IH]; intros current w.
  - exists [], [], w. rewrite file_sender_loop_nil.
    split; [done|]. split; [done|]. split; [by rewrite app_nil_r|].
    split; [by left|].
    change (Client.len (List.concat [])) with 0. lia.
  - rewrite file_sender_loop_cons.
    destruct (current <? n) eqn:E.
    + apply Z.ltb_lt in E.
      destruct (IH (current + Client.len chunk)
                  {| remote := remote w; wire := wire w;
                     progress_calls :=
                       progress_calls w ++ [(current + Client.len chunk, Some n)];
                     sink := sink w; local := local w |})
        as (chunks & rest & w' & Hrun & Hsplit & Hp & Hstop & Hbound).
      exists (chunk :: chunks), rest, w'.
      split.
      { unfold bind at 1. unfold call_progress. unfold bind. by rewrite Hrun. }
      split; [by rewrite Hsplit|].
      split.
      { rewrite Hp. cbn [progress_calls Client.running].
        by rewrite <- app_assoc. }
      cbn [List.concat]. rewrite len_app.
      split.
      * destruct Hstop as [Hstop|Hstop]; [by left | right; lia].
      * intros _. assert (current + Client.len chunk < n + cs) as Hlt by lia.
        specialize (Hbound Hlt). lia.
    + apply Z.ltb_ge in E.
      exists [], (chunk :: reads), w.
      split; [done|]. split; [done|]. split; [by rewrite app_nil_r|].
      change (Client.len (List.concat [])) with 0.
      split; [right; lia | lia].
Qed.

Lemma slices_upto_bounded steps n (seg : list byte) :
  Forall (fun b => Client.len b <= Z.of_nat n) (Http.slices_upto steps n seg).
Proof.
  revert seg. induction steps as [|k IH]; intros seg; [constructor|].
  destruct seg as [|x seg]; [constructor|].
  cbn [Http.slices_upto]. constructor; [|apply IH].
  unfold Client.len. rewrite length_take. lia.
Qed.

Lemma reads_bounded cs (segs : list (list byte)) :
  0 < cs -> Forall (fun b => Client.len b <= cs) (Http.reads cs segs).
Proof.
  intros Hcs. unfold Http.reads.
  assert ((cs <? 0) = false) as -> by (apply Z.ltb_ge; lia).
  assert ((cs =? 0) = false) as -> by (apply Z.eqb_neq; lia).
  induction segs as [|seg segs IH]; [constructor|].
  cbn [flat_map]. apply Forall_app. split; [|exact IH].
  unfold Http.slices.
  pose proof (slices_upto_bounded (List.length seg) (Z.to_nat cs) seg) as H.
  rewrite Z2Nat.id in H by lia. exact H.
Qed.

(** X25.  With a progress function and a [buffer_size] not larger than
    the buffer, the generator of [upload_to] yields a prefix of the
    buffer that holds [buffer_size] bytes at least and less than a chunk
    more, and the last progress call reports the bytes yielded against
    [buffer_size]. *)
Theorem file_sender_stops_at_buffer_size
    (c : Client.t) (buffer : list byte) (n : Z) (w : world) :
  0 < Client._chunk_size c ->
  0 <= n <= Client.len buffer ->
  exists chunks rest w',
    Client.file_sender c buffer (Some n) w = (Ok chunks, w')
    /\ buffer = List.concat chunks ++ rest
    /\ n <= Client.len (List.concat chunks) < n + Client._chunk_size c
    /\ last (progress_calls w') = Some (Client.len (List.concat chunks), Some n).
Proof.
  intros Hcs Hn.
  pose proof (reads_bounded (Client._chunk_size c) [buffer] Hcs) as Hb.
  destruct (reads_spec (Client._chunk_size c) [buffer]) as [Hcat _]; [lia|].
  destruct (file_sender_loop_prefix n (Client._chunk_size c) _ Hb 0
              {| remote := remote w; wire := wire w;
                 progress_calls := progress_calls w ++ [(0, Some n)];
                 sink := sink w; local := local w |})
    as (chunks & rest & w' & Hrun & Hsplit & Hp & Hstop & Hbound).
  exists chunks, (List.concat rest), w'.
  split.
  { unfold Client.file_sender, bind, call_progress. exact Hrun. }
  assert (buffer = List.concat chunks ++ List.concat rest) as Hbuf.
  { rewrite <- concat_app, <- Hsplit, Hcat. cbn. by rewrite app_nil_r. }
  split; [exact Hbuf|]. split.
  - split; [|specialize (Hbound ltac:(lia)); lia].
    destruct Hstop as [->|Hstop]; [|lia].
    cbn [List.concat] in Hbuf. rewrite app_nil_r in Hbuf. rewrite <- Hbuf. lia.
  - rewrite Hp. cbn [progress_calls]. rewrite <- app_assoc. cbn [app].
    rewrite last_app.
    pose proof (running_last n 0 chunks) as Hl. rewrite Z.add_0_l in Hl.
    by rewrite Hl.
Qed.

Lemma file_sender_stops_at_buffer_size_witness :
  exists chunks rest w',
    Client.file_sender Scenario.client_auth Scenario.ten_bytes (Some 5)
      (Scenario.start Scenario.docs_server ∅) = (Ok chunks, w')
    /\ Scenario.ten_bytes = List.concat chunks ++ rest
    /\ 5 <= Client.len (List.concat chunks) < 5 + 4
    /\ last (progress_calls w') = Some (Client.len (List.concat chunks), Some 5).
Proof.
  apply (file_sender_stops_at_buffer_size Scenario.client_auth Scenario.ten_bytes 5).
  - reflexivity.
  - split; [lia | vm_compute; discriminate].
Defined.

(** X23.  When the answer to the [GET] has no [content-length] header,
    [download_to] raises [KeyError] after the request: nothing has been
    written to the buffer and the progress function has not been
    called. *)
Theorem download_to_without_content_length
    (c : Client.t) (path : string) (progress : bool) (w w1 w2 w3 : world)
    (resp : Http.response) :
  let urn := Urn.init path false in
  Client.is_directory c (Urn.path urn) w = (Ok false, w1) ->
  Client.exists_ c (Urn.path urn) w1 = (Ok true, w2) ->
  Client._execute_request c Client.download_ (Urn.quoted urn) Client.NoData [] w2
  = (Ok resp, w3) ->
  Http.header_get "content-length" (Http.resp_headers resp) = None ->
  Client.download_to c path progress w = (Raise (KeyError "content-length"), w3)
  /\ sink w3 = sink w
  /\ progress_calls w3 = progress_calls w.
Proof.
  intros urn Hd He Hr Hh. split.
  - unfold Client.download_to. fold urn.
    rewrite (bind_ok _ _ _ _ _ Hd). cbn iota.
    rewrite (bind_ok _ _ _ _ _ He). cbn [negb]. cbn iota.
    rewrite (bind_ok _ _ _ _ _ Hr). by rewrite Hh.
  - destruct (quiet_is_directory _ _ _ _ _ Hd) as (_ & _ & Hs1 & Hp1 & _).
    destruct (quiet_exists_any _ _ _ _ _ He) as (_ & _ & Hs2 & Hp2 & _).
    assert (quiet Client.any_request
              (Client._execute_request c Client.download_ (Urn.quoted urn)
                 Client.NoData [])) as Q by (by apply quiet_execute_request).
    destruct (Q _ _ _ Hr) as (_ & _ & Hs3 & Hp3 & _).
    split; congruence.
Qed.

Lemma download_to_without_content_length_witness :
  fst (Client.download_to Scenario.client "/docs/a.bin" true
         (Scenario.start Faults.sparse_server ∅))
  = Raise (KeyError "content-length").
Proof.
  set (w := Scenario.start Faults.sparse_server ∅).
  set (w1 := snd (Client.is_directory Scenario.client "/docs/a.bin" w)).
  set (w2 := snd (Client.exists_ Scenario.client "/docs/a.bin" w1)).
  set (w3 := snd (Client._execute_request Scenario.client Client.download_
                    "/docs/a.bin" Client.NoData [] w2)).
  assert (Client.is_directory Scenario.client
            (Urn.path (Urn.init "/docs/a.bin" false)) w = (Ok false, w1)) as H1
    by (vm_compute; reflexivity).
  assert (Client.exists_ Scenario.client
            (Urn.path (Urn.init "/docs/a.bin" false)) w1 = (Ok true, w2)) as H2
    by (vm_compute; reflexivity).
  assert (Client._execute_request Scenario.client Client.download_
            (Urn.quoted (Urn.init "/docs/a.bin" false)) Client.NoData [] w2
          = (Ok {| Http.status := 200;
                   Http.resp_headers := [("Transfer-Encoding", "chunked")];
                   Http.content := [Scenario.ten_bytes];
                   Http.text := Xml.XMLSyntaxError |}, w3)) as H3
    by (vm_compute; reflexivity).
  by rewrite (proj1 (download_to_without_content_length Scenario.client "/docs/a.bin"
                       true w w1 w2 w3 _ H1 H2 H3 eq_refl)).
Defined.

Lemma download_blocks_sink progress total blocks :
  forall current w,
  exists w',
    Client.download_blocks progress total current blocks w = (Ok tt, w')
    /\ remote w' = remote w /\ wire w' = wire w /\ local w' = local w
    /\ sink w' = sink w ++ List.concat blocks.
Proof.
  induction blocks as [|block blocks IH]; intros current w.
  - exists w. cbn. by rewrite app_nil_r.
  - cbn [Client.download_blocks].
    destruct progress.
    + destruct (IH (current + Client.len block)
                  {| remote := remote w; wire := wire w;
                     progress_calls :=
                       progress_calls w ++ [(current + Client.len block, Some total)];
                     sink := sink w ++ block; local := local w |})
        as (w' & Hrun & Hr & Hw & Hl & Hs).
      exists w'. split; [exact Hrun|].
      cbn in *. by rewrite Hs, <- app_assoc.
    + destruct (IH (current + Client.len block)
                  {| remote := remote w; wire := wire w;
                     progress_calls := progress_calls w;
                     sink := sink w ++ block; local := local w |})
        as (w' & Hrun & Hr & Hw & Hl & Hs).
      exists w'. split; [exact Hrun|].
      cbn in *. by rewrite Hs, <- app_assoc.
Qed.

(** X26.  On a server whose answers to the [GET] carry a
    [content-length] that [int] accepts, [download_to] succeeds whenever
    [download_iter] does, sends the same requests, and writes to the
    buffer the blocks that [download_iter] yields, in order. *)
Theorem download_to_writes_what_download_iter_yields
    (c : Client.t) (path : string) (progress : bool) (w w1 : world)
    (blocks : list (list byte)) :
  (forall h resp,
      remote w h (Client.primary_request c Client.download_
                    (Urn.quoted (Urn.init path false)) Http.NoBody [])
      = Http.Answer resp ->
      exists v n,
        Http.header_get "content-length" (Http.resp_headers resp) = Some v
        /\ int v = Some n) ->
  Stream.download_iter c path w = (Ok blocks, w1) ->
  exists w2,
    Client.download_to c path progress w = (Ok tt, w2)
    /\ wire w2 = wire w1
    /\ sink w2 = sink w1 ++ List.concat blocks.
Proof.
  intros Hserves Hiter.
  unfold Stream.download_iter in Hiter.
  apply bind_ok_inv in Hiter as (d & wa & Hd & Hiter).
  destruct d; [discriminate|].
  apply bind_ok_inv in Hiter as (e & wb & He & Hiter).
  destruct e; [|discriminate]. cbn [negb] in Hiter.
  apply bind_ok_inv in Hiter as (resp & wc & Hr & Hiter).
  injection Hiter as <- <-.
  destruct (execute_request_ok_inv _ _ _ _ _ _ _ _ Hr)
    as (wd & body & we & Hauth & Hbody & Hans & _).
  injection Hbody as <- <-.
  destruct (quiet_is_directory _ _ _ _ _ Hd) as (Hr1 & _).
  destruct (quiet_exists_any _ _ _ _ _ He) as (Hr2 & _).
  assert (quiet Client.any_request (Client.authenticate c)) as Qa
    by (by apply quiet_authenticate).
  destruct (Qa _ _ _ Hauth) as (Hr3 & _).
  rewrite Hr3, Hr2, Hr1 in Hans.
  destruct (Hserves _ _ Hans) as (v & n & Hv & Hn).
  destruct (download_blocks_sink progress n
              (Http.iter_chunked (Client._chunk_size c) resp) 0
              (if progress
               then {| remote := remote wc; wire := wire wc;
                       progress_calls := progress_calls wc ++ [(0, Some n)];
                       sink := sink wc; local := local wc |}
               else wc))
    as (w2 & Hrun & _ & Hw & _ & Hs).
  exists w2. split.
  - unfold Client.download_to.
    rewrite (bind_ok _ _ _ _ _ Hd). cbn iota.
    rewrite (bind_ok _ _ _ _ _ He). cbn [negb]. cbn iota.
    rewrite (bind_ok _ _ _ _ _ Hr). rewrite Hv, Hn.
    rewrite bind_ret. rewrite <- Hrun.
    unfold Client.report. by destruct progress.
  - rewrite Hw, Hs. by destruct progress.
Qed.

Lemma download_to_writes_what_download_iter_yields_witness :
  exists w2,
    Client.download_to Scenario.client_auth "/docs/a.bin" false
      (Scenario.start Scenario.docs_server ∅) = (Ok tt, w2)
    /\ sink w2 = Scenario.ten_bytes.
Proof.
  set (w := Scenario.start Scenario.docs_server ∅).
  set (w1 := snd (Stream.download_iter Scenario.client_auth "/docs/a.bin" w)).
  assert (Stream.download_iter Scenario.client_auth "/docs/a.bin" w
          = (Ok [[Byte.x2a; Byte.x2a; Byte.x2a]; [Byte.x2a; Byte.x2a; Byte.x2a; Byte.x2a];
                 [Byte.x2a; Byte.x2a; Byte.x2a]], w1)) as H
    by (vm_compute; reflexivity).
  destruct (download_to_writes_what_download_iter_yields Scenario.client_auth
              "/docs/a.bin" false w w1 _
              ltac:(intros h resp [= <-]; exists "10", 10; split; reflexivity) H)
    as (w2 & Hrun & _ & Hs).
  exists w2. split; [exact Hrun|]. rewrite Hs. reflexivity.
Defined.

(** *** Resources *)

Lemma probe_never_overwrites r :
  Client.is_probe r = true -> Terms.never_overwrites r = true.
Proof.
  unfold Client.is_probe, Terms.never_overwrites.
  destruct (String.eqb (Http.method r) "HEAD") eqn:E1.
  { apply String.eqb_eq in E1. by rewrite E1. }
  destruct (String.eqb (Http.method r) "GET") eqn:E2; [|done].
  apply String.eqb_eq in E2. by rewrite E2.
Qed.

Lemma quiet_move_keeps c source destination :
  quiet Terms.never_overwrites (Client.move c source destination false).
Proof.
  unfold Client.move. apply quiet_bind.
  { eapply quiet_weaken; [|apply quiet_exists]. apply probe_never_overwrites. }
  intros e. destruct e; cbn [negb]; [|apply quiet_raise].
  apply quiet_bind.
  { eapply quiet_weaken; [|apply quiet_exists]. apply probe_never_overwrites. }
  intros e. destruct e; cbn [negb]; [|apply quiet_raise].
  apply quiet_bind; [|intros _; apply quiet_ret].
  apply quiet_execute_request; [done|done|].
  unfold Terms.never_overwrites.
  cbn [Client.primary_request Http.method Http.headers Client.DEFAULT_REQUESTS].
  change (String.eqb "MOVE" "MOVE") with true. cbv iota.
  destruct (move_headers c
              (Client._get_url c (Urn.quoted (Urn.init destination false))) false)
    as [_ Ho].
  cbv zeta in Ho. by rewrite Ho.
Qed.

(** X22.  Every [MOVE] request that [Resource.rename] and
    [Resource.move] send carries [Overwrite: F]. *)
Theorem resource_move_never_overwrites (r : Resource.t) (target : string) :
  quiet Terms.never_overwrites (Resource.rename r target)
  /\ quiet Terms.never_overwrites (Resource.move r target).
Proof.
  split.
  - unfold Resource.rename. apply quiet_bind; [apply quiet_move_keeps|].
    intros _. apply quiet_ret.
  - unfold Resource.move. apply quiet_bind; [apply quiet_move_keeps|].
    intros _. apply quiet_ret.
Qed.

End ClientMore.

(** ** [parent] and [filename] *)

Module UrnParts.
Import PyStr PyStrFacts Urn.
Local Open Scope nat_scope.

Lemma count_sep_append a b : count_sep (a +:+ b) = count_sep a + count_sep b.
Proof.
  induction a as [|c t IH]; [by rewrite append_nil_l|].
  rewrite append_cons. cbn [count_sep]. rewrite IH. lia.
Qed.

Lemma length_split_sep s : List.length (split_sep s) = S (count_sep s).
Proof.
  induction s as [|c t IH]; [done|].
  cbn [split_sep count_sep]. destruct (is_slash c).
  - cbn [List.length]. rewrite IH. lia.
  - destruct (split_sep t) as [|w ws]; [discriminate|].
    cbn [List.length] in *. lia.
Qed.

Lemma split_sep_plain x : count_sep x = 0 -> split_sep x = [x].
Proof.
  induction x as [|c t IH]; [done|].
  cbn [count_sep split_sep]. destruct (is_slash c); [discriminate|].
  intros H. by rewrite IH.
Qed.

Lemma split_sep_append a x :
  split_sep (a +:+ String slash x) = (split_sep a ++ split_sep x)%list.
Proof.
  induction a as [|c t IH].
  - rewrite append_nil_l. cbn [split_sep]. by rewrite is_slash_slash.
  - rewrite append_cons. cbn [split_sep]. rewrite IH.
    destruct (is_slash c); [done|].
    pose proof (length_split_sep t) as Hl.
    destruct (split_sep t) as [|w ws]; [discriminate|]. done.
Qed.

Lemma join_sep_snoc l x :
  l <> [] -> join_sep (l ++ [x]) = join_sep l +:+ String slash x.
Proof.
  induction l as [|w ws IH]; [done|]. intros _.
  destruct ws as [|w' ws'].
  - cbn [app join_sep]. done.
  - change (join_sep ((w :: w' :: ws') ++ [x]))
      with (w +:+ String slash (join_sep ((w' :: ws') ++ [x]))).
    rewrite IH by done.
    change (join_sep (w :: w' :: ws'))
      with (w +:+ String slash (join_sep (w' :: ws'))).
    rewrite append_assoc. by rewrite append_cons.
Qed.

Lemma join_split_sep s : join_sep (split_sep s) = s.
Proof.
  induction s as [|c t IH]; [done|].
  cbn [split_sep]. destruct (is_slash c) eqn:Ec.
  - apply is_slash_true in Ec as ->.
    pose proof (length_split_sep t) as Hl.
    destruct (split_sep t) as [|w ws] eqn:E; [discriminate|].
    change (join_sep (EmptyString :: w :: ws))
      with (EmptyString +:+ String slash (join_sep (w :: ws))).
    by rewrite IH, append_nil_l.
  - pose proof (length_split_sep t) as Hl.
    destruct (split_sep t) as [|w ws] eqn:E; [discriminate|].
    destruct ws as [|w' ws'].
    + cbn [join_sep] in *. by rewrite IH.
    + change (join_sep (String c w :: w' :: ws'))
        with (String c w +:+ String slash (join_sep (w' :: ws'))).
      change (join_sep (w :: w' :: ws'))
        with (w +:+ String slash (join_sep (w' :: ws'))) in IH.
      by rewrite append_cons, IH.
Qed.

(** Cutting at the last separator. *)
Lemma cut_last_sep s :
  0 < count_sep s ->
  exists a x, s = a +:+ String slash x /\ count_sep x = 0.
Proof.
  induction s as [|c t IH]; [cbn; lia|].
  cbn [count_sep]. intros H.
  destruct (count_sep t) as [|k] eqn:Et.
  - destruct (is_slash c) eqn:Ec; [|lia].
    apply is_slash_true in Ec as ->.
    exists EmptyString, t. by rewrite append_nil_l.
  - destruct IH as (a & x & -> & Hx); [lia|].
    exists (String c a), x. by rewrite append_cons.
Qed.

Lemma drop_last_append a c t :
  drop_last (a +:+ String c t) = a +:+ drop_last (String c t).
Proof.
  induction a as [|d a IH]; [by rewrite !append_nil_l|].
  rewrite !append_cons.
  change (drop_last (String d (a +:+ String c t)))
    with (match a +:+ String c t with
          | EmptyString => EmptyString
          | String _ _ => String d (drop_last (a +:+ String c t))
          end).
  destruct (a +:+ String c t) eqn:E.
  - destruct a; discriminate.
  - by rewrite IH.
Qed.

Lemma count_sep_drop_last_plain x : count_sep x = 0 -> count_sep (drop_last x) = 0.
Proof.
  induction x as [|c t IH]; [done|].
  cbn [count_sep]. destruct (is_slash c) eqn:Ec; [discriminate|]. intros H.
  destruct t as [|d t]; [done|].
  change (drop_last (String c (String d t))) with (String c (drop_last (String d t))).
  cbn [count_sep]. rewrite Ec. by apply IH.
Qed.

Lemma squeezed_before_sep a x :
  squeeze (a +:+ String slash x) = a +:+ String slash x -> endswith_sep a = false.
Proof.
  induction a as [|c t IH]; [done|].
  rewrite append_cons. intros H. apply UrnMore.squeezed_cons in H as [Hc Ht].
  rewrite endswith_sep_cons. destruct t as [|d t].
  - rewrite append_nil_l in Hc. cbn [startswith_sep] in Hc.
    rewrite is_slash_slash, andb_true_r in Hc. exact Hc.
  - by apply IH.
Qed.

Lemma unquote_after_sep a b :
  endswith_sep a = true -> unquote (a +:+ b) = unquote a +:+ unquote b.
Proof.
  remember (String.length a) as n eqn:Hn.
  revert a Hn. induction (lt_wf n) as [n _ IH]. intros a -> H.
  destruct a as [|c t]; [done|].
  assert (Hplain : String c (unquote (t +:+ b))
                   = String c (unquote t) +:+ unquote b).
  { rewrite append_cons. f_equal.
    destruct t as [|d t]; [by rewrite !append_nil_l|].
    apply (IH (String.length (String d t))); [simpl; lia | done |].
    by rewrite endswith_sep_cons in H. }
  rewrite append_cons.
  destruct (Ascii.eqb c "%") eqn:Ec.
  2:{ cbn [unquote]. rewrite Ec. exact Hplain. }
  apply Ascii.eqb_eq in Ec as ->.
  destruct t as [|h [|l r]].
  - discriminate.
  - (* "%/" *)
    rewrite endswith_sep_cons in H. cbn [endswith_sep] in H.
    apply is_slash_true in H as ->.
    rewrite append_cons, append_nil_l.
    destruct b as [|e b]; [done|].
    reflexivity.
  - rewrite !append_cons.
    change (unquote (String "%" (String h (String l (r +:+ b)))))
      with (match hex_value h, hex_value l with
            | Some x, Some y => String (ascii_of_N (16 * x + y)) (unquote (r +:+ b))
            | _, _ => String "%"%char (unquote (String h (String l (r +:+ b))))
            end).
    change (unquote (String "%" (String h (String l r))))
      with (match hex_value h, hex_value l with
            | Some x, Some y => String (ascii_of_N (16 * x + y)) (unquote r)
            | _, _ => String "%"%char (unquote (String h (String l r)))
            end).
    rewrite <- !append_cons.
    destruct (hex_value h) as [x|] eqn:Eh; [|exact Hplain].
    destruct (hex_value l) as [y|] eqn:El; [|exact Hplain].
    rewrite append_cons. f_equal.
    assert (Hr : endswith_sep r = true /\ r <> EmptyString).
    { destruct r as [|e r].
      - exfalso. simpl in H. revert El H. clear. each_char l; intros; discriminate.
      - split; [exact H | done]. }
    destruct Hr as [Hr Hne].
    apply (IH (String.length r)); [simpl; lia | done | done].
Qed.

Lemma count_sep_rooted a : startswith_sep a = true -> 0 < count_sep a.
Proof.
  destruct a as [|c t]; [done|]. cbn [startswith_sep count_sep].
  intros ->. lia.
Qed.

Lemma parent_cut s a :
  count_sep (drop_last s) = List.length (split_sep a) ->
  take (List.length (split_sep a)) (split_sep s) = split_sep a ->
  a = EmptyString \/ startswith_sep a = true ->
  endswith_sep a = false ->
  parent (Mk s) = unquote (a +:+ separate).
Proof.
  intros Hn Ht Ha He. unfold parent, nesting_level. cbn [_path].
  rewrite Hn, Ht, join_split_sep. destruct Ha as [->|Hs].
  - reflexivity.
  - rewrite length_split_sep.
    pose proof (count_sep_rooted a Hs) as Hc.
    destruct (count_sep a) as [|k]; [lia|].
    cbn [Nat.eqb negb]. by rewrite He.
Qed.

Lemma rooted_prefix a r :
  startswith_sep (a +:+ r) = true -> a = EmptyString \/ startswith_sep a = true.
Proof. destruct a as [|c t]; [by left|]. rewrite append_cons. by right. Qed.

Lemma parent_then_filename_of s :
  startswith_sep s = true -> squeeze s = s -> s <> separate ->
  parent (Mk s) +:+ filename (Mk s) = unquote s.
Proof.
  intros Hs Hq Hroot.
  destruct (cut_last_sep s (count_sep_rooted s Hs)) as (a & x & -> & Hx).
  pose proof (squeezed_before_sep a x Hq) as Ha.
  pose proof (rooted_prefix _ _ Hs) as Hsa.
  destruct x as [|c x].
  - (* the locator of a directory *)
    assert (a <> EmptyString) as Hne.
    { intros ->. by apply Hroot. }
    destruct Hsa as [->|Hsa]; [done|].
    destruct (cut_last_sep a (count_sep_rooted a Hsa)) as (q & y & -> & Hy).
    assert (y <> EmptyString) as Hyne.
    { intros ->. by rewrite endswith_sep_append in Ha. }
    assert (endswith_sep q = false) as Hqe.
    { apply (squeezed_before_sep q (y +:+ separate)).
      by rewrite append_assoc, append_cons in Hq. }
    assert (split_sep ((q +:+ String slash y) +:+ String slash EmptyString)
            = ((split_sep q ++ [y]) ++ [EmptyString])%list) as Hsplit.
    { by rewrite !split_sep_append, (split_sep_plain y Hy). }
    rewrite (parent_cut _ q).
    + unfold filename. cbn [_path]. rewrite Hsplit.
      rewrite !length_app. cbn [List.length].
      replace (List.length (split_sep q) + 1 + 1 - 1)
        with (List.length (split_sep q ++ [y])) by (rewrite length_app; cbn; lia).
      rewrite (list_lookup_middle _ [] EmptyString _ eq_refl).
      cbn [default id String.eqb].
      replace (List.length (split_sep q) + 1 + 1 - 2)
        with (List.length (split_sep q)) by lia.
      rewrite <- app_assoc.
      change ([y] ++ [EmptyString])%list with [y; EmptyString].
      rewrite (list_lookup_middle _ _ y _ eq_refl). cbn [default id].
      rewrite <- unquote_after_sep by (by rewrite endswith_sep_append).
      f_equal. unfold separate.
      by rewrite !append_assoc, !append_cons, !append_nil_l.
    + rewrite drop_last_append. cbn [drop_last]. rewrite append_empty_r.
      rewrite count_sep_append, length_split_sep. cbn [count_sep].
      rewrite is_slash_slash, Hy. lia.
    + rewrite Hsplit, <- app_assoc. apply take_app_length.
    + by apply (rooted_prefix q (String slash y)).
    + exact Hqe.
  - (* the locator of a file *)
    assert (split_sep (a +:+ String slash (String c x))
            = (split_sep a ++ [String c x])%list) as Hsplit.
    { by rewrite split_sep_append, (split_sep_plain _ Hx). }
    rewrite (parent_cut _ a).
    + unfold filename. cbn [_path]. rewrite Hsplit.
      rewrite length_app. cbn [List.length].
      replace (List.length (split_sep a) + 1 - 1)
        with (List.length (split_sep a)) by lia.
      rewrite (list_lookup_middle _ [] (String c x) _ eq_refl).
      cbn [default id String.eqb].
      rewrite <- unquote_after_sep by (by rewrite endswith_sep_append).
      f_equal. unfold separate.
      by rewrite append_assoc, append_cons, append_nil_l.
    + rewrite drop_last_append.
      change (drop_last (String slash (String c x)))
        with (String slash (drop_last (String c x))).
      rewrite count_sep_append, length_split_sep. cbn [count_sep].
      rewrite is_slash_slash.
      pose proof (count_sep_drop_last_plain _ Hx) as Hd.
      cbn [count_sep] in Hd. rewrite Hd. lia.
    + rewrite Hsplit. apply take_app_length.
    + exact Hsa.
    + exact Ha.
Qed.

Lemma startswith_quoted_init p d : startswith_sep (quoted (init p d)) = true.
Proof.
  rewrite UrnMore.quoted_init. pose proof (UrnMore.startswith_rooted p) as H.
  destruct (d && negb (endswith_sep (rooted p))); [|done].
  destruct (rooted p) as [|c r]; [done|]. by rewrite append_cons.
Qed.

Lemma squeeze_quoted_init p d : squeeze (quoted (init p d)) = quoted (init p d).
Proof.
  rewrite UrnMore.quoted_init. pose proof (UrnMore.squeeze_rooted p) as H.
  destruct (d && negb (endswith_sep (rooted p))) eqn:E; [|done].
  apply andb_true_iff in E as [_ E]. apply negb_true_iff in E.
  by apply UrnMore.squeeze_snoc.
Qed.

(** X27.  For every locator but the root, [parent] followed by
    [filename] is [path]: the two cut the decoded path at its last
    separator, the one that ends the path of a directory apart.  For
    the root both are the separator. *)
Theorem parent_then_filename (p : string) (d : bool) :
  (quoted (init p d) <> separate ->
   parent (init p d) +:+ filename (init p d) = path (init p d))
  /\ (quoted (init p d) = separate ->
      parent (init p d) = separate /\ filename (init p d) = separate).
Proof.
  split.
  - intros Hroot.
    pose proof (startswith_quoted_init p d) as Hs.
    pose proof (squeeze_quoted_init p d) as Hq.
    unfold quoted in *. unfold path.
    destruct (init p d) as [s]. by apply parent_then_filename_of.
  - unfold quoted. destruct (init p d) as [s]. cbn [_path]. by intros ->.
Qed.

Lemma parent_then_filename_witness :
  parent (init "/my docs//a%20b.txt" false) +:+ filename (init "/my docs//a%20b.txt" false)
  = "/my docs/a%20b.txt"
  /\ parent (init "photos/2024" true) +:+ filename (init "photos/2024" true)
     = "/photos/2024/"
  /\ parent (init EmptyString false) = separate
  /\ filename (init EmptyString false) = separate.
Proof.
  split; [|split].
  - rewrite (proj1 (parent_then_filename "/my docs//a%20b.txt" false));
      [reflexivity | intros H; vm_compute in H; discriminate H].
  - rewrite (proj1 (parent_then_filename "photos/2024" true));
      [reflexivity | intros H; vm_compute in H; discriminate H].
  - apply (proj2 (parent_then_filename EmptyString false)). reflexivity.
Defined.

End UrnParts.
